(** * fileupload-service: provider abstraction and tenant routing

    A shallow embedding of the storage adapters
    ([providers/aws-s3-provider.js], [providers/azure-storage-provider.js]),
    the factory ([providers/storage-provider-factory.js]), the tenant
    registry ([config/platform-config.js]), the routing service
    ([services/multi-tenant-storage-service.js]) and the two name
    sanitizers ([utils/sanitizeFileName.js], [utils/sanitizeBucketName.js]),
    followed by the properties of the specification stated over them. *)

From Stdlib Require Import Ascii.
From stdpp Require Import prelude strings gmap pretty.

Open Scope N_scope.

(** ** Name sanitizers

    A JavaScript string is a sequence of UTF-16 code units; the sanitizers
    are modelled on [list N].  [String.prototype.toLowerCase] belongs to the
    runtime (it follows the Unicode case tables) and is a parameter of the
    two functions. *)

Module Sanitize.

Definition hyphen : N := 45.
Definition dot : N := 46.

Definition is_hyphen (c : N) : bool := c =? hyphen.
Definition is_dot (c : N) : bool := c =? dot.

(** The class [\s] of ECMAScript regular expressions: WhiteSpace and
    LineTerminator code points.  [String.prototype.trim] strips the same
    set. *)
Definition is_ws (c : N) : bool :=
  (c =? 9) || (c =? 10) || (c =? 11) || (c =? 12) || (c =? 13) ||
  (c =? 32) || (c =? 160) || (c =? 5760) ||
  ((8192 <=? c) && (c <=? 8202)) ||
  (c =? 8232) || (c =? 8233) || (c =? 8239) || (c =? 8287) ||
  (c =? 12288) || (c =? 65279).

(** The character class [[a-z0-9!._*'()\-]]. *)
Definition allowed (c : N) : bool :=
  ((97 <=? c) && (c <=? 122)) || ((48 <=? c) && (c <=? 57)) ||
  (c =? 33) || (c =? 46) || (c =? 95) || (c =? 42) || (c =? 39) ||
  (c =? 40) || (c =? 41) || (c =? 45).

(** [s.replace(/P+/g, rep)]: every maximal run of code units matching [P]
    is replaced by [rep]; the replacement is emitted where the run ends. *)
Fixpoint replace_runs (p : N → bool) (rep : list N) (s : list N) : list N :=
  match s with
  | [] => []
  | c :: r =>
      if p c then
        match r with
        | c' :: _ => if p c' then replace_runs p rep r
                     else rep ++ replace_runs p rep r
        | [] => rep
        end
      else c :: replace_runs p rep r
  end.

(** [s.replace(/[^...]/g, "")] keeps the code units of the class. *)
Definition keep_only (p : N → bool) (s : list N) : list N :=
  List.filter p s.

(** [s.replace(/^P+/, "")]. *)
Fixpoint strip_leading (p : N → bool) (s : list N) : list N :=
  match s with
  | [] => []
  | c :: r => if p c then strip_leading p r else s
  end.

(** [s.replace(/P+$/, "")]: the leftmost match of [P+$] is the whole
    trailing run. *)
Fixpoint strip_trailing (p : N → bool) (s : list N) : list N :=
  match s with
  | [] => []
  | c :: r =>
      match strip_trailing p r with
      | [] => if p c then [] else [c]
      | r' => c :: r'
      end
  end.

(** Does [s] start with zero or more hyphens followed by a dot? *)
Fixpoint run_then_dot (s : list N) : bool :=
  match s with
  | [] => false
  | c :: r => if is_hyphen c then run_then_dot r else is_dot c
  end.

(** [s.replace(/-+\./g, ".")]: a run of hyphens that reaches a dot is
    dropped, the dot stays. *)
Fixpoint drop_hyphens_before_dot (s : list N) : list N :=
  match s with
  | [] => []
  | c :: r =>
      if is_hyphen c && run_then_dot r then drop_hyphens_before_dot r
      else c :: drop_hyphens_before_dot r
  end.

(** Conditions on the result of the file-name pipeline: no two adjacent
    hyphens, no hyphen at either end, no hyphen directly before a dot. *)
Fixpoint no_double_hyphen (s : list N) : bool :=
  match s with
  | [] => true
  | c :: r =>
      match r with
      | c' :: _ => negb (is_hyphen c && is_hyphen c')
      | [] => true
      end && no_double_hyphen r
  end.

Definition no_leading_hyphen (s : list N) : bool :=
  match s with
  | [] => true
  | c :: _ => negb (is_hyphen c)
  end.

Fixpoint no_trailing_hyphen (s : list N) : bool :=
  match s with
  | [] => true
  | c :: r =>
      match r with
      | [] => negb (is_hyphen c)
      | _ :: _ => no_trailing_hyphen r
      end
  end.

Fixpoint no_hyphen_dot (s : list N) : bool :=
  match s with
  | [] => true
  | c :: r =>
      match r with
      | c' :: _ => negb (is_hyphen c && is_dot c')
      | [] => true
      end && no_hyphen_dot r
  end.

Definition all_allowed (s : list N) : Prop := Forall (λ c, allowed c = true) s.

Record file_name_nf (s : list N) : Prop := FileNameNf {
  nf_allowed : all_allowed s;
  nf_double : no_double_hyphen s = true;
  nf_leading : no_leading_hyphen s = true;
  nf_trailing : no_trailing_hyphen s = true;
  nf_dot : no_hyphen_dot s = true
}.

(** [String.prototype.trim]. *)
Definition trim (s : list N) : list N :=
  strip_trailing is_ws (strip_leading is_ws s).

Section WithRuntime.
Variable toLowerCase : list N → list N.

(** [utils/sanitizeFileName.js] *)
Definition sanitizeFileName (fileName : list N) : list N :=
    let s1 := toLowerCase fileName in
    let s2 := replace_runs is_ws [hyphen] s1 in
    let s3 := keep_only allowed s2 in
    let s4 := replace_runs is_hyphen [hyphen] s3 in
    let s5 := strip_leading is_hyphen s4 in
    let s6 := strip_trailing is_hyphen s5 in
    drop_hyphens_before_dot s6.

(** [utils/sanitizeBucketName.js] *)
Definition sanitizeBucketName (bucketName : list N) : list N :=
    strip_trailing is_hyphen (toLowerCase (trim bucketName)).
End WithRuntime.

(** The case mapping restricted to the Basic Latin block; it agrees with
    the runtime's [toLowerCase] on every ASCII string. *)
Definition asciiLower (s : list N) : list N :=
  List.map (λ c, if (65 <=? c) && (c <=? 90) then c + 32 else c) s.

(** Code units of an ASCII literal. *)
Fixpoint units (s : string) : list N :=
  match s with
  | EmptyString => []
  | String a r => Ascii.N_of_ascii a :: units r
  end.

End Sanitize.

(** ** JavaScript values and exceptions *)

Module Js.

(** Primitive values.  [JNum n] is a number whose value is the integer [n]
    (within the range printed in plain decimal notation); [JNaN] is the
    not-a-number value.  Fractional numbers are not represented. *)
Inductive JsVal : Type :=
| JUndefined
| JNull
| JBool (b : bool)
| JNum (n : Z)
| JNaN
| JStr (s : string).

(** ToBoolean: the values [undefined], [null], [false], [0], [NaN] and the
    empty string are falsy. *)
Definition truthy (v : JsVal) : bool :=
  match v with
  | JUndefined | JNull | JNaN => false
  | JBool b => b
  | JNum n => negb (n =? 0)%Z
  | JStr s => negb (String.eqb s "")
  end.

(** [String(v)], also the conversion used by template literals. *)
Definition ToString (v : JsVal) : string :=
  match v with
  | JUndefined => "undefined"
  | JNull => "null"
  | JBool true => "true"
  | JBool false => "false"
  | JNum n => pretty n
  | JNaN => "NaN"
  | JStr s => s
  end.

(** An optional string is a value that is either a string or [undefined]
    / [null]; [falsy_str] is [!s]. *)
Definition of_opt (s : option string) : JsVal :=
  match s with
  | Some x => JStr x
  | None => JUndefined
  end.

Definition tmpl (s : option string) : string := ToString (of_opt s).

Definition falsy_str (s : option string) : bool := negb (truthy (of_opt s)).

(** Thrown values are [Error] objects. *)
Record JsError : Type := MkError {
  err_name : string;
  err_code : option string;
  err_message : string
}.

Definition new_Error (msg : string) : JsError :=
  {| err_name := "Error"; err_code := None; err_message := msg |}.

Definition new_TypeError (msg : string) : JsError :=
  {| err_name := "TypeError"; err_code := None; err_message := msg |}.

Definition new_RangeError (msg : string) : JsError :=
  {| err_name := "RangeError"; err_code := None; err_message := msg |}.

Inductive result (A : Type) : Type :=
| Ok (a : A)
| Throw (e : JsError).
Arguments Ok {A} a.
Arguments Throw {A} e.

(** [try { ... } catch (error) { throw new Error(`prefix${error.message}`) }]
    for code without effects. *)
Definition rethrow {A} (prefix : string) (r : result A) : result A :=
  match r with
  | Ok a => Ok a
  | Throw e => Throw (new_Error (prefix +:+ err_message e))
  end.

End Js.

(** ** String operations used by the adapters *)

Module Str.

(** [s.split(sep)] for a one-character separator; never the empty list. *)
Fixpoint split_on (sep : Ascii.ascii) (s : string) : list string :=
  match s with
  | EmptyString => [EmptyString]
  | String c r =>
      if Ascii.eqb c sep then EmptyString :: split_on sep r
      else match split_on sep r with
           | w :: ws => String c w :: ws
           | [] => [String c EmptyString]
           end
  end.

(** [parts.join(sep)]. *)
Fixpoint join (sep : string) (parts : list string) : string :=
  match parts with
  | [] => EmptyString
  | w :: ws =>
      match ws with
      | [] => w
      | _ :: _ => w +:+ sep +:+ join sep ws
      end
  end.

(** [s.includes(sub)]. *)
Fixpoint includes (sub s : string) : bool :=
  String.prefix sub s ||
  match s with
  | EmptyString => false
  | String _ r => includes sub r
  end.

(** [s.substring(1)]. *)
Definition substring1 (s : string) : string :=
  match s with
  | EmptyString => EmptyString
  | String _ r => r
  end.

(** [part => part.length > 0]. *)
Definition nonempty (s : string) : bool :=
  match s with
  | EmptyString => false
  | String _ _ => true
  end.

(** [parts.pop()] of a split result, and [parts[0]], [parts.slice(1)]. *)
Definition pop (parts : list string) : string := List.last parts EmptyString.

Definition first (parts : list string) : option string := List.head parts.

Definition slice1 (parts : list string) : list string := List.tl parts.

(** Does the character occur in the string? *)
Fixpoint has_char (c : Ascii.ascii) (s : string) : bool :=
  match s with
  | EmptyString => false
  | String a r => Ascii.eqb a c || has_char c r
  end.

(** Basic Latin lower-casing of a byte string. *)
Definition lower_ascii (a : Ascii.ascii) : Ascii.ascii :=
  let n := Ascii.N_of_ascii a in
  if (65 <=? n) && (n <=? 90) then Ascii.ascii_of_N (n + 32) else a.

Fixpoint lower (s : string) : string :=
  match s with
  | EmptyString => EmptyString
  | String c r => String (lower_ascii c) (lower r)
  end.

End Str.

(** ** The runtime: URL constructor, dates, numeric conversion *)

Module Url.
Import Js.

(** The two fields of a [URL] object read by the adapters. *)
Record URL : Type := MkURL {
  hostname : string;
  pathname : string
}.

(** What the adapters take from the JavaScript runtime.
    - [new_URL] is the WHATWG [URL] constructor; it throws a [TypeError]
      on an address it cannot parse;
    - [date_iso t] is [toISOString] of the valid time value [t]
      (milliseconds since the epoch);
    - [local_minutes t] is [getMinutes] of that time value;
    - [string_to_number] is ToNumber on strings. *)
Class Runtime : Type := MkRuntime {
  new_URL : string → result URL;
  date_iso : Z → string;
  local_minutes : Z → Z;
  string_to_number : string → JsVal
}.

(** *** Numbers and dates *)

Section Arith.
Context `{Runtime}.

Definition ToNumber (v : JsVal) : JsVal :=
  match v with
  | JUndefined => JNaN
  | JNull => JNum 0
  | JBool b => JNum (if b then 1 else 0)
  | JNum n => JNum n
  | JNaN => JNaN
  | JStr s => string_to_number s
  end.

(** [a * b] *)
Definition js_mul (a b : JsVal) : JsVal :=
  match ToNumber a, ToNumber b with
  | JNum x, JNum y => JNum (x * y)
  | _, _ => JNaN
  end.

(** [a + b]: concatenation as soon as one operand is a string. *)
Definition js_add (a b : JsVal) : JsVal :=
  match a, b with
  | JStr x, _ => JStr (x +:+ ToString b)
  | _, JStr y => JStr (ToString a +:+ y)
  | _, _ =>
      match ToNumber a, ToNumber b with
      | JNum x, JNum y => JNum (x + y)
      | _, _ => JNaN
      end
  end.

(** [a - b] *)
Definition js_sub (a b : JsVal) : JsVal :=
  match ToNumber a, ToNumber b with
  | JNum x, JNum y => JNum (x - y)
  | _, _ => JNaN
  end.

(** A [Date] object holds a time value or is an Invalid Date ([None]).
    TimeClip bounds valid time values by 8.64e15 ms. *)
Definition time_clip (v : JsVal) : option Z :=
  match ToNumber v with
  | JNum t => if ((-8640000000000000 <=? t) && (t <=? 8640000000000000))%Z
              then Some t else None
  | _ => None
  end.

(** [d.setMinutes(m)]: the minute field of the local time is replaced; the
    model takes the local offset as constant across the change. *)
Definition setMinutes (d : option Z) (m : JsVal) : option Z :=
  match d, ToNumber m with
  | Some t, JNum k => time_clip (JNum (t + (k - local_minutes t) * 60000))
  | _, _ => None
  end.

(** [d.getMinutes()] *)
Definition getMinutes (d : option Z) : JsVal :=
  match d with
  | Some t => JNum (local_minutes t)
  | None => JNaN
  end.

(** [d.toISOString()] throws a [RangeError] on an Invalid Date. *)
Definition toISOString (d : option Z) : result string :=
  match d with
  | Some t => Ok (date_iso t)
  | None => Throw (new_RangeError "Invalid time value")
  end.

End Arith.

(** *** A URL constructor for plain https addresses

    [plain_https_URL] reads [https://host/path] where the host is a plain
    lower-case DNS name and the path consists of characters the WHATWG
    parser leaves untouched and has no dot segment; on such an address
    the [URL] constructor returns the host and the path verbatim.  Every
    other input is rejected by this instance (the real constructor accepts
    and normalises some of them). *)

Definition host_char (a : Ascii.ascii) : bool :=
  let n := Ascii.N_of_ascii a in
  ((97 <=? n) && (n <=? 122)) || ((48 <=? n) && (n <=? 57)) ||
  (n =? 45) || (n =? 46).

Definition digit_char (a : Ascii.ascii) : bool :=
  let n := Ascii.N_of_ascii a in (48 <=? n) && (n <=? 57).

(** Letters, digits and [-._~!$&'()*+,;=:@/]. *)
Definition path_char (a : Ascii.ascii) : bool :=
  let n := Ascii.N_of_ascii a in
  ((97 <=? n) && (n <=? 122)) || ((65 <=? n) && (n <=? 90)) ||
  ((48 <=? n) && (n <=? 57)) ||
  (n =? 45) || (n =? 46) || (n =? 95) || (n =? 126) || (n =? 33) ||
  (n =? 36) || ((38 <=? n) && (n <=? 44)) || (n =? 59) || (n =? 61) ||
  (n =? 58) || (n =? 64) || (n =? 47).

Fixpoint all_chars (p : Ascii.ascii → bool) (s : string) : bool :=
  match s with
  | EmptyString => true
  | String c r => p c && all_chars p r
  end.

Definition plain_label (l : string) : bool :=
  Str.nonempty l && negb (String.prefix "xn--" l).

Definition starts_with_digit (l : string) : bool :=
  match l with
  | EmptyString => false
  | String c _ => digit_char c
  end.

Definition plain_host (h : string) : bool :=
  let labels := Str.split_on "."%char h in
  all_chars host_char h && forallb plain_label labels &&
  negb (starts_with_digit (Str.pop labels)).

Definition dot_segment (s : string) : bool :=
  String.eqb s "." || String.eqb s "..".

Definition plain_path (p : string) : bool :=
  all_chars path_char p && negb (existsb dot_segment (Str.split_on "/"%char p)).

Fixpoint strip_prefix (pre s : string) : option string :=
  match pre with
  | EmptyString => Some s
  | String a pre' =>
      match s with
      | EmptyString => None
      | String b s' => if Ascii.eqb a b then strip_prefix pre' s' else None
      end
  end.

(** Splits [host/path] before the first slash. *)
Fixpoint break_at_slash (s : string) : string * string :=
  match s with
  | EmptyString => (EmptyString, EmptyString)
  | String c r =>
      if Ascii.eqb c "/"%char then (EmptyString, s)
      else let '(h, p) := break_at_slash r in (String c h, p)
  end.

Definition plain_https_URL (url : string) : result URL :=
  match strip_prefix "https://" url with
  | None => Throw (new_TypeError "Invalid URL")
  | Some rest =>
      let '(h, p) := break_at_slash rest in
      if plain_host h && plain_path p
      then Ok {| hostname := h;
                 pathname := if Str.nonempty p then p else "/" |}
      else Throw (new_TypeError "Invalid URL")
  end.

End Url.

(** ** Tenant registry ([config/platform-config.js]) *)

Module Config.
Import Js.

(** One environment entry.  Most values are read from the process
    environment and may be [undefined]. *)
Record EnvConfig : Type := MkEnv {
  apiKey : option string;
  provider : option string;
  connectionString : option string;
  accountName : option string;
  accountKey : option string;
  accessKeyId : option string;
  secretAccessKey : option string;
  region : option string;
  bucketName : option string
}.

Record Platform : Type := MkPlatform {
  name : string;
  environments : gmap string EnvConfig
}.

(** The object [{ platformName: platform.name, ...envConfig }]. *)
Record PlatformConfig : Type := MkConfig {
  platformName : string;
  env : EnvConfig
}.

Definition no_fields : EnvConfig :=
  MkEnv None None None None None None None None None.

(** Property names every object literal inherits from [Object.prototype];
    a lookup of one of them on [platforms] or [environments] finds a
    truthy inherited value. *)
Definition inherited (k : string) : bool :=
  bool_decide (k ∈ ["constructor"; "__proto__"; "hasOwnProperty";
                    "isPrototypeOf"; "propertyIsEnumerable";
                    "toLocaleString"; "toString"; "valueOf";
                    "__defineGetter__"; "__defineSetter__";
                    "__lookupGetter__"; "__lookupSetter__"]).

Definition getPlatformConfig (platforms : gmap string Platform)
    (platformId environment : string) : result PlatformConfig :=
  match platforms !! platformId with
  | Some platform =>
      match environments platform !! environment with
      | Some envConfig =>
          Ok {| platformName := name platform; env := envConfig |}
      | None =>
          if inherited environment
          then Ok {| platformName := name platform; env := no_fields |}
          else Throw (new_Error ("Environment '" +:+ environment +:+
                                 "' not found for platform '" +:+
                                 platformId +:+ "'"))
      end
  | None =>
      if inherited platformId
      then Throw (new_TypeError
                    ("Cannot read properties of undefined (reading '" +:+
                     environment +:+ "')"))
      else Throw (new_Error ("Platform '" +:+ platformId +:+ "' not found"))
  end.

End Config.

(** ** The backend SDKs, as the adapters see them *)

Module Sdk.
Import Js Config.

Definition Body : Type := string.

(** Adapter instances ([this]). *)
Record S3Provider : Type := MkS3 {
  s3_config : PlatformConfig;
  s3_region : string
}.

Record AzureProvider : Type := MkAzure {
  az_config : PlatformConfig;
  az_accountName : string;
  az_accountKey : string
}.

Record PutObjectInput : Type := MkPut {
  put_Bucket : option string;
  put_Key : string;
  put_Body : Body;
  put_Metadata : gmap string string;
  put_ACL : option string
}.

Record Grantee : Type := MkGrantee { grantee_URI : option string }.

Record Grant : Type := MkGrant {
  grant_Grantee : option Grantee;
  grant_Permission : option string
}.

(** Every request made to a backend, in the order made. *)
Inductive Call : Type :=
| HeadBucket (bucket : option string)
| PutObject (input : PutObjectInput)
| DeleteObject (bucket : option string) (key : string)
| HeadObject (bucket : option string) (key : string)
| GetObjectAcl (bucket : option string) (key : string)
| GetBucketAcl (bucket : option string)
| GetSignedUrl (bucket : option string) (key : string) (expiresIn : JsVal)
| ContainerExists (container : option string)
| ContainerCreate (container : option string)
| SetAccessPolicy (container : option string) (level : string)
| GetProperties (container : option string)
| BlobUpload (container : option string) (blob : string) (data : Body)
    (metadata : gmap string JsVal)
| BlobDelete (container : option string) (blob : option string)
| BlobExists (container : option string) (blob : option string)
| GenerateSAS (container : option string) (blob : string)
    (startsOn expiresOn : option Z).

(** [s3Client.send(command)] and [getSignedUrl], one operation per
    command.  A request either reads the store [W] or replaces it; a
    request that throws leaves it as it was. *)
Class S3Client (W : Type) : Type := MkS3Client {
  head_bucket : W → S3Provider → option string → result unit;
  put_object : W → S3Provider → PutObjectInput → result W;
  delete_object : W → S3Provider → option string → string → result W;
  head_object : W → S3Provider → option string → string → result unit;
  get_object_acl :
    W → S3Provider → option string → string → result (option (list Grant));
  get_bucket_acl :
    W → S3Provider → option string → result (option (list Grant));
  get_signed_url :
    W → S3Provider → option string → string → JsVal → result string
}.

(** [@azure/storage-blob]: container and block-blob clients, SAS
    generation, and the client constructor. *)
Class BlobService (W : Type) : Type := MkBlobService {
  from_connection_string : string → result unit;
  container_exists : W → AzureProvider → option string → result bool;
  container_create : W → AzureProvider → option string → result W;
  set_access_policy :
    W → AzureProvider → option string → string → result W;
  get_properties :
    W → AzureProvider → option string → result (option string);
  blob_url : AzureProvider → option string → string → string;
  blob_upload :
    W → AzureProvider → option string → string → Body →
    gmap string JsVal → result W;
  blob_delete :
    W → AzureProvider → option string → option string → result W;
  blob_exists :
    W → AzureProvider → option string → option string → result bool;
  generate_sas :
    AzureProvider → option string → string → option Z → option Z →
    result string
}.

(** What [generateDownloadUrl] returns. *)
Record DownloadInfo : Type := MkDownload {
  downloadUrl : string;
  isPublic : bool;
  requiresSAS : bool;
  expiresIn : JsVal;
  expiresAt : option string;
  fileName : string
}.

Record Options : Type := MkOptions { expiryMinutes : JsVal }.

End Sdk.

(** ** Effects: backend state, request log, clock, exceptions *)

Module Eff.
Import Js Sdk.

(** The store of the backends, the requests made so far, and the clock:
    the [n]-th reading of the current time returns [clock n]. *)
Record St (W : Type) : Type := MkSt {
  world : W;
  calls : list Call;
  clock : nat → Z;
  reads : nat
}.
Arguments MkSt {W} _ _ _ _.
Arguments world {W} _.
Arguments calls {W} _.
Arguments clock {W} _.
Arguments reads {W} _.

Section Monad.
Context {W : Type}.

Definition M (A : Type) : Type := St W → result A * St W.

Definition ret {A} (a : A) : M A := λ s, (Ok a, s).

Definition throw {A} (e : JsError) : M A := λ s, (Throw e, s).

Definition lift {A} (r : result A) : M A := λ s, (r, s).

Definition bind {A B} (m : M A) (k : A → M B) : M B :=
  λ s, match m s with
       | (Ok a, s') => k a s'
       | (Throw e, s') => (Throw e, s')
       end.

(** [try { m } catch (error) { h error }] *)
Definition catch {A} (m : M A) (h : JsError → M A) : M A :=
  λ s, match m s with
       | (Ok a, s') => (Ok a, s')
       | (Throw e, s') => h e s'
       end.

Definition log (c : Call) (s : St W) : St W :=
  MkSt (world s) (calls s ++ [c]) (clock s) (reads s).

(** A request that reads the store. *)
Definition query {A} (c : Call) (f : W → result A) : M A :=
  λ s, (f (world s), log c s).

(** A request that changes the store. *)
Definition update (c : Call) (f : W → result W) : M unit :=
  λ s, match f (world s) with
       | Ok w' => (Ok tt, MkSt w' (calls s ++ [c]) (clock s) (reads s))
       | Throw e => (Throw e, log c s)
       end.

(** A request outside the store (signing with the shared key). *)
Definition request {A} (c : Call) (r : result A) : M A :=
  λ s, (r, log c s).

(** [Date.now()] *)
Definition Date_now : M Z :=
  λ s, (Ok (clock s (reads s)),
        MkSt (world s) (calls s) (clock s) (S (reads s))).

End Monad.

Notation "'let*' x ':=' m 'in' k" := (bind m (λ x, k))
  (at level 10, x name, m at level 100, k at level 200) : stdpp_scope.

End Eff.

(** ** The S3 adapter ([providers/aws-s3-provider.js]) *)

Module S3.
Import Js Str Url Sdk Eff.

(** [constructor(config)] *)
Definition new_AWSS3StorageProvider (config : Config.PlatformConfig)
    : result S3Provider :=
  if falsy_str (Config.accessKeyId (Config.env config)) ||
     falsy_str (Config.secretAccessKey (Config.env config)) ||
     falsy_str (Config.region (Config.env config))
  then Throw (new_Error "AWS credentials and region are required")
  else Ok {| s3_config := config;
             s3_region := tmpl (Config.region (Config.env config)) |}.

(** The object returned by [parseUrl]. *)
Record Parsed : Type := MkParsed {
  bucketName : option string;
  key : string;
  region : string;
  baseUrl : string;
  fullPath : string
}.

(** [metadata[k]] *)
Definition prop (metadata : gmap string JsVal) (k : string) : JsVal :=
  default JUndefined (metadata !! k).

Definition AllUsers : string := "http://acs.amazonaws.com/groups/global/AllUsers".

(** [grant.Grantee?.URI === AllUsers &&
     (grant.Permission === 'READ' || grant.Permission === 'FULL_CONTROL')] *)
Definition public_grant (g : Grant) : bool :=
  match grant_Grantee g with
  | Some grantee =>
      match grantee_URI grantee with
      | Some uri => String.eqb uri AllUsers
      | None => false
      end
  | None => false
  end &&
  match grant_Permission g with
  | Some perm => String.eqb perm "READ" || String.eqb perm "FULL_CONTROL"
  | None => false
  end.

(** The permanent address returned by [uploadFile]. *)
Definition objectUrl (bucket : option string) (region key : string) : string :=
  "https://" +:+ tmpl bucket +:+ ".s3." +:+ region +:+ ".amazonaws.com/" +:+ key.

Section Adapter.
Context `{RT : Runtime} {W : Type} `{SDK : S3Client W}.
Variable platforms : gmap string Config.Platform.
Variable this : S3Provider.

Definition parseUrl (url : string) : result Parsed :=
  rethrow "Failed to parse S3 URL: "
    match new_URL url with
    | Throw e => Throw e
    | Ok urlObj =>
        let '(bucketName, key) :=
          if includes ".s3." (hostname urlObj)
          then (first (split_on "."%char (hostname urlObj)),
                substring1 (pathname urlObj))
          else
            let pathParts :=
              List.filter nonempty (split_on "/"%char (pathname urlObj)) in
            (first pathParts, join "/" (slice1 pathParts)) in
        Ok {| bucketName := bucketName;
              key := key;
              region := s3_region this;
              baseUrl := "https://" +:+ tmpl bucketName +:+ ".s3." +:+
                         s3_region this +:+ ".amazonaws.com";
              fullPath := "/" +:+ key |}
    end.

(** [ensureBucketExists(bucketName, expectedAccess)]; the comparison of
    the bucket's access with [expectedAccess] is commented out in the
    source, and [uploadFile] passes no second argument. *)
Definition ensureBucketExists (bucketName expectedAccess : option string)
    : M unit :=
  catch
    (query (HeadBucket bucketName) (λ w, head_bucket w this bucketName))
    (λ _, throw (new_Error ("Bucket " +:+ tmpl bucketName +:+
                            " does not exist.Please Create the bucket first."))).

Definition uploadFile (bucketName : string) (fileData : Body)
    (prefix : option string) (fileName : string)
    (metadata : gmap string JsVal) (access : string) : M string :=
  catch
    (let* platformConfig :=
       lift (Config.getPlatformConfig platforms
               (ToString (prop metadata "platformId"))
               (ToString (prop metadata "environment"))) in
     let bucketNameValue := Config.bucketName (Config.env platformConfig) in
     let prefixValue :=
       if truthy (of_opt prefix)
       then bucketName +:+ "/" +:+ tmpl prefix else bucketName in
     let* _ := ensureBucketExists bucketNameValue None in
     (* awsMetadata[key] = String(metadata[key]); an assignment to
        __proto__ of a string does not create a property *)
     let awsMetadata := delete "__proto__" (ToString <$> metadata) in
     let* now := Date_now in
     let* uploadedAt := lift (toISOString (time_clip (JNum now))) in
     let awsMetadata := <["uploadedAt" := uploadedAt]> awsMetadata in
     let awsMetadata := <["provider" := "s3"]> awsMetadata in
     let awsMetadata := <["access" := access]> awsMetadata in
     let key :=
       if nonempty prefixValue
       then prefixValue +:+ "/" +:+ fileName else fileName in
     let command :=
       {| put_Bucket := bucketNameValue;
          put_Key := key;
          put_Body := fileData;
          put_Metadata := awsMetadata;
          put_ACL := if String.eqb access "public"
                     then Some "public-read" else None |} in
     let* _ := update (PutObject command) (λ w, put_object w this command) in
     ret (objectUrl bucketNameValue (s3_region this) key))
    (λ error, throw (new_Error ("S3 upload failed: " +:+ err_message error))).

Definition isObjectPublic (bucketName : option string) (key : string)
    : M bool :=
  catch
    (let* response :=
       query (GetObjectAcl bucketName key)
             (λ w, get_object_acl w this bucketName key) in
     let publicGrants :=
       match response with
       | Some grants => List.filter public_grant grants
       | None => []
       end in
     ret (0 <? length publicGrants)%nat)
    (λ _, ret false).

(** [response.Grants?.some(...)] is [undefined] when there are no grants. *)
Definition isBucketPublic (bucketName : option string) : M (option bool) :=
  catch
    (let* response :=
       query (GetBucketAcl bucketName)
             (λ w, get_bucket_acl w this bucketName) in
     ret (existsb public_grant <$> response))
    (λ _, ret (Some false)).

Definition fileExists (fileUrl : string) : M bool :=
  catch
    (let* parsed := lift (parseUrl fileUrl) in
     let* _ :=
       query (HeadObject (bucketName parsed) (key parsed))
             (λ w, head_object w this (bucketName parsed) (key parsed)) in
     ret true)
    (λ error,
       if String.eqb (err_name error) "NotFound" ||
          match err_code error with
          | Some code => String.eqb code "NotFound"
          | None => false
          end
       then ret false
       else throw error).

Definition generateDownloadUrl (permanentUrl : string) (options : Options)
    : M DownloadInfo :=
  catch
    (let* parsed := lift (parseUrl permanentUrl) in
     let* exists_ := fileExists permanentUrl in
     if negb exists_ then throw (new_Error "File not found") else
     let* isPublic := isObjectPublic (bucketName parsed) (key parsed) in
     let* isBucketPublic := isBucketPublic (bucketName parsed) in
     if isPublic then
       ret {| downloadUrl := permanentUrl;
              isPublic := true;
              requiresSAS := false;
              expiresIn := JNull;
              expiresAt := None;
              fileName := pop (split_on "/"%char (key parsed)) |}
     else
     let expiryMinutes :=
       if truthy (expiryMinutes options)
       then expiryMinutes options else JNum 60 in
     let expiresIn := js_mul expiryMinutes (JNum 60) in
     let* signedUrl :=
       query (GetSignedUrl (bucketName parsed) (key parsed) expiresIn)
             (λ w, get_signed_url w this (bucketName parsed) (key parsed)
                     expiresIn) in
     let* now := Date_now in
     let expiresAt :=
       time_clip (js_add (JNum now) (js_mul expiresIn (JNum 1000))) in
     let* expiresAtIso := lift (toISOString expiresAt) in
     ret {| downloadUrl := signedUrl;
            isPublic := false;
            requiresSAS := true;
            expiresIn := expiresIn;
            expiresAt := Some expiresAtIso;
            fileName := pop (split_on "/"%char (key parsed)) |})
    (λ error, throw (new_Error ("S3 download URL generation failed: " +:+
                                err_message error))).

Definition deleteFile (fileUrl : string) : M bool :=
  catch
    (let* parsed := lift (parseUrl fileUrl) in
     let* _ :=
       update (DeleteObject (bucketName parsed) (key parsed))
              (λ w, delete_object w this (bucketName parsed) (key parsed)) in
     ret true)
    (λ error, throw (new_Error ("S3 delete failed: " +:+ err_message error))).

Definition deleteFileByBucketKey (bucketName : string) (key : option string)
    (metadata : gmap string JsVal) : M bool :=
  catch
    (let* platformConfig :=
       lift (Config.getPlatformConfig platforms
               (ToString (prop metadata "platformId"))
               (ToString (prop metadata "environment"))) in
     let bucketNameValue := Config.bucketName (Config.env platformConfig) in
     let keyValue :=
       if truthy (of_opt key)
       then bucketName +:+ "/" +:+ tmpl key else bucketName in
     let* _ :=
       update (DeleteObject bucketNameValue keyValue)
              (λ w, delete_object w this bucketNameValue keyValue) in
     ret true)
    (λ error, throw (new_Error ("S3 delete by bucket key failed: " +:+
                                err_message error))).

Definition getProviderName : string := "s3".

End Adapter.

End S3.

(** ** The Azure adapter ([providers/azure-storage-provider.js]) *)

Module Azure.
Import Js Str Url Sdk Eff.

Fixpoint until_semicolon (s : string) : string :=
  match s with
  | EmptyString => EmptyString
  | String c r =>
      if Ascii.eqb c ";"%char then EmptyString
      else String c (until_semicolon r)
  end.

(** [s.match(/field([^;]+)/)[1]]: the leftmost occurrence of [field] that
    is followed by at least one character other than a semicolon. *)
Fixpoint match_field (field s : string) : option string :=
  let here :=
    match strip_prefix field s with
    | Some rest =>
        let v := until_semicolon rest in
        if nonempty v then Some v else None
    | None => None
    end in
  match here with
  | Some v => Some v
  | None =>
      match s with
      | EmptyString => None
      | String _ r => match_field field r
      end
  end.

Definition extractAccountName (connectionString : string) : result string :=
  match match_field "AccountName=" connectionString with
  | Some v => Ok v
  | None =>
      Throw (new_Error "Could not extract AccountName from connection string")
  end.

Definition extractAccountKey (connectionString : string) : result string :=
  match match_field "AccountKey=" connectionString with
  | Some v => Ok v
  | None =>
      Throw (new_Error "Could not extract AccountKey from connection string")
  end.

(** The object returned by [parseUrl]. *)
Record Parsed : Type := MkParsed {
  accountName : option string;
  containerName : option string;
  blobName : string;
  baseUrl : string;
  fullPath : string
}.

(** The address shape [parseUrl] documents in its [baseUrl] and
    [fullPath] fields. *)
Definition blobAddress (account container blob : string) : string :=
  "https://" +:+ account +:+ ".blob.core.windows.net" +:+
  "/" +:+ container +:+ "/" +:+ blob.

Section Adapter.
Context `{RT : Runtime} {W : Type} `{SDK : BlobService W}.

(** [constructor(config)] *)
Definition new_AzureStorageProvider (config : Config.PlatformConfig)
    : result AzureProvider :=
  let cfg := Config.env config in
  if falsy_str (Config.connectionString cfg) &&
     (falsy_str (Config.accountName cfg) || falsy_str (Config.accountKey cfg))
  then Throw (new_Error
                "Azure connection string or account credentials required")
  else if truthy (of_opt (Config.connectionString cfg)) then
    let cs := tmpl (Config.connectionString cfg) in
    match extractAccountName cs with
    | Throw e => Throw e
    | Ok accountName =>
        match extractAccountKey cs with
        | Throw e => Throw e
        | Ok accountKey =>
            match from_connection_string cs with
            | Throw e => Throw e
            | Ok _ => Ok {| az_config := config;
                            az_accountName := accountName;
                            az_accountKey := accountKey |}
            end
        end
    end
  else
    Ok {| az_config := config;
          az_accountName := tmpl (Config.accountName cfg);
          az_accountKey := tmpl (Config.accountKey cfg) |}.

Variable this : AzureProvider.

Definition parseUrl (url : string) : result Parsed :=
  rethrow "Failed to parse Azure URL: "
    match new_URL url with
    | Throw e => Throw e
    | Ok urlObj =>
        let accountName := first (split_on "."%char (hostname urlObj)) in
        let pathParts :=
          List.filter nonempty (split_on "/"%char (pathname urlObj)) in
        let containerName := first pathParts in
        let blobName := join "/" (slice1 pathParts) in
        Ok {| accountName := accountName;
              containerName := containerName;
              blobName := blobName;
              baseUrl := "https://" +:+ tmpl accountName +:+
                         ".blob.core.windows.net";
              fullPath := "/" +:+ tmpl containerName +:+ "/" +:+ blobName |}
    end.

Definition isContainerPublic (containerName : option string) : M bool :=
  catch
    (let* blobPublicAccess :=
       query (GetProperties containerName)
             (λ w, get_properties w this containerName) in
     ret match blobPublicAccess with
         | Some level => String.eqb level "blob" || String.eqb level "container"
         | None => false
         end)
    (λ _, ret false).

Definition uploadFile (bucketName : string) (fileData : Body)
    (prefix : option string) (fileName : string)
    (metadata : gmap string JsVal) (access : string) : M string :=
  catch
    (let* containerExists :=
       query (ContainerExists (Some bucketName))
             (λ w, container_exists w this (Some bucketName)) in
     let* _ :=
       if negb containerExists then
         let* _ :=
           update (ContainerCreate (Some bucketName))
                  (λ w, container_create w this (Some bucketName)) in
         if String.eqb access "public" then
           update (SetAccessPolicy (Some bucketName) "blob")
                  (λ w, set_access_policy w this (Some bucketName) "blob")
         else ret tt
       else
         let* isPublic := isContainerPublic (Some bucketName) in
         let containerAccess := if isPublic then "public" else "private" in
         if negb (String.eqb containerAccess access) then
           throw (new_Error ("Container " +:+ bucketName +:+
                             " access mismatch: currently " +:+
                             containerAccess +:+ ", requested " +:+ access))
         else ret tt in
     let blobPath :=
       if truthy (of_opt prefix)
       then tmpl prefix +:+ "/" +:+ fileName else fileName in
     let* now := Date_now in
     let* uploadedAt := lift (toISOString (time_clip (JNum now))) in
     (* { uploadedAt: ..., provider: 'azure', ...metadata } *)
     let blobMetadata :=
       metadata ∪ <["provider" := JStr "azure"]>
                    {["uploadedAt" := JStr uploadedAt]} in
     let* _ :=
       update (BlobUpload (Some bucketName) blobPath fileData blobMetadata)
              (λ w, blob_upload w this (Some bucketName) blobPath fileData
                      blobMetadata) in
     ret (blob_url this (Some bucketName) blobPath))
    (λ error, throw (new_Error ("Azure upload failed: " +:+
                                err_message error))).

Definition fileExists (fileUrl : string) : M bool :=
  catch
    (let* parsed := lift (parseUrl fileUrl) in
     query (BlobExists (containerName parsed) (Some (blobName parsed)))
           (λ w, blob_exists w this (containerName parsed)
                   (Some (blobName parsed))))
    (λ _, ret false).

Definition generateDownloadUrl (permanentUrl : string) (options : Options)
    : M DownloadInfo :=
  catch
    (let* parsed := lift (parseUrl permanentUrl) in
     let* exists_ := fileExists permanentUrl in
     if negb exists_ then throw (new_Error "File not found") else
     let* isPublic := isContainerPublic (containerName parsed) in
     if isPublic then
       ret {| downloadUrl := permanentUrl;
              isPublic := true;
              requiresSAS := false;
              expiresIn := JNull;
              expiresAt := None;
              fileName := pop (split_on "/"%char (blobName parsed)) |}
     else
     let expiryMinutes :=
       if truthy (expiryMinutes options)
       then expiryMinutes options else JNum 60 in
     let* t1 := Date_now in
     let startsOn := time_clip (JNum t1) in
     let startsOn :=
       setMinutes startsOn (js_sub (getMinutes startsOn) (JNum 5)) in
     let* t2 := Date_now in
     let expiresOn := time_clip (JNum t2) in
     let expiresOn :=
       setMinutes expiresOn (js_add (getMinutes expiresOn) expiryMinutes) in
     let* sasToken :=
       request (GenerateSAS (containerName parsed) (blobName parsed)
                  startsOn expiresOn)
               (generate_sas this (containerName parsed) (blobName parsed)
                  startsOn expiresOn) in
     let sasUrl := permanentUrl +:+ "?" +:+ sasToken in
     let* expiresAtIso := lift (toISOString expiresOn) in
     ret {| downloadUrl := sasUrl;
            isPublic := false;
            requiresSAS := true;
            expiresIn := js_mul expiryMinutes (JNum 60);
            expiresAt := Some expiresAtIso;
            fileName := pop (split_on "/"%char (blobName parsed)) |})
    (λ error, throw (new_Error ("Azure SAS generation failed: " +:+
                                err_message error))).

Definition deleteFile (fileUrl : string) : M bool :=
  catch
    (let* parsed := lift (parseUrl fileUrl) in
     let* _ :=
       update (BlobDelete (containerName parsed) (Some (blobName parsed)))
              (λ w, blob_delete w this (containerName parsed)
                      (Some (blobName parsed))) in
     ret true)
    (λ error, throw (new_Error ("Azure delete failed: " +:+
                                err_message error))).

Definition deleteFileByBucketKey (containerName : string)
    (blobName : option string) (metadata : gmap string JsVal) : M bool :=
  catch
    (let* _ :=
       update (BlobDelete (Some containerName) blobName)
              (λ w, blob_delete w this (Some containerName) blobName) in
     ret true)
    (λ error, throw (new_Error ("Azure delete by bucket key failed: " +:+
                                err_message error))).

Definition getProviderName : string := "azure".

End Adapter.

End Azure.

(** ** The factory ([providers/storage-provider-factory.js]) *)

Module Factory.
Import Js Sdk.

(** An adapter object.  [new] yields an object distinct from every object
    constructed before; its identity is the number [oid]. *)
Inductive Provider : Type :=
| S3Adapter (oid : nat) (this : S3Provider)
| AzureAdapter (oid : nat) (this : AzureProvider).

Definition oid_of (p : Provider) : nat :=
  match p with
  | S3Adapter oid _ => oid
  | AzureAdapter oid _ => oid
  end.

Definition getProviderName (p : Provider) : string :=
  match p with
  | S3Adapter _ _ => S3.getProviderName
  | AzureAdapter _ _ => Azure.getProviderName
  end.

Section Factory.
Context {W : Type} `{AZ : BlobService W}.

(** [createProvider(providerType, config)]; [oid] is the identity the
    constructed object receives.  The comparison of
    [providerType.toLowerCase()] with ['azure'], ['aws'] and ['s3'] only
    depends on the Basic Latin letters of [providerType]. *)
Definition createProvider (providerType : option string)
    (config : Config.PlatformConfig) (oid : nat) : result Provider :=
  match providerType with
  | None =>
      Throw (new_TypeError
               "Cannot read properties of undefined (reading 'toLowerCase')")
  | Some type =>
      let lowered := Str.lower type in
      if String.eqb lowered "azure" then
        match Azure.new_AzureStorageProvider config with
        | Ok this => Ok (AzureAdapter oid this)
        | Throw e => Throw e
        end
      else if String.eqb lowered "aws" || String.eqb lowered "s3" then
        match S3.new_AWSS3StorageProvider config with
        | Ok this => Ok (S3Adapter oid this)
        | Throw e => Throw e
        end
      else Throw (new_Error ("Unsupported storage provider: " +:+ type))
  end.

End Factory.

End Factory.

(** ** The routing service ([services/multi-tenant-storage-service.js]) *)

Module Service.
Import Js Url Sdk Eff Factory.

(** The service object: the provider cache, and a record of the registry
    lookups and factory invocations made so far ([allocated] counts the
    adapter objects constructed). *)
Record Service : Type := MkService {
  providerCache : gmap string Provider;
  configLookups : list (string * string);
  factoryCalls : list (string * option string);
  allocated : nat
}.

(** [constructor()] *)
Definition new_MultiTenantStorageService : Service :=
  {| providerCache := ∅; configLookups := []; factoryCalls := [];
     allocated := 0%nat |}.

Definition cacheKey (platformId environment : string) : string :=
  platformId +:+ "-" +:+ environment.

(** The service together with the backends it talks to. *)
Record App (W : Type) : Type := MkApp {
  svc : Service;
  backend : St W
}.
Arguments MkApp {W} _ _.
Arguments svc {W} _.
Arguments backend {W} _.

Record UploadResult : Type := MkUpload {
  up_fileUrl : string;
  up_bucketName : string;
  up_prefix : option string;
  up_fileName : string;
  up_access : string;
  up_isPublic : bool
}.

Section Service.
Context `{RT : Runtime} {W : Type} `{S3C : S3Client W} `{AZ : BlobService W}.
Variable platforms : gmap string Config.Platform.

Definition getStorageProvider (platformId environment : string)
    (s : Service) : result Provider * Service :=
  let cacheKey := cacheKey platformId environment in
  match providerCache s !! cacheKey with
  | Some provider => (Ok provider, s)
  | None =>
      let s1 :=
        {| providerCache := providerCache s;
           configLookups := configLookups s ++ [(platformId, environment)];
           factoryCalls := factoryCalls s;
           allocated := allocated s |} in
      match Config.getPlatformConfig platforms platformId environment with
      | Throw e => (Throw e, s1)
      | Ok config =>
          let s2 :=
            {| providerCache := providerCache s1;
               configLookups := configLookups s1;
               factoryCalls :=
                 factoryCalls s1 ++
                 [(cacheKey, Config.provider (Config.env config))];
               allocated := allocated s1 |} in
          match createProvider (Config.provider (Config.env config)) config
                  (allocated s) with
          | Throw e => (Throw e, s2)
          | Ok provider =>
              (Ok provider,
               {| providerCache := <[cacheKey := provider]> (providerCache s2);
                  configLookups := configLookups s2;
                  factoryCalls := factoryCalls s2;
                  allocated := S (allocated s2) |})
          end
      end
  end.

(** Dynamic dispatch on the adapter class. *)
Definition provider_uploadFile (provider : Provider) (bucketName : string)
    (fileData : Body) (prefix : option string) (fileName : string)
    (metadata : gmap string JsVal) (access : string) : M string :=
  match provider with
  | S3Adapter _ this =>
      S3.uploadFile platforms this bucketName fileData prefix fileName
        metadata access
  | AzureAdapter _ this =>
      Azure.uploadFile this bucketName fileData prefix fileName metadata access
  end.

Definition provider_generateDownloadUrl (provider : Provider)
    (permanentUrl : string) (options : Options) : M DownloadInfo :=
  match provider with
  | S3Adapter _ this => S3.generateDownloadUrl this permanentUrl options
  | AzureAdapter _ this => Azure.generateDownloadUrl this permanentUrl options
  end.

Definition provider_deleteFile (provider : Provider) (fileUrl : string)
    : M bool :=
  match provider with
  | S3Adapter _ this => S3.deleteFile this fileUrl
  | AzureAdapter _ this => Azure.deleteFile this fileUrl
  end.

Definition provider_deleteFileByBucketKey (provider : Provider)
    (bucketName : string) (key : option string)
    (metadata : gmap string JsVal) : M bool :=
  match provider with
  | S3Adapter _ this =>
      S3.deleteFileByBucketKey platforms this bucketName key metadata
  | AzureAdapter _ this =>
      Azure.deleteFileByBucketKey this bucketName key metadata
  end.

Definition provider_fileExists (provider : Provider) (fileUrl : string)
    : M bool :=
  match provider with
  | S3Adapter _ this => S3.fileExists this fileUrl
  | AzureAdapter _ this => Azure.fileExists this fileUrl
  end.

(** [resolve and delegate], wrapping a failure of either step:
    [try { provider = getStorageProvider(..); return await op(provider) }
     catch (error) { throw new Error(`prefix${error.message}`) }] *)
Definition delegate {A} (prefix : string) (platformId environment : string)
    (op : Provider → M A) (app : App W) : result A * App W :=
  match getStorageProvider platformId environment (svc app) with
  | (Throw e, svc') =>
      (Throw (new_Error (prefix +:+ err_message e)), MkApp svc' (backend app))
  | (Ok provider, svc') =>
      match op provider (backend app) with
      | (Ok a, b') => (Ok a, MkApp svc' b')
      | (Throw e, b') =>
          (Throw (new_Error (prefix +:+ err_message e)), MkApp svc' b')
      end
  end.

(** [{ platformId, environment, provider: provider.getProviderName(),
       ...metadata }] *)
Definition enrich (platformId environment : string) (provider : Provider)
    (metadata : gmap string JsVal) : gmap string JsVal :=
  metadata ∪
  <["provider" := JStr (getProviderName provider)]>
    (<["environment" := JStr environment]>
       {["platformId" := JStr platformId]}).

Definition uploadFile (platformId environment bucketName : string)
    (prefix : option string) (access : string) (fileData : Body)
    (fileName : string) (metadata : gmap string JsVal)
    : App W → result UploadResult * App W :=
  delegate "Upload failed: " platformId environment
    (λ provider,
       let enrichedMetadata := enrich platformId environment provider metadata in
       let* permanentUrl :=
         provider_uploadFile provider bucketName fileData prefix fileName
           enrichedMetadata access in
       ret {| up_fileUrl := permanentUrl;
              up_bucketName := bucketName;
              up_prefix := prefix;
              up_fileName := fileName;
              up_access := access;
              up_isPublic := String.eqb access "public" |}).

Definition generateDownloadUrl (platformId environment permanentUrl : string)
    (options : Options) : App W → result DownloadInfo * App W :=
  delegate "Download URL generation failed: " platformId environment
    (λ provider, provider_generateDownloadUrl provider permanentUrl options).

Definition deleteFile (platformId environment fileUrl : string)
    : App W → result bool * App W :=
  delegate "Delete failed: " platformId environment
    (λ provider, provider_deleteFile provider fileUrl).

Definition deleteFileByBucketKey
    (platformId environment bucketName : string) (key : option string)
    : App W → result bool * App W :=
  let metadata : gmap string JsVal :=
    <["environment" := JStr environment]> {["platformId" := JStr platformId]} in
  delegate "Delete by bucket key failed: " platformId environment
    (λ provider,
       provider_deleteFileByBucketKey provider bucketName key metadata).

(** [fileExists] folds every failure into [false]. *)
Definition fileExists (platformId environment fileUrl : string)
    (app : App W) : result bool * App W :=
  match delegate "" platformId environment
          (λ provider, provider_fileExists provider fileUrl) app with
  | (Ok b, app') => (Ok b, app')
  | (Throw _, app') => (Ok false, app')
  end.

End Service.

End Service.

(** ** An in-memory backend and runtime

    Instances of the interfaces above, used to run the adapters on
    concrete inputs. *)

Module Mem.
Import Js Str Url Sdk Eff.

Record Object : Type := MkObject {
  obj_body : Body;
  obj_metadata : gmap string string;
  obj_public : bool
}.

Record Bucket : Type := MkBucket {
  bkt_public : bool;
  bkt_objects : gmap string Object
}.

Record Blob : Type := MkBlob {
  blob_body : Body;
  blob_metadata : gmap string JsVal
}.

Record Container : Type := MkContainer {
  cont_access : option string;
  cont_blobs : gmap string Blob
}.

Record World : Type := MkWorld {
  buckets : gmap string Bucket;
  containers : gmap string Container
}.

Definition empty_world : World := {| buckets := ∅; containers := ∅ |}.

Definition named {A} (m : gmap string A) (n : option string) : option A :=
  match n with
  | Some k => m !! k
  | None => None
  end.

Definition service_error (code : string) : JsError :=
  {| err_name := code; err_code := Some code; err_message := code |}.

Definition grants_of (public : bool) : option (list Grant) :=
  Some (if public
        then [{| grant_Grantee := Some {| grantee_URI := Some S3.AllUsers |};
                 grant_Permission := Some "READ" |}]
        else []).

Definition with_bucket (w : World) (n : string) (b : Bucket) : World :=
  {| buckets := <[n := b]> (buckets w); containers := containers w |}.

Definition with_container (w : World) (n : string) (c : Container) : World :=
  {| buckets := buckets w; containers := <[n := c]> (containers w) |}.

#[export] Instance mem_s3 : S3Client World := {|
  head_bucket w _ bucket :=
    match named (buckets w) bucket with
    | Some _ => Ok tt
    | None => Throw (service_error "NotFound")
    end;
  put_object w _ input :=
    match put_Bucket input, named (buckets w) (put_Bucket input) with
    | Some n, Some b =>
        Ok (with_bucket w n
              {| bkt_public := bkt_public b;
                 bkt_objects :=
                   <[put_Key input :=
                       {| obj_body := put_Body input;
                          obj_metadata := put_Metadata input;
                          obj_public :=
                            bool_decide (put_ACL input = Some "public-read") |}]>
                     (bkt_objects b) |})
    | _, _ => Throw (service_error "NoSuchBucket")
    end;
  delete_object w _ bucket key :=
    match bucket, named (buckets w) bucket with
    | Some n, Some b =>
        Ok (with_bucket w n
              {| bkt_public := bkt_public b;
                 bkt_objects := delete key (bkt_objects b) |})
    | _, _ => Throw (service_error "NoSuchBucket")
    end;
  head_object w _ bucket key :=
    match named (buckets w) bucket with
    | Some b =>
        match bkt_objects b !! key with
        | Some _ => Ok tt
        | None => Throw (service_error "NotFound")
        end
    | None => Throw (service_error "NotFound")
    end;
  get_object_acl w _ bucket key :=
    match named (buckets w) bucket with
    | Some b =>
        match bkt_objects b !! key with
        | Some o => Ok (grants_of (obj_public o))
        | None => Throw (service_error "NoSuchKey")
        end
    | None => Throw (service_error "NoSuchBucket")
    end;
  get_bucket_acl w _ bucket :=
    match named (buckets w) bucket with
    | Some b => Ok (grants_of (bkt_public b))
    | None => Throw (service_error "NoSuchBucket")
    end;
  get_signed_url w this bucket key expiresIn :=
    Ok (S3.objectUrl bucket (s3_region this) key +:+
        "?X-Amz-Expires=" +:+ ToString expiresIn)
|}.

#[export] Instance mem_azure : BlobService World := {|
  from_connection_string _ := Ok tt;
  container_exists w _ container :=
    Ok (bool_decide (is_Some (named (containers w) container)));
  container_create w _ container :=
    match container, named (containers w) container with
    | Some n, None =>
        Ok (with_container w n {| cont_access := None; cont_blobs := ∅ |})
    | _, _ => Throw (service_error "ContainerAlreadyExists")
    end;
  set_access_policy w _ container level :=
    match container, named (containers w) container with
    | Some n, Some c =>
        Ok (with_container w n
              {| cont_access := Some level; cont_blobs := cont_blobs c |})
    | _, _ => Throw (service_error "ContainerNotFound")
    end;
  get_properties w _ container :=
    match named (containers w) container with
    | Some c => Ok (cont_access c)
    | None => Throw (service_error "ContainerNotFound")
    end;
  blob_url this container blob :=
    Azure.blobAddress (az_accountName this) (tmpl container) blob;
  blob_upload w _ container blob data metadata :=
    match container, named (containers w) container with
    | Some n, Some c =>
        Ok (with_container w n
              {| cont_access := cont_access c;
                 cont_blobs :=
                   <[blob := {| blob_body := data;
                                blob_metadata := metadata |}]>
                     (cont_blobs c) |})
    | _, _ => Throw (service_error "ContainerNotFound")
    end;
  blob_delete w _ container blob :=
    match container, named (containers w) container with
    | Some n, Some c =>
        match named (cont_blobs c) blob with
        | Some _ =>
            Ok (with_container w n
                  {| cont_access := cont_access c;
                     cont_blobs := delete (tmpl blob) (cont_blobs c) |})
        | None => Throw (service_error "BlobNotFound")
        end
    | _, _ => Throw (service_error "ContainerNotFound")
    end;
  blob_exists w _ container blob :=
    match named (containers w) container with
    | Some c => Ok (bool_decide (is_Some (named (cont_blobs c) blob)))
    | None => Ok false
    end;
  generate_sas this container blob startsOn expiresOn :=
    match startsOn, expiresOn with
    | Some st, Some se => Ok ("sv=2021-06-08&sp=r&st=" +:+ pretty st +:+
                              "&se=" +:+ pretty se)
    | _, _ => Throw (new_RangeError "Invalid time value")
    end
|}.

(** Decimal digits to a number; anything else is [NaN] (the empty string
    converts to [0]). *)
Fixpoint digits_value (acc : Z) (s : string) : JsVal :=
  match s with
  | EmptyString => JNum acc
  | String c r =>
      if digit_char c
      then digits_value (10 * acc + (Z.of_N (Ascii.N_of_ascii c) - 48)) r
      else JNaN
  end.

(** The runtime of the examples: plain https addresses, time values
    printed in decimal, minutes counted in UTC. *)
#[export] Instance mem_runtime : Runtime := {|
  new_URL := plain_https_URL;
  date_iso t := "t" +:+ pretty t;
  local_minutes t := ((t `div` 60000) `mod` 60)%Z;
  string_to_number := digits_value 0
|}.

(** What the store holds under a name. *)
Definition object_at (w : World) (bucket key : string) : option Object :=
  b ← buckets w !! bucket; bkt_objects b !! key.

Definition blob_at (w : World) (container blob : string) : option Blob :=
  c ← containers w !! container; cont_blobs c !! blob.


Definition start (w : World) (now : Z) : St World :=
  {| world := w; calls := []; clock := λ _, now; reads := 0%nat |}.

(** A registry with one S3 tenant and one Azure tenant. *)
Definition s3_env : Config.EnvConfig :=
  {| Config.apiKey := None;
     Config.provider := Some "s3";
     Config.connectionString := None;
     Config.accountName := None;
     Config.accountKey := None;
     Config.accessKeyId := Some "AKIAEXAMPLE";
     Config.secretAccessKey := Some "secret";
     Config.region := Some "ap-south-1";
     Config.bucketName := Some "tenant-bucket" |}.

Definition azure_env : Config.EnvConfig :=
  {| Config.apiKey := None;
     Config.provider := Some "azure";
     Config.connectionString := None;
     Config.accountName := Some "acct";
     Config.accountKey := Some "a2V5";
     Config.accessKeyId := None;
     Config.secretAccessKey := None;
     Config.region := None;
     Config.bucketName := None |}.

Definition registry : gmap string Config.Platform :=
  <["invictus" := {| Config.name := "Invictus";
                     Config.environments := {["uat" := s3_env]} |}]>
    {["brokerage" := {| Config.name := "Brokerage";
                        Config.environments := {["uat" := azure_env]} |}]}.

(** A registry whose tenant identifier contains the separator of the
    cache key. *)
Definition hyphen_registry : gmap string Config.Platform :=
  {["acme-eu" := {| Config.name := "Acme";
                    Config.environments := {["uat" := s3_env]} |}]}.


Definition private_object : Object :=
  {| obj_body := "pdf"; obj_metadata := ∅; obj_public := false |}.

Definition private_bucket_world : World :=
  {| buckets := {["tenant-bucket" :=
                    {| bkt_public := false;
                       bkt_objects :=
                         {["documents/report.pdf" := private_object]} |}]};
     containers := ∅ |}.

Definition public_container_world : World :=
  {| buckets := ∅;
     containers := {["documents" :=
                       {| cont_access := Some "blob"; cont_blobs := ∅ |}]} |}.

Definition private_container_world : World :=
  {| buckets := ∅;
     containers :=
       {["documents" :=
           {| cont_access := None;
              cont_blobs :=
                <["documents" := {| blob_body := "x"; blob_metadata := ∅ |}]>
                  {["report.pdf" :=
                      {| blob_body := "pdf"; blob_metadata := ∅ |}]} |}]} |}.

Definition tenant_metadata : gmap string JsVal :=
  <["platformId" := JStr "invictus"]> {["environment" := JStr "uat"]}.

Definition s3_this : S3Provider :=
  {| s3_config := {| Config.platformName := "Invictus"; Config.env := s3_env |};
     s3_region := "ap-south-1" |}.

Definition s3_acme : S3Provider :=
  {| s3_config := {| Config.platformName := "Acme"; Config.env := s3_env |};
     s3_region := "ap-south-1" |}.

Definition azure_this : AzureProvider :=
  {| az_config := {| Config.platformName := "Brokerage";
                     Config.env := azure_env |};
     az_accountName := "acct";
     az_accountKey := "a2V5" |}.

End Mem.

(** ** Vocabulary of the properties *)

Module Spec.
Import Js Sdk Eff.

(** A delete operation returned [true], or threw an [Error] whose message
    starts with the operation's prefix. *)
Definition true_or_wrapped {S : Type} (prefix : string)
    (r : result bool * S) : Prop :=
  fst r = Ok true ∨ ∃ m, fst r = Throw (new_Error (prefix +:+ m)).

(** Requests that produce a signed address. *)
Definition signing (c : Call) : bool :=
  match c with
  | GetSignedUrl _ _ _ | GenerateSAS _ _ _ _ => true
  | _ => false
  end.


(** The requests made by a run that started in [s] and ended in [s']. *)
Definition made {W} (s s' : St W) (cs : list Call) : Prop :=
  calls s' = calls s ++ cs.


(** The adapters held under two different cache keys are different
    objects. *)
Definition partitioned (s : Service.Service) : Prop :=
  ∀ k1 k2 v1 v2,
    Service.providerCache s !! k1 = Some v1 →
    Service.providerCache s !! k2 = Some v2 →
    k1 ≠ k2 → Factory.oid_of v1 ≠ Factory.oid_of v2.

Section Runs.
Context {W : Type} `{AZ : BlobService W}.
Variable platforms : gmap string Config.Platform.

(** A sequence of [getStorageProvider] calls made one after the other. *)
Fixpoint resolve_all (requests : list (string * string))
    (s : Service.Service) : list (result Factory.Provider) * Service.Service :=
  match requests with
  | [] => ([], s)
  | (platformId, environment) :: rest =>
      let '(r, s1) :=
        Service.getStorageProvider platforms platformId environment s in
      let '(rs, s2) := resolve_all rest s1 in
      (r :: rs, s2)
  end.

(** The states the service can be in. *)
Definition reachable (s : Service.Service) : Prop :=
  ∃ requests,
    snd (resolve_all requests Service.new_MultiTenantStorageService) = s.

(** The three outcomes of a call. *)
Inductive outcome (platformId environment : string) (s : Service.Service)
    : result Factory.Provider * Service.Service → Prop :=
| Hit v :
    Service.providerCache s !! Service.cacheKey platformId environment = Some v →
    outcome platformId environment s (Ok v, s)
| Failed e s' :
    Service.providerCache s !! Service.cacheKey platformId environment = None →
    Service.providerCache s' = Service.providerCache s →
    Service.allocated s' = Service.allocated s →
    outcome platformId environment s (Throw e, s')
| Created v s' config :
    Service.providerCache s !! Service.cacheKey platformId environment = None →
    Config.getPlatformConfig platforms platformId environment = Ok config →
    Factory.oid_of v = Service.allocated s →
    Service.providerCache s'
    = <[Service.cacheKey platformId environment := v]> (Service.providerCache s) →
    Service.allocated s' = S (Service.allocated s) →
    Service.configLookups s' = Service.configLookups s ++ [(platformId, environment)] →
    Service.factoryCalls s'
    = Service.factoryCalls s ++ [(Service.cacheKey platformId environment,
                          Config.provider (Config.env config))] →
    outcome platformId environment s (Ok v, s').

End Runs.

(** Invariant of the cache: the adapters constructed so far are exactly
    the cached ones, each under one key. *)
Record cache_inv (s : Service.Service) : Prop := CacheInv {
  inv_count : Service.allocated s = size (Service.providerCache s);
  inv_bound : ∀ k v, Service.providerCache s !! k = Some v →
                     (Factory.oid_of v < Service.allocated s)%nat;
  inv_partitioned : partitioned s
}.


End Spec.

(** ** The prefix of the upload route ([routes/file.routes.js]) *)

Module Routes.
Import Sanitize.

Definition slash : N := 47.
Definition backslash : N := 92.

Definition is_slash (c : N) : bool := c =? slash.
Definition is_backslash (c : N) : bool := c =? backslash.

(** [s.replace(/\\/g, '/')] *)
Definition forward_slashes (s : list N) : list N :=
  List.map (λ c, if is_backslash c then slash else c) s.

(** [(prefix || '').trim().replace(/\\/g, '/').replace(/\/+/g, '/')
      .replace(/^\/+|\/+$/g, '')]; the last replacement removes the run of
    slashes at the start and the run at the end. *)
Definition sanitizedPrefix (prefix : option (list N)) : list N :=
  let s0 := default [] prefix in
  let s1 := trim s0 in
  let s2 := forward_slashes s1 in
  let s3 := replace_runs is_slash [slash] s2 in
  strip_trailing is_slash (strip_leading is_slash s3).

(** No two adjacent code units of the class, none first, none last. *)
Fixpoint no_adjacent (p : N → bool) (s : list N) : bool :=
  match s with
  | [] => true
  | c :: r =>
      match r with
      | c' :: _ => negb (p c && p c')
      | [] => true
      end && no_adjacent p r
  end.

Definition no_leading (p : N → bool) (s : list N) : bool :=
  match s with
  | [] => true
  | c :: _ => negb (p c)
  end.

Fixpoint no_trailing (p : N → bool) (s : list N) : bool :=
  match s with
  | [] => true
  | c :: r =>
      match r with
      | [] => negb (p c)
      | _ :: _ => no_trailing p r
      end
  end.

End Routes.

(** ** Further vocabulary *)

Module Spec2.
Import Js Sdk Eff Factory Service.

(** [error.name === 'NotFound' || error.code === 'NotFound'] *)
Definition not_found (e : JsError) : bool :=
  String.eqb (err_name e) "NotFound" ||
  match err_code e with
  | Some code => String.eqb code "NotFound"
  | None => false
  end.

(** Requests that create a container or set its access policy. *)
Definition provisioning (c : Call) : bool :=
  match c with
  | ContainerCreate _ | SetAccessPolicy _ _ => true
  | _ => false
  end.

(** Time values within the range of [Date]. *)
Definition valid_time (t : Z) : bool :=
  ((-8640000000000000 <=? t) && (t <=? 8640000000000000))%Z.

(** [v] is the value of [field] in the connection string [cs]: it is not
    empty, has no semicolon, follows an occurrence of [field], and runs to
    the next semicolon or to the end. *)
Definition field_value (field cs v : string) : Prop :=
  Str.nonempty v = true ∧ Str.has_char ";"%char v = false ∧
  ∃ pre rest, cs = pre +:+ field +:+ v +:+ rest ∧
              (rest = "" ∨ ∃ r, rest = String ";"%char r).

(** A routing operation returned, or threw an [Error] whose message starts
    with the operation's prefix. *)
Definition ok_or_wrapped {A S : Type} (prefix : string)
    (r : result A * S) : Prop :=
  (∃ a, fst r = Ok a) ∨ ∃ m, fst r = Throw (new_Error (prefix +:+ m)).

(** What the object's ACL says, as [isObjectPublic] reads it. *)
Definition object_public {W : Type} `{S3C : S3Client W} (w : W) (this : S3Provider)
    (bucket : option string) (key : string) : bool :=
  match get_object_acl w this bucket key with
  | Ok (Some grants) => existsb S3.public_grant grants
  | _ => false
  end.

(** What the container's properties say, as [isContainerPublic] reads
    them. *)
Definition container_public {W : Type} `{AZ : BlobService W} (w : W)
    (this : AzureProvider) (container : option string) : bool :=
  match get_properties w this container with
  | Ok (Some level) => String.eqb level "blob" || String.eqb level "container"
  | _ => false
  end.

(** A routing operation was refused with the error [e] under the
    operation's prefix, before any backend was reached and without a change
    to the cache. *)
Definition refused {A W : Type} (prefix : string) (e : JsError) (app : App W)
    (r : result A * App W) : Prop :=
  fst r = Throw (new_Error (prefix +:+ err_message e)) ∧
  backend (snd r) = backend app ∧
  providerCache (svc (snd r)) = providerCache (svc app).

End Spec2.

(** ** [getProviderInfo] of the routing service *)

Module ServiceInfo.
Import Js Sdk Factory Service.

(** [getProviderInfo] returns [{ name, platformId, environment }]. *)
Record ProviderInfo : Type := MkInfo {
  info_name : string;
  info_platformId : string;
  info_environment : string
}.

Section Info.
Context {W : Type} `{AZ : BlobService W}.
Variable platforms : gmap string Config.Platform.

(** [MultiTenantStorageService.getProviderInfo]; a failed resolution is
    not caught. *)
Definition getProviderInfo (platformId environment : string) (s : Service)
    : result ProviderInfo * Service :=
  match getStorageProvider platforms platformId environment s with
  | (Ok provider, s') =>
      (Ok {| info_name := getProviderName provider;
             info_platformId := platformId;
             info_environment := environment |}, s')
  | (Throw e, s') => (Throw e, s')
  end.

End Info.

End ServiceInfo.

(** ** The authentication middleware ([middlewares/platform-auth.js]) *)

Module Middleware.
Import Js Str.

(** [req.platformContext] *)
Record PlatformContext : Type := MkContext {
  ctx_platformId : string;
  ctx_environment : string;
  ctx_config : Config.PlatformConfig
}.

(** The middleware answers the request with a status and an error
    message, or attaches the context and calls [next()]. *)
Inductive Handled : Type :=
| Respond (status : nat) (error : string)
| Next (context : PlatformContext).

Section WithRuntime.
(** [String.prototype.trim] and [String.prototype.toLowerCase] of the
    runtime. *)
Variable trim : string → string.
Variable toLowerCase : string → string.
Variable platforms : gmap string Config.Platform.

(** [header] is [req.headers['x-platform-id']] and [NODE_ENV] is
    [process.env.NODE_ENV].  The comparison of the API key is commented
    out in the source. *)
Definition platformAuthMiddleware (header NODE_ENV : option string)
    : Handled :=
  if falsy_str header then Respond 400 "Missing X-Platform-ID header" else
  let platformId := tmpl header in
  if falsy_str NODE_ENV then Respond 500 "Environment not configured" else
  let environment := tmpl NODE_ENV in
  match Config.getPlatformConfig platforms (toLowerCase (trim platformId))
          environment with
  | Throw error => Respond 404 (err_message error)
  | Ok config =>
      Next {| ctx_platformId := platformId;
              ctx_environment := environment;
              ctx_config := config |}
  end.

End WithRuntime.

(** Trimming of the white space of Basic Latin. *)
Definition is_space (c : Ascii.ascii) : bool :=
  let n := Ascii.N_of_ascii c in ((9 <=? n) && (n <=? 13)) || (n =? 32).

Fixpoint drop_leading (s : string) : string :=
  match s with
  | EmptyString => EmptyString
  | String c r => if is_space c then drop_leading r else s
  end.

Fixpoint drop_trailing (s : string) : string :=
  match s with
  | EmptyString => EmptyString
  | String c r =>
      let r' := drop_trailing r in
      if is_space c && negb (nonempty r') then EmptyString else String c r'
  end.

Definition asciiTrim (s : string) : string := drop_trailing (drop_leading s).

End Middleware.

(** ** Proof automation for the monadic code *)

Module Tactics.
Import Eff.

Ltac run :=
  unfold bind, catch, lift, query, update, request, ret, throw, Date_now, log;
  simpl.

(** Case analysis on an innermost scrutinee of the goal. *)
Ltac case_step :=
  match goal with
  | |- context [match ?x with _ => _ end] =>
      lazymatch x with
      | context [match _ with _ => _ end] => fail
      | _ => destruct x eqn:?; simpl
      end
  end.

Ltac case_hyp H :=
  match type of H with
  | context [match ?x with _ => _ end] =>
      lazymatch x with
      | context [match _ with _ => _ end] => fail
      | _ => destruct x eqn:?; simpl in H
      end
  end.

(** Closing goals about the requests a run made. *)
Ltac no_props :=
  first [ apply not_elem_of_nil | by intros ?%list_elem_of_singleton ].

Ltac made_by_log :=
  unfold Spec.made; simpl; rewrite <- ?(assoc_L (++)); simpl;
  first [ by exists []; rewrite app_nil_r
        | eexists; split; [reflexivity|done] ].

End Tactics.

(* ------------------------------------------------------------------ *)
(** * Properties *)

Module SanitizeFacts.
Import Sanitize.

Example file_name_complex :
  sanitizeFileName asciiLower (units "My Document (2024).pdf")
  = units "my-document-(2024).pdf".
Proof. vm_compute. reflexivity. Qed.

Example file_name_spaces :
  sanitizeFileName asciiLower (units "  file  name  .txt  ")
  = units "file-name.txt".
Proof. vm_compute. reflexivity. Qed.

Example file_name_trailing :
  sanitizeFileName asciiLower (units "filename---.txt") = units "filename.txt".
Proof. vm_compute. reflexivity. Qed.

Example bucket_name_trailing :
  sanitizeBucketName asciiLower (units "bucket----") = units "bucket".
Proof. vm_compute. reflexivity. Qed.


(** *** Characters *)

Lemma is_hyphen_true c : is_hyphen c = true → c = hyphen.
Proof. unfold is_hyphen. apply N.eqb_eq. Qed.

Lemma hyphen_allowed : allowed hyphen = true.
Proof. reflexivity. Qed.

Lemma hyphen_not_dot c : is_hyphen c = true → is_dot c = false.
Proof. intros ->%is_hyphen_true. reflexivity. Qed.

Lemma allowed_not_ws c : allowed c = true → is_ws c = false.
Proof.
  unfold allowed, is_ws. intros H.
  apply not_true_iff_false. intros W.
  repeat rewrite ?orb_true_iff, ?andb_true_iff, ?N.eqb_eq, ?N.leb_le in H.
  repeat rewrite ?orb_true_iff, ?andb_true_iff, ?N.eqb_eq, ?N.leb_le in W.
  lia.
Qed.

(** *** Each step is the identity on a string already in normal form *)

Lemma replace_runs_none p rep s :
  Forall (λ c, p c = false) s → replace_runs p rep s = s.
Proof.
  induction 1 as [|c r Hc _ IH]; simpl; [done|].
  by rewrite Hc, IH.
Qed.

Lemma keep_only_all p s :
  Forall (λ c, p c = true) s → keep_only p s = s.
Proof.
  unfold keep_only. induction 1 as [|c r Hc _ IH]; simpl; [done|].
  by rewrite Hc, IH.
Qed.

Lemma collapse_hyphens_fixed s :
  no_double_hyphen s = true → replace_runs is_hyphen [hyphen] s = s.
Proof.
  induction s as [|c r IH]; simpl; [done|].
  intros [Hh Hr]%andb_true_iff. specialize (IH Hr).
  destruct (is_hyphen c) eqn:Hc.
  - apply is_hyphen_true in Hc as ->.
    destruct r as [|c' r']; [done|].
    simpl in Hh. apply negb_true_iff in Hh.
    simpl in IH |- *. rewrite Hh in IH |- *. simpl. by rewrite IH.
  - by rewrite IH.
Qed.

Lemma strip_leading_fixed s :
  no_leading_hyphen s = true → strip_leading is_hyphen s = s.
Proof.
  destruct s as [|c r]; simpl; [done|].
  intros H%negb_true_iff. by rewrite H.
Qed.

Lemma strip_trailing_fixed s :
  no_trailing_hyphen s = true → strip_trailing is_hyphen s = s.
Proof.
  induction s as [|c r IH]; simpl; [done|].
  destruct r as [|c' r'].
  - intros H%negb_true_iff. simpl. by rewrite H.
  - intros H. rewrite (IH H). done.
Qed.

Lemma no_hyphen_dot_run c r :
  no_hyphen_dot (c :: r) = true → is_hyphen c = true → run_then_dot r = false.
Proof.
  revert c. induction r as [|c' r' IH]; intros c; simpl; [done|].
  intros [Hh Hr]%andb_true_iff Hc. rewrite Hc in Hh. simpl in Hh.
  apply negb_true_iff in Hh.
  destruct (is_hyphen c') eqn:Hc'; [|done].
  apply (IH c'); [simpl; rewrite Hc'; exact Hr | done].
Qed.

Lemma drop_hyphens_fixed s :
  no_hyphen_dot s = true → drop_hyphens_before_dot s = s.
Proof.
  induction s as [|c r IH]; [done|].
  intros H. pose proof H as H'. simpl in H'.
  apply andb_true_iff in H' as [_ Hr]. simpl.
  destruct (is_hyphen c) eqn:Hc; simpl.
  - rewrite (no_hyphen_dot_run c r H Hc). by rewrite IH.
  - by rewrite IH.
Qed.

(** *** What each step establishes and preserves *)

Lemma keep_only_allowed s : all_allowed (keep_only allowed s).
Proof.
  unfold all_allowed, keep_only. induction s as [|c r IH]; simpl; [constructor|].
  destruct (allowed c) eqn:Hc; [constructor|]; done.
Qed.

Lemma collapse_allowed s :
  all_allowed s → all_allowed (replace_runs is_hyphen [hyphen] s).
Proof.
  unfold all_allowed. induction 1 as [|c r Hc Hr IH]; simpl; [constructor|].
  destruct (is_hyphen c).
  - destruct r as [|c' r']; [repeat constructor|].
    destruct (is_hyphen c'); [done|].
    constructor; [apply hyphen_allowed | done].
  - by constructor.
Qed.

Lemma strip_leading_Forall (P : N → Prop) p s :
  Forall P s → Forall P (strip_leading p s).
Proof.
  induction 1 as [|c r Hc Hr IH]; simpl; [constructor|].
  destruct (p c); [done | by constructor].
Qed.

Lemma strip_trailing_Forall (P : N → Prop) p s :
  Forall P s → Forall P (strip_trailing p s).
Proof.
  induction 1 as [|c r Hc Hr IH]; simpl; [constructor|].
  destruct (strip_trailing p r) as [|c' r'].
  - destruct (p c); repeat constructor; done.
  - by constructor.
Qed.

Lemma drop_hyphens_Forall (P : N → Prop) s :
  Forall P s → Forall P (drop_hyphens_before_dot s).
Proof.
  induction 1 as [|c r Hc Hr IH]; simpl; [constructor|].
  destruct (is_hyphen c && run_then_dot r); [done | by constructor].
Qed.

Lemma collapse_no_double s :
  no_double_hyphen (replace_runs is_hyphen [hyphen] s) = true.
Proof.
  induction s as [|c r IH]; [done|].
  simpl. destruct (is_hyphen c) eqn:Hc.
  - destruct r as [|c' r']; [done|].
    destruct (is_hyphen c') eqn:Hc'; [done|].
    simpl in IH |- *. rewrite Hc' in IH |- *. simpl in IH |- *.
    rewrite ?Hc' in IH |- *. exact IH.
  - simpl. rewrite Hc, IH.
    by destruct (replace_runs is_hyphen [hyphen] r).
Qed.

Lemma no_double_tail c r :
  no_double_hyphen (c :: r) = true → no_double_hyphen r = true.
Proof. simpl. by intros [_ ?]%andb_true_iff. Qed.

Lemma strip_leading_no_double s :
  no_double_hyphen s = true → no_double_hyphen (strip_leading is_hyphen s) = true.
Proof.
  induction s as [|c r IH]; [done|].
  intros H. simpl. destruct (is_hyphen c); [|done].
  apply IH. by eapply no_double_tail.
Qed.

Lemma strip_leading_no_leading s :
  no_leading_hyphen (strip_leading is_hyphen s) = true.
Proof.
  induction s as [|c r IH]; [done|].
  simpl. destruct (is_hyphen c) eqn:Hc; [done|].
  simpl. by rewrite Hc.
Qed.

Lemma strip_trailing_head p s c r :
  strip_trailing p s = c :: r → ∃ r0, s = c :: r0.
Proof.
  destruct s as [|c0 r0]; simpl; [done|].
  destruct (strip_trailing p r0); [destruct (p c0)|]; intros [= <- _]; eauto.
Qed.

Lemma strip_trailing_no_double s :
  no_double_hyphen s = true → no_double_hyphen (strip_trailing is_hyphen s) = true.
Proof.
  induction s as [|c r IH]; [done|].
  intros H. pose proof (no_double_tail _ _ H) as Hr. specialize (IH Hr).
  simpl. destruct (strip_trailing is_hyphen r) as [|c' r'] eqn:E.
  - by destruct (is_hyphen c).
  - apply strip_trailing_head in E as [r0 ->].
    simpl in H. apply andb_true_iff in H as [Hh _].
    change (negb (is_hyphen c && is_hyphen c') && no_double_hyphen (c' :: r') = true).
    by rewrite Hh, IH.
Qed.

Lemma strip_trailing_no_leading s :
  no_leading_hyphen s = true → no_leading_hyphen (strip_trailing is_hyphen s) = true.
Proof.
  destruct s as [|c r]; [done|]. simpl. intros H.
  destruct (strip_trailing is_hyphen r); [|done].
  apply negb_true_iff in H. by rewrite H; simpl; rewrite H.
Qed.

Lemma strip_trailing_no_trailing s :
  no_trailing_hyphen (strip_trailing is_hyphen s) = true.
Proof.
  induction s as [|c r IH]; [done|].
  simpl. destruct (strip_trailing is_hyphen r) as [|c' r'] eqn:E.
  - destruct (is_hyphen c) eqn:Hc; [done|]. simpl. by rewrite Hc.
  - exact IH.
Qed.

Lemma drop_hyphens_nil s : drop_hyphens_before_dot s = [] → s = [].
Proof.
  induction s as [|c r IH]; [done|]. simpl.
  destruct (is_hyphen c && run_then_dot r) eqn:E; [|done].
  intros H. apply IH in H as ->.
  apply andb_true_iff in E as [_ E]. done.
Qed.

Lemma drop_hyphens_head c r :
  is_hyphen c = false →
  drop_hyphens_before_dot (c :: r) = c :: drop_hyphens_before_dot r.
Proof. intros H. simpl. by rewrite H. Qed.

Lemma drop_hyphens_no_leading s :
  no_leading_hyphen s = true → no_leading_hyphen (drop_hyphens_before_dot s) = true.
Proof.
  destruct s as [|c r]; [done|]. intros H.
  pose proof H as H'. apply negb_true_iff in H'.
  by rewrite drop_hyphens_head.
Qed.

Lemma drop_hyphens_no_trailing s :
  no_trailing_hyphen s = true → no_trailing_hyphen (drop_hyphens_before_dot s) = true.
Proof.
  induction s as [|c r IH]; [done|].
  intros H. simpl.
  destruct (is_hyphen c && run_then_dot r) eqn:E.
  - apply IH. destruct r; [|done].
    apply andb_true_iff in E as [_ E]. done.
  - destruct (drop_hyphens_before_dot r) as [|c' r'] eqn:D.
    + apply drop_hyphens_nil in D as ->. exact H.
    + change (no_trailing_hyphen (c' :: r') = true).
      destruct r as [|c0 r0]; [done|]. apply IH, H.
Qed.

Lemma drop_hyphens_no_double s :
  no_double_hyphen s = true → no_double_hyphen (drop_hyphens_before_dot s) = true.
Proof.
  induction s as [|c r IH]; [done|].
  intros H. pose proof (no_double_tail _ _ H) as Hr. specialize (IH Hr).
  simpl. destruct (is_hyphen c && run_then_dot r) eqn:E; [done|].
  change (match drop_hyphens_before_dot r with
          | [] => true
          | c' :: _ => negb (is_hyphen c && is_hyphen c')
          end && no_double_hyphen (drop_hyphens_before_dot r) = true).
  rewrite IH, andb_true_r.
  destruct (is_hyphen c) eqn:Hc; [|by destruct (drop_hyphens_before_dot r)].
  destruct r as [|c' r']; [done|].
  simpl in H. rewrite Hc in H. simpl in H.
  apply andb_true_iff in H as [Hc'%negb_true_iff _].
  by rewrite drop_hyphens_head, Hc'.
Qed.

Lemma drop_hyphens_no_hyphen_dot s :
  no_hyphen_dot (drop_hyphens_before_dot s) = true.
Proof.
  induction s as [|c r IH]; [done|].
  simpl. destruct (is_hyphen c && run_then_dot r) eqn:E; [done|].
  change (match drop_hyphens_before_dot r with
          | [] => true
          | c' :: _ => negb (is_hyphen c && is_dot c')
          end && no_hyphen_dot (drop_hyphens_before_dot r) = true).
  rewrite IH, andb_true_r.
  destruct (is_hyphen c) eqn:Hc; [|by destruct (drop_hyphens_before_dot r)].
  simpl in E. destruct r as [|c' r']; [done|].
  simpl in E |- *. destruct (is_hyphen c') eqn:Hc'.
  - rewrite E. simpl. by rewrite (hyphen_not_dot c').
  - simpl. by rewrite E.
Qed.

Lemma strip_trailing_idem p s :
  strip_trailing p (strip_trailing p s) = strip_trailing p s.
Proof.
  induction s as [|c r IH]; [done|]. simpl.
  destruct (strip_trailing p r) as [|c' r'] eqn:E.
  - destruct (p c) eqn:Hc; [done|]. simpl. by rewrite Hc.
  - simpl. simpl in IH. by rewrite IH.
Qed.

Lemma strip_trailing_prefix p s : ∃ v, s = strip_trailing p s ++ v.
Proof.
  induction s as [|c r [v IH]]; [by exists []|]. simpl.
  destruct (strip_trailing p r) as [|c' r'] eqn:E.
  - destruct (p c); [by exists (c :: r)|]. exists r. done.
  - exists v. by rewrite IH at 1.
Qed.

(** *** The ASCII case mapping has the two properties assumed of
    [toLowerCase] *)

Lemma asciiLower_allowed s : all_allowed s → asciiLower s = s.
Proof.
  unfold all_allowed, asciiLower. induction 1 as [|c r Hc _ IH]; [done|].
  simpl. rewrite IH. f_equal.
  destruct ((65 <=? c) && (c <=? 90)) eqn:E; [|done].
  exfalso. unfold allowed in Hc.
  repeat rewrite ?orb_true_iff, ?andb_true_iff, ?N.eqb_eq, ?N.leb_le in Hc.
  repeat rewrite ?andb_true_iff, ?N.leb_le in E. lia.
Qed.

Lemma asciiLower_prefix s u v : asciiLower s = u ++ v → asciiLower u = u.
Proof.
  unfold asciiLower. revert u. induction s as [|c r IH]; intros u; simpl.
  - intros H. symmetry in H. by apply app_eq_nil in H as [-> _].
  - destruct u as [|d u']; [done|]. simpl. intros [= Hd Hr].
    rewrite (IH _ Hr). f_equal. subst d.
    destruct ((65 <=? c) && (c <=? 90)) eqn:E; [|by rewrite E].
    assert ((65 <=? c + 32) && (c + 32 <=? 90) = false) as ->; [|done].
    apply andb_false_iff. right. apply N.leb_gt.
    apply andb_true_iff in E as [E _]. apply N.leb_le in E. lia.
Qed.

(** *** Idempotence *)

Section Idempotence.
Variable toLowerCase : list N → list N.

(** [toLowerCase] leaves a string over [[a-z0-9!._*'()-]] unchanged. *)
Hypothesis lower_allowed : ∀ s, all_allowed s → toLowerCase s = s.

(** A prefix of a lower-cased string is itself unchanged by
    [toLowerCase]. *)
Hypothesis lower_prefix : ∀ s u v, toLowerCase s = u ++ v → toLowerCase u = u.

Lemma sanitizeFileName_nf x : file_name_nf (sanitizeFileName toLowerCase x).
Proof.
  unfold sanitizeFileName. split.
  - apply drop_hyphens_Forall, strip_trailing_Forall, strip_leading_Forall,
      collapse_allowed, keep_only_allowed.
  - apply drop_hyphens_no_double, strip_trailing_no_double,
      strip_leading_no_double, collapse_no_double.
  - apply drop_hyphens_no_leading, strip_trailing_no_leading,
      strip_leading_no_leading.
  - apply drop_hyphens_no_trailing, strip_trailing_no_trailing.
  - apply drop_hyphens_no_hyphen_dot.
Qed.

Lemma sanitizeFileName_fixed r :
  file_name_nf r → sanitizeFileName toLowerCase r = r.
Proof.
  intros [Ha Hd Hl Ht Hp]. unfold sanitizeFileName.
  rewrite (lower_allowed r Ha).
  rewrite (replace_runs_none is_ws [hyphen] r).
  2:{ eapply Forall_impl; [exact Ha|]. intros c. apply allowed_not_ws. }
  rewrite (keep_only_all allowed r Ha).
  rewrite (collapse_hyphens_fixed r Hd).
  rewrite (strip_leading_fixed r Hl).
  rewrite (strip_trailing_fixed r Ht).
  apply drop_hyphens_fixed, Hp.
Qed.

Lemma sanitizeFileName_idem x :
  sanitizeFileName toLowerCase (sanitizeFileName toLowerCase x)
  = sanitizeFileName toLowerCase x.
Proof. apply sanitizeFileName_fixed, sanitizeFileName_nf. Qed.

Lemma lower_nil : toLowerCase [] = [].
Proof. apply lower_allowed. constructor. Qed.

Lemma sanitizeBucketName_lower_fixed x :
  toLowerCase (sanitizeBucketName toLowerCase x) = sanitizeBucketName toLowerCase x.
Proof.
  unfold sanitizeBucketName.
  destruct (strip_trailing_prefix is_hyphen (toLowerCase (trim x))) as [v Hv].
  by apply (lower_prefix (trim x) _ v).
Qed.

Lemma sanitizeBucketName_idem_when_trimmed x :
  trim (sanitizeBucketName toLowerCase x) = sanitizeBucketName toLowerCase x →
  sanitizeBucketName toLowerCase (sanitizeBucketName toLowerCase x)
  = sanitizeBucketName toLowerCase x.
Proof.
  intros Ht. unfold sanitizeBucketName at 1. rewrite Ht.
  rewrite sanitizeBucketName_lower_fixed.
  unfold sanitizeBucketName. apply strip_trailing_idem.
Qed.

End Idempotence.

End SanitizeFacts.

Module UrlFacts.
Import Js Str Url.

Example plain_url_s3 :
  plain_https_URL "https://test-bucket.s3.ap-south-1.amazonaws.com/documents/invoices/2024/file.pdf"
  = Ok {| hostname := "test-bucket.s3.ap-south-1.amazonaws.com";
          pathname := "/documents/invoices/2024/file.pdf" |}.
Proof. vm_compute. reflexivity. Qed.

Example plain_url_invalid :
  plain_https_URL "not-a-valid-url" = Throw (new_TypeError "Invalid URL").
Proof. vm_compute. reflexivity. Qed.

Example split_examples :
  split_on "/"%char "/a//b" = [""; "a"; ""; "b"] ∧
  split_on "/"%char "" = [""] ∧
  join "/" ["a"; "b"; "c"] = "a/b/c" ∧ includes ".s3." "x.s3.y" = true.
Proof. vm_compute. done. Qed.

(** *** Splitting and joining *)

Lemma split_on_nonnil sep s : split_on sep s ≠ [].
Proof.
  destruct s as [|c r]; simpl; [done|].
  destruct (Ascii.eqb c sep); [done|]. by destruct (split_on sep r).
Qed.

Lemma split_on_no_sep sep s : has_char sep s = false → split_on sep s = [s].
Proof.
  induction s as [|c r IH]; simpl; [done|].
  intros [Hc Hr]%orb_false_iff. rewrite Hc, (IH Hr). done.
Qed.

Lemma split_on_app sep a r :
  has_char sep a = false →
  split_on sep (a +:+ String sep r) = a :: split_on sep r.
Proof.
  induction a as [|c a' IH]; simpl.
  - intros _. by rewrite Ascii.eqb_refl.
  - intros [Hc Ha]%orb_false_iff. rewrite Hc, (IH Ha). done.
Qed.

Lemma split_on_sep sep r :
  split_on sep (String sep r) = EmptyString :: split_on sep r.
Proof. simpl. by rewrite Ascii.eqb_refl. Qed.

Lemma join_split sep s : join (String sep "") (split_on sep s) = s.
Proof.
  induction s as [|c r IH]; simpl; [done|].
  destruct (Ascii.eqb_spec c sep) as [->|_].
  - pose proof (split_on_nonnil sep r).
    destruct (split_on sep r) as [|w ws] eqn:E; [done|].
    simpl. simpl in IH. by rewrite IH.
  - pose proof (split_on_nonnil sep r).
    destruct (split_on sep r) as [|w ws] eqn:E; [done|].
    simpl in IH |- *. destruct ws as [|w' ws']; simpl; by rewrite <- IH.
Qed.

Lemma filter_all {A} (p : A → bool) (l : list A) :
  forallb p l = true → List.filter p l = l.
Proof.
  induction l as [|x r IH]; simpl; [done|].
  intros [Hx Hr]%andb_true_iff. by rewrite Hx, (IH Hr).
Qed.

Lemma prefix_app s t : String.prefix s (s +:+ t) = true.
Proof.
  induction s as [|c r IH]; simpl; [by destruct t|].
  destruct (Ascii.ascii_dec c c); [done|congruence].
Qed.

Lemma includes_app a sub b : includes sub (a +:+ sub +:+ b) = true.
Proof.
  induction a as [|c r IH].
  - change ("" +:+ sub +:+ b) with (sub +:+ b).
    pose proof (prefix_app sub b) as Hp.
    destruct (sub +:+ b); unfold includes; fold includes; by rewrite Hp.
  - change (includes sub (String c (r +:+ sub +:+ b)) = true).
    unfold includes; fold includes. rewrite IH. apply orb_true_r.
Qed.

(** *** What [parseUrl] returns on an address the runtime reads verbatim *)

Section RoundTrip.
Context `{RT : Runtime}.

Lemma s3_parse_built (this : Sdk.S3Provider) bucket key :
  has_char "."%char bucket = false →
  new_URL (S3.objectUrl (Some bucket) (Sdk.s3_region this) key)
  = Ok {| hostname := bucket +:+ ".s3." +:+ Sdk.s3_region this +:+
                      ".amazonaws.com";
          pathname := "/" +:+ key |} →
  ∃ p, S3.parseUrl this (S3.objectUrl (Some bucket) (Sdk.s3_region this) key)
       = Ok p ∧
       S3.bucketName p = Some bucket ∧ S3.key p = key.
Proof.
  intros Hb Hu. unfold S3.parseUrl. rewrite Hu. simpl rethrow.
  change (".s3." +:+ Sdk.s3_region this +:+ ".amazonaws.com")
    with (String "."%char ("s3." +:+ Sdk.s3_region this +:+ ".amazonaws.com")).
  rewrite (split_on_app _ _ _ Hb).
  change (String "."%char ("s3." +:+ Sdk.s3_region this +:+ ".amazonaws.com"))
    with (".s3." +:+ (Sdk.s3_region this +:+ ".amazonaws.com")).
  rewrite (includes_app bucket ".s3." _). simpl.
  eexists. split; [reflexivity|]. done.
Qed.


End RoundTrip.

End UrlFacts.

Module AdapterFacts.
Import Js Str Url Sdk Eff Spec Tactics.

Section Deletes.
Context `{RT : Runtime} {W : Type} `{S3C : S3Client W} `{AZ : BlobService W}.
Variable platforms : gmap string Config.Platform.
Variable s3 : S3Provider.
Variable az : AzureProvider.

Lemma s3_deleteFile_never_false fileUrl (st : St W) :
  true_or_wrapped "S3 delete failed: " (S3.deleteFile s3 fileUrl st).
Proof.
  unfold true_or_wrapped, S3.deleteFile. run.
  repeat case_step; eauto.
Qed.

Lemma s3_deleteFileByBucketKey_never_false bucketName key metadata (st : St W) :
  true_or_wrapped "S3 delete by bucket key failed: "
    (S3.deleteFileByBucketKey platforms s3 bucketName key metadata st).
Proof.
  unfold true_or_wrapped, S3.deleteFileByBucketKey. run.
  repeat case_step; eauto.
Qed.

Lemma azure_deleteFile_never_false fileUrl (st : St W) :
  true_or_wrapped "Azure delete failed: " (Azure.deleteFile az fileUrl st).
Proof.
  unfold true_or_wrapped, Azure.deleteFile. run.
  repeat case_step; eauto.
Qed.

Lemma azure_deleteFileByBucketKey_never_false containerName blobName metadata
    (st : St W) :
  true_or_wrapped "Azure delete by bucket key failed: "
    (Azure.deleteFileByBucketKey az containerName blobName metadata st).
Proof.
  unfold true_or_wrapped, Azure.deleteFileByBucketKey. run.
  repeat case_step; eauto.
Qed.

Lemma s3_deleteFile_true fileUrl (st : St W) p w' :
  S3.parseUrl s3 fileUrl = Ok p →
  delete_object (world st) s3 (S3.bucketName p) (S3.key p) = Ok w' →
  fst (S3.deleteFile s3 fileUrl st) = Ok true.
Proof.
  intros Hp Hd. unfold S3.deleteFile. run. by rewrite Hp; simpl; rewrite Hd.
Qed.

Lemma s3_deleteFileByBucketKey_true bucketName key metadata (st : St W) cfg w' :
  Config.getPlatformConfig platforms
    (ToString (S3.prop metadata "platformId"))
    (ToString (S3.prop metadata "environment")) = Ok cfg →
  delete_object (world st) s3 (Config.bucketName (Config.env cfg))
    (if truthy (of_opt key) then bucketName +:+ "/" +:+ tmpl key
     else bucketName) = Ok w' →
  fst (S3.deleteFileByBucketKey platforms s3 bucketName key metadata st)
  = Ok true.
Proof.
  intros Hc Hd. unfold S3.deleteFileByBucketKey. run.
  by rewrite Hc; simpl; rewrite Hd.
Qed.

Lemma azure_deleteFile_true fileUrl (st : St W) p w' :
  Azure.parseUrl fileUrl = Ok p →
  blob_delete (world st) az (Azure.containerName p)
    (Some (Azure.blobName p)) = Ok w' →
  fst (Azure.deleteFile az fileUrl st) = Ok true.
Proof.
  intros Hp Hd. unfold Azure.deleteFile. run. by rewrite Hp; simpl; rewrite Hd.
Qed.

Lemma azure_deleteFileByBucketKey_true containerName blobName metadata
    (st : St W) w' :
  blob_delete (world st) az (Some containerName) blobName = Ok w' →
  fst (Azure.deleteFileByBucketKey az containerName blobName metadata st)
  = Ok true.
Proof.
  intros Hd. unfold Azure.deleteFileByBucketKey. run. by rewrite Hd.
Qed.

End Deletes.

Lemma made_unique {W} (s s' : St W) cs cs' :
  made s s' cs → made s s' cs' → cs = cs'.
Proof. unfold made. intros -> H. by apply app_inv_head in H. Qed.

Lemma made_nil {W} (s : St W) : made s s [].
Proof. unfold made. by rewrite app_nil_r. Qed.

Section Downloads.
Context `{RT : Runtime} {W : Type} `{S3C : S3Client W} `{AZ : BlobService W}.
Variable s3 : S3Provider.
Variable az : AzureProvider.

(** The existence check reads the store and signs nothing. *)
Lemma s3_fileExists_effect url (st st1 : St W) r :
  S3.fileExists s3 url st = (r, st1) →
  world st1 = world st ∧ ∃ cs, made st st1 cs ∧ existsb signing cs = false.
Proof.
  unfold S3.fileExists. run. intros H.
  repeat case_hyp H; simplify_eq; simpl;
    (split; [done|]);
    first [ by exists []; split; [apply made_nil | done]
          | by eexists [_]; split; [reflexivity | done] ].
Qed.

Lemma azure_fileExists_effect url (st st1 : St W) r :
  Azure.fileExists az url st = (r, st1) →
  world st1 = world st ∧ ∃ cs, made st st1 cs ∧ existsb signing cs = false.
Proof.
  unfold Azure.fileExists. run. intros H.
  repeat case_hyp H; simplify_eq; simpl;
    (split; [done|]);
    first [ by exists []; split; [apply made_nil | done]
          | by eexists [_]; split; [reflexivity | done] ].
Qed.

(** When the existence check of the S3 adapter answers, the address was
    parsed. *)
Lemma s3_fileExists_parsed url (st st1 : St W) b :
  S3.fileExists s3 url st = (Ok b, st1) → ∃ p, S3.parseUrl s3 url = Ok p.
Proof.
  unfold S3.fileExists. run. intros H.
  destruct (S3.parseUrl s3 url) as [p|e] eqn:Hp; [by eexists|].
  exfalso. simpl in H.
  unfold S3.parseUrl, rethrow in Hp.
  repeat case_hyp Hp; simplify_eq; simpl in H; done.
Qed.

Lemma s3_generate_unparsed url opts (st : St W) e :
  S3.parseUrl s3 url = Throw e →
  S3.generateDownloadUrl s3 url opts st
  = (Throw (new_Error ("S3 download URL generation failed: " +:+
                       err_message e)), st).
Proof. intros Hp. unfold S3.generateDownloadUrl. run. by rewrite Hp. Qed.

Lemma s3_generate_absent url opts (st st1 : St W) :
  S3.fileExists s3 url st = (Ok false, st1) →
  S3.generateDownloadUrl s3 url opts st
  = (Throw (new_Error "S3 download URL generation failed: File not found"),
     st1).
Proof.
  intros He. destruct (s3_fileExists_parsed _ _ _ _ He) as [p Hp].
  unfold S3.generateDownloadUrl. run. rewrite Hp. simpl. by rewrite He.
Qed.

Lemma s3_generate_unchecked url opts (st st1 : St W) e :
  S3.fileExists s3 url st = (Throw e, st1) →
  ∃ e', S3.generateDownloadUrl s3 url opts st = (Throw e', st1) ∨
        S3.generateDownloadUrl s3 url opts st = (Throw e', st).
Proof.
  intros He. unfold S3.generateDownloadUrl. run.
  destruct (S3.parseUrl s3 url) as [p|e0]; simpl; [|by eexists; right].
  rewrite He. simpl. by eexists; left.
Qed.

Lemma azure_generate_unparsed url opts (st : St W) e :
  Azure.parseUrl url = Throw e →
  Azure.generateDownloadUrl az url opts st
  = (Throw (new_Error ("Azure SAS generation failed: " +:+ err_message e)),
     st).
Proof. intros Hp. unfold Azure.generateDownloadUrl. run. by rewrite Hp. Qed.

Lemma azure_generate_absent url opts (st st1 : St W) p :
  Azure.parseUrl url = Ok p →
  Azure.fileExists az url st = (Ok false, st1) →
  Azure.generateDownloadUrl az url opts st
  = (Throw (new_Error "Azure SAS generation failed: File not found"), st1).
Proof.
  intros Hp He. unfold Azure.generateDownloadUrl. run.
  rewrite Hp. simpl. by rewrite He.
Qed.

Lemma azure_fileExists_no_throw url (st st1 : St W) e :
  Azure.fileExists az url st ≠ (Throw e, st1).
Proof.
  unfold Azure.fileExists. run. intros H.
  repeat case_hyp H; simplify_eq.
Qed.

(** A signing request is only made after the existence check answered
    [true]. *)
Lemma s3_signing_after_check url opts (st st2 : St W) r cs :
  S3.generateDownloadUrl s3 url opts st = (r, st2) →
  made st st2 cs → existsb signing cs = true →
  ∃ st1, S3.fileExists s3 url st = (Ok true, st1).
Proof.
  intros Hg Hm Hs.
  destruct (S3.fileExists s3 url st) as [[[|]|e] st1] eqn:He; [by eexists| |].
  - rewrite (s3_generate_absent _ opts _ _ He) in Hg. simplify_eq.
    apply s3_fileExists_effect in He as (_ & cs' & Hm' & Hs').
    rewrite (made_unique _ _ _ _ Hm Hm') in Hs. congruence.
  - destruct (s3_generate_unchecked _ opts _ _ _ He) as [e' [Hg'|Hg']];
      rewrite Hg' in Hg; simplify_eq.
    + apply s3_fileExists_effect in He as (_ & cs' & Hm' & Hs').
      rewrite (made_unique _ _ _ _ Hm Hm') in Hs. congruence.
    + rewrite (made_unique _ _ _ _ Hm (made_nil _)) in Hs. done.
Qed.

Lemma azure_signing_after_check url opts (st st2 : St W) r cs :
  Azure.generateDownloadUrl az url opts st = (r, st2) →
  made st st2 cs → existsb signing cs = true →
  ∃ st1, Azure.fileExists az url st = (Ok true, st1).
Proof.
  intros Hg Hm Hs.
  destruct (Azure.parseUrl url) as [p|e] eqn:Hp.
  - destruct (Azure.fileExists az url st) as [[[|]|e] st1] eqn:He;
      [by eexists| |].
    + rewrite (azure_generate_absent _ opts _ _ _ Hp He) in Hg. simplify_eq.
      apply azure_fileExists_effect in He as (_ & cs' & Hm' & Hs').
      rewrite (made_unique _ _ _ _ Hm Hm') in Hs. congruence.
    + by apply azure_fileExists_no_throw in He.
  - rewrite (azure_generate_unparsed _ opts _ _ Hp) in Hg. simplify_eq.
    rewrite (made_unique _ _ _ _ Hm (made_nil _)) in Hs. done.
Qed.

(** *** The default expiry *)



Local Opaque S3.fileExists S3.isObjectPublic S3.isBucketPublic S3.parseUrl.
Local Opaque Azure.fileExists Azure.isContainerPublic Azure.parseUrl.



End Downloads.

Section Uploads.
Context `{RT : Runtime} {W : Type} `{S3C : S3Client W} `{AZ : BlobService W}.
Variable platforms : gmap string Config.Platform.
Variable s3 : S3Provider.
Variable az : AzureProvider.

Local Arguments String.eqb : simpl never.


(** The metadata of the object the S3 adapter stores: every caller value
    in string form, then the three stamped keys. *)
Lemma s3_upload_request bucketName fileData prefix fileName metadata access
    (st st' : St W) url :
  S3.uploadFile platforms s3 bucketName fileData prefix fileName metadata
    access st = (Ok url, st') →
  ∃ input stamp,
    PutObject input ∈ calls st' ∧
    put_Metadata input
    = <["access" := access]>
        (<["provider" := "s3"]>
           (<["uploadedAt" := stamp]>
              (delete "__proto__" (ToString <$> metadata)))).
Proof.
  unfold S3.uploadFile, S3.ensureBucketExists. run. intros H.
  repeat case_hyp H; simplify_eq;
    (do 2 eexists; split;
     [apply elem_of_app; right; by apply list_elem_of_singleton
     |reflexivity]).
Qed.

(** The metadata the Azure adapter hands to the blob client: the two
    stamped keys, under the caller's map with its values as given. *)
Lemma azure_upload_request bucketName fileData prefix fileName metadata access
    (st st' : St W) url :
  Azure.uploadFile az bucketName fileData prefix fileName metadata access st
  = (Ok url, st') →
  ∃ blob stamp,
    BlobUpload (Some bucketName) blob fileData
      (metadata ∪ <["provider" := JStr "azure"]>
                    {["uploadedAt" := JStr stamp]}) ∈ calls st'.
Proof.
  unfold Azure.uploadFile, Azure.isContainerPublic. run. intros H.
  repeat case_hyp H; simplify_eq;
    (do 2 eexists; apply elem_of_app; right;
     by apply list_elem_of_singleton).
Qed.



End Uploads.

End AdapterFacts.

Module ServiceFacts.
Import Js Sdk Factory Service Spec.

Section Cache.
Context {W : Type} `{AZ : BlobService W}.
Variable platforms : gmap string Config.Platform.

Lemma createProvider_oid providerType config oid v :
  createProvider providerType config oid = Ok v → oid_of v = oid.
Proof.
  unfold createProvider. intros H.
  repeat Tactics.case_hyp H; by simplify_eq.
Qed.

Lemma resolve_outcome platformId environment s :
  outcome platforms platformId environment s
    (getStorageProvider platforms platformId environment s).
Proof.
  unfold getStorageProvider.
  destruct (providerCache s !! cacheKey platformId environment) as [v|] eqn:Hc.
  - by constructor.
  - destruct (Config.getPlatformConfig _ _ _) as [config|e] eqn:Hg;
      [|by constructor].
    destruct (createProvider _ _ _) as [v|e] eqn:Hf; [|by constructor].
    eapply Created; eauto using createProvider_oid.
Qed.

Lemma cache_inv_new : cache_inv new_MultiTenantStorageService.
Proof.
  split; unfold partitioned, new_MultiTenantStorageService; simpl.
  - by rewrite map_size_empty.
  - intros k v. by rewrite lookup_empty.
  - intros k1 k2 v1 v2. by rewrite lookup_empty.
Qed.

Lemma cache_inv_resolve platformId environment s r s' :
  cache_inv s → getStorageProvider platforms platformId environment s = (r, s') → cache_inv s'.
Proof.
  intros [Hn Hb Hp] Hr.
  pose proof (resolve_outcome platformId environment s) as Ho.
  rewrite Hr in Ho.
  inversion Ho as [v Hc|e s0 Hc Hsame Ha|v s0 config Hc Hg Hv Hins Ha Hl Hf];
    subst.
  - by split.
  - split.
    + by rewrite Hsame, Ha.
    + intros k v. rewrite Hsame, Ha. apply Hb.
    + unfold partitioned. rewrite Hsame. apply Hp.
  - split.
    + rewrite Hins, Ha, Hn. symmetry. by apply map_size_insert_None.
    + intros k v'. rewrite Hins, Ha.
      destruct (decide (cacheKey platformId environment = k)) as [<-|Hne].
      * rewrite lookup_insert_eq. intros [= <-]. lia.
      * rewrite lookup_insert_ne by done. intros Hk%Hb. lia.
    + intros k1 k2 v1 v2. rewrite Hins.
      destruct (decide (cacheKey platformId environment = k1)) as [<-|Hne1];
        destruct (decide (cacheKey platformId environment = k2)) as [<-|Hne2].
      * done.
      * rewrite lookup_insert_eq, lookup_insert_ne by done.
        intros [= <-] Hk%Hb _. lia.
      * rewrite lookup_insert_eq, lookup_insert_ne by done.
        intros Hk%Hb [= <-] _. lia.
      * rewrite !lookup_insert_ne by done. apply Hp.
Qed.

Lemma cache_inv_resolve_all requests s :
  cache_inv s → cache_inv (snd (resolve_all platforms requests s)).
Proof.
  revert s. induction requests as [|[p e] rest IH]; intros s Hs; [done|].
  simpl. destruct (getStorageProvider platforms p e s) as [r s1] eqn:Hr.
  specialize (IH s1 (cache_inv_resolve _ _ _ _ _ Hs Hr)).
  by destruct (resolve_all platforms rest s1).
Qed.

Lemma cache_inv_reachable s : reachable platforms s → cache_inv s.
Proof. intros [requests <-]. apply cache_inv_resolve_all, cache_inv_new. Qed.

(** An entry of the cache is never replaced or removed. *)
Lemma resolve_keeps platformId environment s k v :
  providerCache s !! k = Some v →
  providerCache (snd (getStorageProvider platforms platformId environment s)) !! k = Some v.
Proof.
  intros Hk. pose proof (resolve_outcome platformId environment s) as Ho.
  destruct (getStorageProvider platforms platformId environment s) as [r s'].
  inversion Ho as [v' Hc|e s0 Hc Hsame Ha|v' s0 config Hc Hg Hv Hins Ha Hl Hf];
    subst; simpl.
  - done.
  - by rewrite Hsame.
  - rewrite Hins. rewrite lookup_insert_ne; [done|]. congruence.
Qed.

Lemma resolve_all_keeps requests s k v :
  providerCache s !! k = Some v →
  providerCache (snd (resolve_all platforms requests s)) !! k = Some v.
Proof.
  revert s. induction requests as [|[p e] rest IH]; intros s Hk; [done|].
  simpl. pose proof (resolve_keeps p e s k v Hk) as Hk1.
  destruct (getStorageProvider platforms p e s) as [r s1]. simpl in Hk1.
  specialize (IH s1 Hk1). by destruct (resolve_all platforms rest s1).
Qed.

Lemma resolve_hit platformId environment s v :
  providerCache s !! cacheKey platformId environment = Some v →
  getStorageProvider platforms platformId environment s = (Ok v, s).
Proof. intros Hc. unfold getStorageProvider. by rewrite Hc. Qed.

Lemma resolve_cached platformId environment s v s' :
  getStorageProvider platforms platformId environment s = (Ok v, s') →
  providerCache s' !! cacheKey platformId environment = Some v.
Proof.
  intros Hr. pose proof (resolve_outcome platformId environment s) as Ho.
  rewrite Hr in Ho.
  inversion Ho as [v' Hc| |v' s0 config Hc Hg Hv Hins Ha Hl Hf]; subst.
  - done.
  - rewrite Hins. apply lookup_insert_eq.
Qed.

End Cache.

(** The cache key determines the pair when the tenant identifiers contain
    no hyphen. *)
Lemma cacheKey_inj p1 e1 p2 e2 :
  Str.has_char "-"%char p1 = false → Str.has_char "-"%char p2 = false →
  cacheKey p1 e1 = cacheKey p2 e2 → p1 = p2 ∧ e1 = e2.
Proof.
  unfold cacheKey. intros H1 H2 Hk.
  assert (p1 = p2) as ->.
  { apply (f_equal (Str.split_on "-"%char)) in Hk.
    change ("-" +:+ e1) with (String "-"%char e1) in Hk.
    change ("-" +:+ e2) with (String "-"%char e2) in Hk.
    rewrite !UrlFacts.split_on_app in Hk by done. congruence. }
  split; [done|]. apply (inj (String.app p2)) in Hk.
  by injection Hk.
Qed.

End ServiceFacts.

(* ------------------------------------------------------------------ *)
(** * The claims of the specification *)

Import Js Str Url Sdk Eff Factory Service Spec.

#[local] Existing Instances Mem.mem_runtime Mem.mem_s3 Mem.mem_azure.

(** ** C8: idempotence of the sanitizers *)

(** C8, as amended.  For a runtime whose [toLowerCase] leaves strings over
    the allow-list unchanged and fixes every prefix of a lower-cased
    string, [sanitizeFileName] is idempotent on every string; both
    sanitizers map the empty string to the empty string; and
    [sanitizeBucketName] is idempotent on every input whose sanitized form
    carries no surrounding whitespace. *)
Theorem sanitizers_idempotent_amended
    (toLowerCase : list N → list N)
    (lower_allowed : ∀ s, Sanitize.all_allowed s → toLowerCase s = s)
    (lower_prefix : ∀ s u v, toLowerCase s = u ++ v → toLowerCase u = u)
    (x : list N) :
  Sanitize.sanitizeFileName toLowerCase (Sanitize.sanitizeFileName toLowerCase x)
  = Sanitize.sanitizeFileName toLowerCase x ∧
  Sanitize.sanitizeFileName toLowerCase [] = [] ∧
  Sanitize.sanitizeBucketName toLowerCase [] = [] ∧
  (Sanitize.trim (Sanitize.sanitizeBucketName toLowerCase x)
   = Sanitize.sanitizeBucketName toLowerCase x →
   Sanitize.sanitizeBucketName toLowerCase
     (Sanitize.sanitizeBucketName toLowerCase x)
   = Sanitize.sanitizeBucketName toLowerCase x).
Proof.
  pose proof (SanitizeFacts.lower_nil toLowerCase lower_allowed) as Hnil.
  split; [by apply SanitizeFacts.sanitizeFileName_idem|].
  split; [unfold Sanitize.sanitizeFileName; simpl; by rewrite Hnil|].
  split; [unfold Sanitize.sanitizeBucketName, Sanitize.trim; simpl;
          by rewrite Hnil|].
  by apply SanitizeFacts.sanitizeBucketName_idem_when_trimmed.
Qed.

Lemma sanitizers_idempotent_witness :
  let f := Sanitize.sanitizeFileName Sanitize.asciiLower in
  let g := Sanitize.sanitizeBucketName Sanitize.asciiLower in
  let x := Sanitize.units "  My Bucket--" in
  f (f x) = f x ∧ Sanitize.trim (g x) = g x ∧ g (g x) = g x.
Proof.
  intros f g x.
  destruct (sanitizers_idempotent_amended Sanitize.asciiLower
              SanitizeFacts.asciiLower_allowed SanitizeFacts.asciiLower_prefix
              x) as (Hf & _ & _ & Hg).
  split; [exact Hf|].
  split; [vm_compute; reflexivity|].
  apply Hg. vm_compute. reflexivity.
Defined.

(** C8 fails as stated: [sanitizeBucketName("a -")] is ["a "], and
    sanitizing that again gives ["a"]. *)
Lemma sanitizeBucketName_not_idempotent :
  Sanitize.sanitizeBucketName Sanitize.asciiLower (Sanitize.units "a -")
  = Sanitize.units "a " ∧
  Sanitize.sanitizeBucketName Sanitize.asciiLower (Sanitize.units "a ")
  = Sanitize.units "a" ∧
  Sanitize.sanitizeBucketName Sanitize.asciiLower
    (Sanitize.sanitizeBucketName Sanitize.asciiLower (Sanitize.units "a -"))
  ≠ Sanitize.sanitizeBucketName Sanitize.asciiLower (Sanitize.units "a -").
Proof. vm_compute. repeat split; discriminate. Qed.

(** ** C10: the delete operations *)

(** C10.  In both adapters [deleteFile] and [deleteFileByBucketKey] return
    [true] or throw an [Error] carrying the operation's prefix, never
    [false]; and they return [true] whenever the address is resolved and
    the backend's delete request completes. *)
Theorem delete_returns_true_or_throws
    `{RT : Runtime} {W : Type} `{S3C : S3Client W} `{AZ : BlobService W}
    (platforms : gmap string Config.Platform)
    (s3 : S3Provider) (az : AzureProvider) (st : St W)
    (fileUrl bucketName : string) (key : option string)
    (metadata : gmap string JsVal) :
  (true_or_wrapped "S3 delete failed: " (S3.deleteFile s3 fileUrl st) ∧
   true_or_wrapped "S3 delete by bucket key failed: "
     (S3.deleteFileByBucketKey platforms s3 bucketName key metadata st) ∧
   true_or_wrapped "Azure delete failed: " (Azure.deleteFile az fileUrl st) ∧
   true_or_wrapped "Azure delete by bucket key failed: "
     (Azure.deleteFileByBucketKey az bucketName key metadata st)) ∧
  (∀ p w', S3.parseUrl s3 fileUrl = Ok p →
     delete_object (world st) s3 (S3.bucketName p) (S3.key p) = Ok w' →
     fst (S3.deleteFile s3 fileUrl st) = Ok true) ∧
  (∀ cfg w',
     Config.getPlatformConfig platforms
       (ToString (S3.prop metadata "platformId"))
       (ToString (S3.prop metadata "environment")) = Ok cfg →
     delete_object (world st) s3 (Config.bucketName (Config.env cfg))
       (if truthy (of_opt key) then bucketName +:+ "/" +:+ tmpl key
        else bucketName) = Ok w' →
     fst (S3.deleteFileByBucketKey platforms s3 bucketName key metadata st)
     = Ok true) ∧
  (∀ p w', Azure.parseUrl fileUrl = Ok p →
     blob_delete (world st) az (Azure.containerName p)
       (Some (Azure.blobName p)) = Ok w' →
     fst (Azure.deleteFile az fileUrl st) = Ok true) ∧
  (∀ w', blob_delete (world st) az (Some bucketName) key = Ok w' →
     fst (Azure.deleteFileByBucketKey az bucketName key metadata st)
     = Ok true).
Proof.
  split; [repeat split|].
  - apply AdapterFacts.s3_deleteFile_never_false.
  - apply AdapterFacts.s3_deleteFileByBucketKey_never_false.
  - apply AdapterFacts.azure_deleteFile_never_false.
  - apply AdapterFacts.azure_deleteFileByBucketKey_never_false.
  - split; [|split; [|split]].
    + intros p w'. apply AdapterFacts.s3_deleteFile_true.
    + intros cfg w'. apply AdapterFacts.s3_deleteFileByBucketKey_true.
    + intros p w'. apply AdapterFacts.azure_deleteFile_true.
    + intros w'. apply AdapterFacts.azure_deleteFileByBucketKey_true.
Qed.

(** Deleting an object that is not there: the S3 request completes and the
    adapter returns [true]; the Azure request throws and so does the
    adapter. *)
Lemma delete_returns_true_or_throws_witness :
  fst (S3.deleteFile Mem.s3_this
         "https://tenant-bucket.s3.ap-south-1.amazonaws.com/documents/gone.pdf"
         (Mem.start Mem.private_bucket_world 0)) = Ok true ∧
  true_or_wrapped "Azure delete failed: "
    (Azure.deleteFile Mem.azure_this
       "https://acct.blob.core.windows.net/documents/gone.pdf"
       (Mem.start Mem.private_container_world 0)).
Proof.
  pose proof (delete_returns_true_or_throws Mem.registry Mem.s3_this
                Mem.azure_this (Mem.start Mem.private_bucket_world 0)
                "https://tenant-bucket.s3.ap-south-1.amazonaws.com/documents/gone.pdf"
                "documents" None ∅) as [_ [Hs3 _]].
  pose proof (delete_returns_true_or_throws Mem.registry Mem.s3_this
                Mem.azure_this (Mem.start Mem.private_container_world 0)
                "https://acct.blob.core.windows.net/documents/gone.pdf"
                "documents" None ∅) as [(_ & _ & Haz & _) _].
  split; [|exact Haz].
  eapply Hs3; vm_compute; reflexivity.
Defined.

(** ** C9: the default expiry *)



(** ** C5: download access is gated by existence *)

(** C5.  In both adapters, when the existence check of
    [generateDownloadUrl] answers [false], the call throws
    ["...: File not found"], leaves the store as it was and makes no
    signing request (for Azure, whose check also answers [false] on an
    address that does not parse, the address is taken to parse);
    conversely, whenever a signing request is made, the existence check
    answered [true]. *)
Theorem download_url_gated_by_existence
    `{RT : Runtime} {W : Type} `{S3C : S3Client W} `{AZ : BlobService W}
    (s3 : S3Provider) (az : AzureProvider) (st : St W)
    (permanentUrl : string) (options : Options) :
  (∀ st1,
     S3.fileExists s3 permanentUrl st = (Ok false, st1) →
     S3.generateDownloadUrl s3 permanentUrl options st
     = (Throw (new_Error "S3 download URL generation failed: File not found"),
        st1) ∧
     world st1 = world st ∧
     ∃ cs, made st st1 cs ∧ existsb signing cs = false) ∧
  (∀ p st1,
     Azure.parseUrl permanentUrl = Ok p →
     Azure.fileExists az permanentUrl st = (Ok false, st1) →
     Azure.generateDownloadUrl az permanentUrl options st
     = (Throw (new_Error "Azure SAS generation failed: File not found"), st1) ∧
     world st1 = world st ∧
     ∃ cs, made st st1 cs ∧ existsb signing cs = false) ∧
  (∀ r st2 cs,
     S3.generateDownloadUrl s3 permanentUrl options st = (r, st2) →
     made st st2 cs → existsb signing cs = true →
     ∃ st1, S3.fileExists s3 permanentUrl st = (Ok true, st1)) ∧
  (∀ r st2 cs,
     Azure.generateDownloadUrl az permanentUrl options st = (r, st2) →
     made st st2 cs → existsb signing cs = true →
     ∃ st1, Azure.fileExists az permanentUrl st = (Ok true, st1)).
Proof.
  split; [|split; [|split]].
  - intros st1 He. split; [by apply AdapterFacts.s3_generate_absent|].
    by eapply AdapterFacts.s3_fileExists_effect.
  - intros p st1 Hp He.
    split; [by eapply AdapterFacts.azure_generate_absent|].
    by eapply AdapterFacts.azure_fileExists_effect.
  - intros r st2 cs. apply AdapterFacts.s3_signing_after_check.
  - intros r st2 cs. apply AdapterFacts.azure_signing_after_check.
Qed.

(** A download address requested for an object that is not in the bucket,
    and for a blob that is not in the container. *)
Lemma download_url_gated_by_existence_witness :
  fst (S3.generateDownloadUrl Mem.s3_this
         "https://tenant-bucket.s3.ap-south-1.amazonaws.com/documents/gone.pdf"
         {| expiryMinutes := JUndefined |}
         (Mem.start Mem.private_bucket_world 0))
  = Throw (new_Error "S3 download URL generation failed: File not found") ∧
  fst (Azure.generateDownloadUrl Mem.azure_this
         "https://acct.blob.core.windows.net/documents/gone.pdf"
         {| expiryMinutes := JUndefined |}
         (Mem.start Mem.private_container_world 0))
  = Throw (new_Error "Azure SAS generation failed: File not found").
Proof.
  destruct (download_url_gated_by_existence Mem.s3_this Mem.azure_this
              (Mem.start Mem.private_bucket_world 0)
              "https://tenant-bucket.s3.ap-south-1.amazonaws.com/documents/gone.pdf"
              {| expiryMinutes := JUndefined |}) as (Hs3 & _).
  destruct (download_url_gated_by_existence Mem.s3_this Mem.azure_this
              (Mem.start Mem.private_container_world 0)
              "https://acct.blob.core.windows.net/documents/gone.pdf"
              {| expiryMinutes := JUndefined |}) as (_ & Haz & _).
  split.
  - edestruct Hs3 as [-> _]; [vm_compute; reflexivity|]. reflexivity.
  - edestruct Haz as [-> _]; [vm_compute; reflexivity..|]. reflexivity.
Defined.

(** ** C4: access mismatch on upload *)




(** ** C7: deleting by container and key *)




(** ** C2: metadata values in string form *)

(** C2 at the failing input: uploading with metadata [{ count: 42 }].
    The S3 adapter stores the string ["42"]; the Azure adapter hands the
    number [42] to the blob client unchanged. *)
Theorem azure_upload_keeps_raw_metadata :
  let metadata : gmap string JsVal :=
    <["count" := JNum 42]> Mem.tenant_metadata in
  let s3 := S3.uploadFile Mem.registry Mem.s3_this "documents" "data" None
              "report.pdf" metadata "private"
              (Mem.start Mem.private_bucket_world 0) in
  let az := Azure.uploadFile Mem.azure_this "documents" "data" None
              "report.pdf" metadata "private"
              (Mem.start Mem.private_container_world 0) in
  (o ← Mem.object_at (world (snd s3)) "tenant-bucket" "documents/report.pdf";
   Mem.obj_metadata o !! "count") = Some "42" ∧
  fst az = Ok "https://acct.blob.core.windows.net/documents/report.pdf" ∧
  (b ← Mem.blob_at (world (snd az)) "documents" "report.pdf";
   Mem.blob_metadata b !! "count") = Some (JNum 42) ∧
  JNum 42 ≠ JStr (ToString (JNum 42)).
Proof. vm_compute. done. Qed.

(** ** C3: the stamped metadata keys *)

(** C3 at the failing input: uploading with metadata that itself carries
    [provider] and [uploadedAt].  The S3 adapter overwrites both; through
    the Azure adapter, called directly or through the routing service, the
    caller's values are the ones stored. *)
Theorem azure_upload_keeps_caller_stamps :
  let metadata : gmap string JsVal :=
    <["provider" := JStr "elsewhere"]> {["uploadedAt" := JStr "yesterday"]} in
  let s3 := S3.uploadFile Mem.registry Mem.s3_this "documents" "data" None
              "report.pdf" (metadata ∪ Mem.tenant_metadata) "private"
              (Mem.start Mem.private_bucket_world 1700000000000) in
  let az := Azure.uploadFile Mem.azure_this "documents" "data" None
              "report.pdf" metadata "private"
              (Mem.start Mem.private_container_world 1700000000000) in
  let routed :=
    Service.uploadFile Mem.registry "brokerage" "uat" "documents" None
      "private" "data" "report.pdf" metadata
      {| svc := new_MultiTenantStorageService;
         backend := Mem.start Mem.private_container_world 1700000000000 |} in
  let stored_s3 :=
    Mem.obj_metadata <$>
    Mem.object_at (world (snd s3)) "tenant-bucket" "documents/report.pdf" in
  let stored_az :=
    Mem.blob_metadata <$>
    Mem.blob_at (world (snd az)) "documents" "report.pdf" in
  let stored_routed :=
    Mem.blob_metadata <$>
    Mem.blob_at (world (backend (snd routed))) "documents" "report.pdf" in
  (stored_s3 ≫= (.!! "provider")) = Some "s3" ∧
  (stored_s3 ≫= (.!! "uploadedAt")) = Some "t1700000000000" ∧
  (stored_az ≫= (.!! "provider")) = Some (JStr "elsewhere") ∧
  (stored_az ≫= (.!! "uploadedAt")) = Some (JStr "yesterday") ∧
  (stored_routed ≫= (.!! "provider")) = Some (JStr "elsewhere") ∧
  (stored_routed ≫= (.!! "uploadedAt")) = Some (JStr "yesterday").
Proof. vm_compute. done. Qed.

(** ** C6: parsing a built address *)




(** ** C1: one adapter per cache key *)

(** C1, as amended.  In every state the service can reach: the adapters
    constructed so far are exactly the cached ones, and two different
    cache keys hold different adapter objects; a call whose key
    ["{tenantId}-{environment}"] is cached returns the cached adapter and
    changes nothing (no registry lookup, no factory invocation); a
    successful call whose key is not cached makes one registry lookup and
    one factory invocation and stores the adapter under the key; after a
    successful call every later call for the same pair returns the same
    adapter and changes nothing; and a successful call for a pair with
    another cache key (as is every other pair when the tenant identifiers
    contain no hyphen) returns another adapter object. *)
Theorem provider_cache_one_adapter_per_key
    {W : Type} `{AZ : BlobService W}
    (platforms : gmap string Config.Platform) (s : Service)
    (platformId environment : string) :
  reachable platforms s →
  (allocated s = size (providerCache s) ∧ partitioned s) ∧
  (∀ v, providerCache s !! cacheKey platformId environment = Some v →
        getStorageProvider platforms platformId environment s = (Ok v, s)) ∧
  (∀ v s',
     providerCache s !! cacheKey platformId environment = None →
     getStorageProvider platforms platformId environment s = (Ok v, s') →
     providerCache s'
     = <[cacheKey platformId environment := v]> (providerCache s) ∧
     allocated s' = S (allocated s) ∧
     configLookups s' = configLookups s ++ [(platformId, environment)] ∧
     ∃ type, factoryCalls s'
             = factoryCalls s ++ [(cacheKey platformId environment, type)]) ∧
  (∀ v s' later,
     getStorageProvider platforms platformId environment s = (Ok v, s') →
     let s'' := snd (resolve_all platforms later s') in
     getStorageProvider platforms platformId environment s'' = (Ok v, s'')) ∧
  (∀ v s1 platformId2 environment2 v2 s2,
     getStorageProvider platforms platformId environment s = (Ok v, s1) →
     getStorageProvider platforms platformId2 environment2 s1 = (Ok v2, s2) →
     (cacheKey platformId2 environment2 ≠ cacheKey platformId environment ∨
      has_char "-"%char platformId = false ∧
      has_char "-"%char platformId2 = false ∧
      (platformId2, environment2) ≠ (platformId, environment)) →
     oid_of v2 ≠ oid_of v).
Proof.
  intros Hreach.
  pose proof (ServiceFacts.cache_inv_reachable platforms s Hreach) as Hinv.
  split; [split; apply Hinv|]. split; [|split; [|split]].
  - intros v. apply ServiceFacts.resolve_hit.
  - intros v s' Hnone Hr.
    pose proof (ServiceFacts.resolve_outcome platforms platformId environment s)
      as Ho.
    rewrite Hr in Ho.
    inversion Ho as [v' Hc| |v' s0 config Hc Hg Hv Hins Ha Hl Hf]; subst.
    + congruence.
    + repeat split; try done. by eexists.
  - intros v s' later Hr s''.
    apply ServiceFacts.resolve_hit, ServiceFacts.resolve_all_keeps.
    by eapply ServiceFacts.resolve_cached.
  - intros v s1 p2 e2 v2 s2 Hr1 Hr2 Hdiff.
    assert (cacheKey p2 e2 ≠ cacheKey platformId environment) as Hne.
    { destruct Hdiff as [Hne|(H1 & H2 & Hpair)]; [done|].
      intros Hk. apply ServiceFacts.cacheKey_inj in Hk as [-> ->]; done. }
    pose proof (ServiceFacts.cache_inv_resolve platforms _ _ _ _ _ Hinv Hr1)
      as Hinv1.
    pose proof (ServiceFacts.cache_inv_resolve platforms _ _ _ _ _ Hinv1 Hr2)
      as [_ _ Hpart].
    apply (Hpart (cacheKey p2 e2) (cacheKey platformId environment)); [| |done].
    + by eapply ServiceFacts.resolve_cached.
    + pose proof (ServiceFacts.resolve_keeps platforms p2 e2 s1 _ v
                    (ServiceFacts.resolve_cached platforms _ _ _ _ _ Hr1)) as Hk.
      by rewrite Hr2 in Hk.
Qed.

(** Two tenants of the sample registry, from a fresh service: the second
    call for a pair returns the adapter of the first, and the two tenants
    get different adapter objects. *)
Lemma provider_cache_one_adapter_per_key_witness :
  let run := resolve_all (W:=Mem.World) Mem.registry
               [("invictus", "uat"); ("brokerage", "uat"); ("invictus", "uat")]
               new_MultiTenantStorageService in
  (oid_of <$> match fst run with
              | [Ok a; Ok b; Ok c] => Some a
              | _ => None
              end) = Some 0%nat ∧
  getStorageProvider (W:=Mem.World) Mem.registry "invictus" "uat" (snd run)
  = (Ok (S3Adapter 0 Mem.s3_this), snd run) ∧
  allocated (snd run) = 2%nat.
Proof.
  intros run.
  destruct (provider_cache_one_adapter_per_key (W:=Mem.World) Mem.registry
              new_MultiTenantStorageService "invictus" "uat")
    as (_ & _ & _ & Hlater & _).
  { by exists []. }
  split; [vm_compute; reflexivity|].
  split; [|vm_compute; reflexivity].
  apply (Hlater (S3Adapter 0 Mem.s3_this)
           (snd (resolve_all (W:=Mem.World) Mem.registry [("invictus", "uat")]
                   new_MultiTenantStorageService))
           [("brokerage", "uat"); ("invictus", "uat")]).
  vm_compute. reflexivity.
Defined.

(** C1 fails as stated: the pairs [("acme-eu", "uat")] and
    [("acme", "eu-uat")] are different and have the same cache key, so the
    second call returns the adapter constructed for the first, without
    looking the pair up. *)
Lemma cache_key_collision :
  let '(r1, s1) :=
    getStorageProvider (W:=Mem.World) Mem.hyphen_registry "acme-eu" "uat"
      new_MultiTenantStorageService in
  let '(r2, s2) :=
    getStorageProvider (W:=Mem.World) Mem.hyphen_registry "acme" "eu-uat" s1 in
  ("acme-eu", "uat") ≠ ("acme", "eu-uat") ∧
  r1 = Ok (S3Adapter 0 Mem.s3_acme) ∧ r2 = r1 ∧
  configLookups s2 = [("acme-eu", "uat")] ∧
  Config.getPlatformConfig Mem.hyphen_registry "acme" "eu-uat"
  = Throw (new_Error "Platform 'acme' not found").
Proof. vm_compute. repeat split; discriminate. Qed.

(* ------------------------------------------------------------------ *)
(** * Further properties of the code *)

Module RunFacts.
Import Sanitize Routes.

Section Runs.
Variable p : N → bool.

Lemma no_adjacent_tail c r :
  no_adjacent p (c :: r) = true → no_adjacent p r = true.
Proof. simpl. by intros [_ ?]%andb_true_iff. Qed.

Lemma collapse_no_adjacent x s :
  p x = true → no_adjacent p (replace_runs p [x] s) = true.
Proof.
  intros Hx. induction s as [|c r IH]; [done|].
  simpl. destruct (p c) eqn:Hc.
  - destruct r as [|c' r']; [done|].
    destruct (p c') eqn:Hc'; [done|].
    simpl in IH |- *. rewrite Hc' in IH |- *. simpl in IH |- *.
    rewrite ?Hx. simpl. rewrite Hc' at 1. exact IH.
  - simpl. rewrite Hc, IH. by destruct (replace_runs p [x] r).
Qed.

Lemma strip_leading_no_adjacent s :
  no_adjacent p s = true → no_adjacent p (strip_leading p s) = true.
Proof.
  induction s as [|c r IH]; [done|].
  intros H. simpl. destruct (p c); [|done].
  apply IH. by eapply no_adjacent_tail.
Qed.

Lemma strip_leading_gives_no_leading s :
  no_leading p (strip_leading p s) = true.
Proof.
  induction s as [|c r IH]; [done|].
  simpl. destruct (p c) eqn:Hc; [done|]. simpl. by rewrite Hc.
Qed.

Lemma strip_trailing_no_adjacent s :
  no_adjacent p s = true → no_adjacent p (strip_trailing p s) = true.
Proof.
  induction s as [|c r IH]; [done|].
  intros H. pose proof (no_adjacent_tail _ _ H) as Hr. specialize (IH Hr).
  simpl. destruct (strip_trailing p r) as [|c' r'] eqn:E.
  - by destruct (p c).
  - apply SanitizeFacts.strip_trailing_head in E as [r0 ->].
    simpl in H. apply andb_true_iff in H as [Hh _].
    change (negb (p c && p c') && no_adjacent p (c' :: r') = true).
    by rewrite Hh, IH.
Qed.

Lemma strip_trailing_keeps_no_leading s :
  no_leading p s = true → no_leading p (strip_trailing p s) = true.
Proof.
  destruct s as [|c r]; [done|]. simpl. intros H.
  destruct (strip_trailing p r); [|done].
  apply negb_true_iff in H. by rewrite H; simpl; rewrite H.
Qed.

Lemma strip_trailing_gives_no_trailing s :
  no_trailing p (strip_trailing p s) = true.
Proof.
  induction s as [|c r IH]; [done|].
  simpl. destruct (strip_trailing p r) as [|c' r'] eqn:E.
  - destruct (p c) eqn:Hc; [done|]. simpl. by rewrite Hc.
  - exact IH.
Qed.

(** What [strip_trailing] removes is a run of the class. *)
Lemma strip_trailing_removed s :
  ∃ v, s = strip_trailing p s ++ v ∧ Forall (λ c, p c = true) v.
Proof.
  induction s as [|c r (v & Hv & Hp)]; [by exists []|]. simpl.
  destruct (strip_trailing p r) as [|c' r'] eqn:E.
  - destruct (p c) eqn:Hc.
    + exists (c :: r). split; [done|]. simpl in Hv. subst v. by constructor.
    + exists r. split; [done|]. simpl in Hv. by subst v.
  - exists v. split; [|done]. by rewrite Hv at 1.
Qed.

Lemma replace_runs_Forall (P : N → Prop) x s :
  P x → Forall P s → Forall P (replace_runs p [x] s).
Proof.
  intros Hx. induction 1 as [|c r Hc Hr IH]; simpl; [constructor|].
  destruct (p c).
  - destruct r as [|c' r']; [by repeat constructor|].
    destruct (p c'); [done|]. by constructor.
  - by constructor.
Qed.

End Runs.

Lemma forward_slashes_no_backslash s :
  Forall (λ c, is_backslash c = false) (forward_slashes s).
Proof.
  unfold forward_slashes. induction s as [|c r IH]; simpl; constructor; [|done].
  by destruct (is_backslash c) eqn:E.
Qed.

Lemma hyphens_repeat v :
  Forall (λ c, is_hyphen c = true) v → v = repeat hyphen (length v).
Proof.
  induction 1 as [|c r Hc _ IH]; [done|]. simpl.
  apply SanitizeFacts.is_hyphen_true in Hc as ->. by rewrite <- IH.
Qed.

End RunFacts.

(** X1.  Whatever the runtime's [toLowerCase] does, the result of
    [sanitizeFileName] consists of characters of [[a-z0-9!._*'()-]] only
    (so it has no slash and no whitespace), has no two adjacent hyphens,
    neither starts nor ends with a hyphen, and has no hyphen directly
    before a dot. *)
Theorem sanitizeFileName_normal_form
    (toLowerCase : list N → list N) (fileName : list N) :
  let r := Sanitize.sanitizeFileName toLowerCase fileName in
  Forall (λ c, Sanitize.allowed c = true ∧ c ≠ Routes.slash ∧
               Sanitize.is_ws c = false) r ∧
  Sanitize.no_double_hyphen r = true ∧
  Sanitize.no_leading_hyphen r = true ∧
  Sanitize.no_trailing_hyphen r = true ∧
  Sanitize.no_hyphen_dot r = true.
Proof.
  intros r.
  destruct (SanitizeFacts.sanitizeFileName_nf toLowerCase fileName)
    as [Ha Hd Hl Ht Hp].
  split; [|done].
  eapply Forall_impl; [exact Ha|]. intros c Hc. simpl in Hc.
  split; [done|]. split; [|by apply SanitizeFacts.allowed_not_ws].
  intros ->. done.
Qed.

(** X2.  [sanitizeBucketName] returns the trimmed, lower-cased name
    without the hyphens at its end, and nothing else is removed: the
    result does not end with a hyphen, and appending some number of
    hyphens to it gives back [toLowerCase(trim(name))]. *)
Theorem sanitizeBucketName_strips_only_trailing_hyphens
    (toLowerCase : list N → list N) (bucketName : list N) :
  let r := Sanitize.sanitizeBucketName toLowerCase bucketName in
  Sanitize.no_trailing_hyphen r = true ∧
  ∃ k, toLowerCase (Sanitize.trim bucketName) = r ++ repeat Sanitize.hyphen k.
Proof.
  intros r. unfold r, Sanitize.sanitizeBucketName.
  split; [apply SanitizeFacts.strip_trailing_no_trailing|].
  destruct (RunFacts.strip_trailing_removed Sanitize.is_hyphen
              (toLowerCase (Sanitize.trim bucketName))) as (v & Hv & Hp).
  exists (length v). by rewrite <- (RunFacts.hyphens_repeat v Hp).
Qed.

(** X3.  The prefix the upload route passes on has no backslash, no two
    adjacent slashes, and neither starts nor ends with a slash: every
    path segment of a non-empty prefix is non-empty. *)
Theorem sanitizedPrefix_normal_form (prefix : option (list N)) :
  let r := Routes.sanitizedPrefix prefix in
  Forall (λ c, Routes.is_backslash c = false) r ∧
  Routes.no_adjacent Routes.is_slash r = true ∧
  Routes.no_leading Routes.is_slash r = true ∧
  Routes.no_trailing Routes.is_slash r = true.
Proof.
  intros r. unfold r, Routes.sanitizedPrefix. repeat split.
  - apply SanitizeFacts.strip_trailing_Forall,
      SanitizeFacts.strip_leading_Forall, RunFacts.replace_runs_Forall;
      [done|apply RunFacts.forward_slashes_no_backslash].
  - apply RunFacts.strip_trailing_no_adjacent,
      RunFacts.strip_leading_no_adjacent, RunFacts.collapse_no_adjacent.
    done.
  - apply RunFacts.strip_trailing_keeps_no_leading,
      RunFacts.strip_leading_gives_no_leading.
  - apply RunFacts.strip_trailing_gives_no_trailing.
Qed.

Module ConnectionStringFacts.
Import Js Str Url Azure Spec2.

Lemma match_field_unfold field s :
  match_field field s
  = match match strip_prefix field s with
          | Some rest =>
              let v := until_semicolon rest in
              if nonempty v then Some v else None
          | None => None
          end with
    | Some v => Some v
    | None =>
        match s with
        | EmptyString => None
        | String _ r => match_field field r
        end
    end.
Proof. by destruct s. Qed.

Lemma strip_prefix_Some pre s rest :
  strip_prefix pre s = Some rest → s = pre +:+ rest.
Proof.
  revert s. induction pre as [|a pre IH]; intros s; simpl.
  - by intros [= ->].
  - destruct s as [|b s']; [done|].
    destruct (Ascii.eqb_spec a b) as [->|_]; [|done].
    by intros ->%IH.
Qed.

Lemma strip_prefix_app pre rest : strip_prefix pre (pre +:+ rest) = Some rest.
Proof.
  induction pre as [|a pre IH]; simpl; [done|]. by rewrite Ascii.eqb_refl.
Qed.

Lemma strip_prefix_None pre s :
  String.prefix pre s = false → strip_prefix pre s = None.
Proof.
  revert s. induction pre as [|a pre IH]; intros s; simpl.
  - by destruct s.
  - destruct s as [|b s']; [done|]. simpl.
    destruct (Ascii.ascii_dec a b) as [->|Hne].
    + rewrite Ascii.eqb_refl. apply IH.
    + intros _. by destruct (Ascii.eqb_spec a b).
Qed.

Lemma until_semicolon_split s :
  ∃ rest, s = until_semicolon s +:+ rest ∧
          has_char ";"%char (until_semicolon s) = false ∧
          (rest = "" ∨ ∃ r, rest = String ";"%char r).
Proof.
  induction s as [|c r (rest & Hs & Hn & Hr)]; simpl.
  - exists "". auto.
  - destruct (Ascii.eqb_spec c ";"%char) as [->|Hne].
    + exists (String ";"%char r). eauto.
    + exists rest.
      split; [change (String c r = String c (until_semicolon r +:+ rest));
              by rewrite <- Hs|].
      split; [|done]. simpl. rewrite Hn.
      by destruct (Ascii.eqb_spec c ";"%char).
Qed.

Lemma until_semicolon_app v rest :
  has_char ";"%char v = false →
  until_semicolon (v +:+ String ";"%char rest) = v.
Proof.
  induction v as [|c v IH]; simpl; [done|].
  intros [Hc Hv]%orb_false_iff. rewrite Hc. by rewrite IH.
Qed.

Lemma match_field_sound field s v :
  match_field field s = Some v → field_value field s v.
Proof.
  induction s as [|c r IH]; rewrite match_field_unfold.
  - destruct (strip_prefix field "") as [rest|] eqn:E; [|done].
    simpl. destruct (nonempty (until_semicolon rest)) eqn:Hn; [|done].
    intros [= <-]. apply strip_prefix_Some in E.
    destruct (until_semicolon_split rest) as (rest' & Hs & Hc & Hr).
    split; [done|]. split; [done|].
    exists "", rest'. split; [|done]. simpl. by rewrite <- Hs.
  - destruct (strip_prefix field (String c r)) as [rest|] eqn:E; simpl.
    + destruct (nonempty (until_semicolon rest)) eqn:Hn.
      * intros [= <-]. apply strip_prefix_Some in E.
        destruct (until_semicolon_split rest) as (rest' & Hs & Hc & Hr).
        split; [done|]. split; [done|].
        exists "", rest'. split; [|done]. simpl. by rewrite <- Hs.
      * intros (Hv & Hc & pre & rest' & -> & Hr)%IH.
        split; [done|]. split; [done|]. by exists (String c pre), rest'.
    + intros (Hv & Hc & pre & rest' & -> & Hr)%IH.
      split; [done|]. split; [done|]. by exists (String c pre), rest'.
Qed.

Lemma match_field_found a field pre v rest :
  has_char a pre = false → nonempty v = true →
  has_char ";"%char v = false →
  match_field (String a field)
    (pre +:+ String a field +:+ v +:+ String ";"%char rest) = Some v.
Proof.
  intros Hp Hv Hc. induction pre as [|c pre IH]; rewrite match_field_unfold.
  - change ("" +:+ String a field +:+ v +:+ String ";"%char rest)
      with (String a field +:+ v +:+ String ";"%char rest).
    rewrite strip_prefix_app. simpl. by rewrite until_semicolon_app, Hv.
  - simpl in Hp. apply orb_false_iff in Hp as [Hca Hp].
    simpl. rewrite Ascii.eqb_sym, Hca. by apply IH.
Qed.

Lemma match_field_missing field s :
  includes field s = false → match_field field s = None.
Proof.
  induction s as [|c r IH]; rewrite match_field_unfold;
    unfold includes; fold includes; intros [Hp Hr]%orb_false_iff;
    rewrite (strip_prefix_None _ _ Hp); [done|]. by apply IH.
Qed.

End ConnectionStringFacts.

(** X4.  What the Azure adapter extracts from a connection string is a
    value of the field: when [extractAccountName] (or [extractAccountKey])
    returns [v], the string contains ["AccountName="] (["AccountKey="])
    followed by [v], [v] is not empty and has no semicolon, and [v] ends
    at a semicolon or at the end of the string. *)
Theorem connection_string_extraction_sound (connectionString : string) :
  (∀ v, Azure.extractAccountName connectionString = Ok v →
        Spec2.field_value "AccountName=" connectionString v) ∧
  (∀ v, Azure.extractAccountKey connectionString = Ok v →
        Spec2.field_value "AccountKey=" connectionString v).
Proof.
  unfold Azure.extractAccountName, Azure.extractAccountKey.
  split; intros v;
    (destruct (Azure.match_field _ connectionString) as [v'|] eqn:E;
     [|done]); intros [= <-];
    by apply ConnectionStringFacts.match_field_sound.
Qed.

Lemma connection_string_extraction_sound_witness :
  Spec2.field_value "AccountName="
    "DefaultEndpointsProtocol=https;AccountName=testaccount;AccountKey=testkey123;EndpointSuffix=core.windows.net"
    "testaccount" ∧
  Spec2.field_value "AccountKey="
    "DefaultEndpointsProtocol=https;AccountName=testaccount;AccountKey=testkey123;EndpointSuffix=core.windows.net"
    "testkey123".
Proof.
  destruct (connection_string_extraction_sound
    "DefaultEndpointsProtocol=https;AccountName=testaccount;AccountKey=testkey123;EndpointSuffix=core.windows.net")
    as [Hn Hk].
  split; [apply Hn|apply Hk]; vm_compute; reflexivity.
Defined.

(** X5.  Extraction finds a field that is there and reports one that is
    not: in a connection string where ["AccountName="] follows text
    without the letter [A] and is followed by a non-empty value [v] and a
    semicolon, [extractAccountName] returns [v]; in a string that does not
    contain ["AccountName="] it throws; likewise for ["AccountKey="]. *)
Theorem connection_string_extraction_complete (pre v rest cs : string) :
  has_char "A"%char pre = false →
  nonempty v = true → has_char ";"%char v = false →
  Azure.extractAccountName
    (pre +:+ "AccountName=" +:+ v +:+ String ";"%char rest) = Ok v ∧
  Azure.extractAccountKey
    (pre +:+ "AccountKey=" +:+ v +:+ String ";"%char rest) = Ok v ∧
  (includes "AccountName=" cs = false →
   Azure.extractAccountName cs
   = Throw (new_Error "Could not extract AccountName from connection string")) ∧
  (includes "AccountKey=" cs = false →
   Azure.extractAccountKey cs
   = Throw (new_Error "Could not extract AccountKey from connection string")).
Proof.
  intros Hp Hv Hc. unfold Azure.extractAccountName, Azure.extractAccountKey.
  split; [|split; [|split]].
  - by rewrite (ConnectionStringFacts.match_field_found "A"%char "ccountName="
                  pre v rest Hp Hv Hc).
  - by rewrite (ConnectionStringFacts.match_field_found "A"%char "ccountKey="
                  pre v rest Hp Hv Hc).
  - intros Hm. by rewrite ConnectionStringFacts.match_field_missing.
  - intros Hm. by rewrite ConnectionStringFacts.match_field_missing.
Qed.

Lemma connection_string_extraction_complete_witness :
  Azure.extractAccountName
    "DefaultEndpointsProtocol=https;AccountName=testaccount;AccountKey=k"
  = Ok "testaccount" ∧
  Azure.extractAccountKey "AccountName=test;EndpointSuffix=core.windows.net"
  = Throw (new_Error "Could not extract AccountKey from connection string").
Proof.
  destruct (connection_string_extraction_complete
              "DefaultEndpointsProtocol=https;" "testaccount" "AccountKey=k"
              "AccountName=test;EndpointSuffix=core.windows.net")
    as (Hn & _ & _ & Hk); [vm_compute; reflexivity..|].
  split; [exact Hn|]. apply Hk. vm_compute. reflexivity.
Defined.

Module FactoryFacts.
Import Js Str Sdk Factory Spec2 Tactics.

Lemma falsy_str_false x :
  falsy_str x = false → ∃ s, x = Some s ∧ s ≠ "".
Proof.
  destruct x as [s|]; [|done]. unfold falsy_str. simpl.
  destruct (String.eqb_spec s ""); [done|]. by exists s.
Qed.

Lemma truthy_opt x :
  truthy (of_opt x) = true → ∃ s, x = Some s ∧ s ≠ "".
Proof.
  intros H. apply falsy_str_false. unfold falsy_str. by rewrite H.
Qed.

Lemma nonempty_ne v : nonempty v = true → v ≠ "".
Proof. by destruct v. Qed.

Section Constructors.
Context {W : Type} `{AZ : BlobService W}.

Lemma s3_constructor_ok config this :
  S3.new_AWSS3StorageProvider config = Ok this →
  s3_config this = config ∧
  Config.region (Config.env config) = Some (s3_region this) ∧
  s3_region this ≠ "" ∧
  falsy_str (Config.accessKeyId (Config.env config)) = false ∧
  falsy_str (Config.secretAccessKey (Config.env config)) = false.
Proof.
  unfold S3.new_AWSS3StorageProvider.
  destruct (falsy_str (Config.accessKeyId _)) eqn:Ha; [done|].
  destruct (falsy_str (Config.secretAccessKey _)) eqn:Hs; [done|].
  destruct (falsy_str (Config.region _)) eqn:Hr; [done|]. simpl.
  intros [= <-]. simpl.
  apply falsy_str_false in Hr as (r & -> & Hne). done.
Qed.

Lemma azure_constructor_ok config this :
  Azure.new_AzureStorageProvider config = Ok this →
  az_config this = config ∧
  az_accountName this ≠ "" ∧ az_accountKey this ≠ "" ∧
  ∀ cs, Config.connectionString (Config.env config) = Some cs → cs ≠ "" →
        field_value "AccountName=" cs (az_accountName this) ∧
        field_value "AccountKey=" cs (az_accountKey this).
Proof.
  unfold Azure.new_AzureStorageProvider.
  destruct (falsy_str (Config.connectionString _)) eqn:Hcs.
  - (* no connection string: explicit credentials *)
    assert (truthy (of_opt (Config.connectionString (Config.env config)))
            = false) as Ht.
    { unfold falsy_str in Hcs. by apply negb_true_iff in Hcs. }
    rewrite Ht. simpl.
    destruct (falsy_str (Config.accountName _)) eqn:Hn; [done|].
    destruct (falsy_str (Config.accountKey _)) eqn:Hk; [done|]. simpl.
    intros [= <-]. simpl.
    apply falsy_str_false in Hn as (n & -> & Hn).
    apply falsy_str_false in Hk as (k & -> & Hk).
    split; [done|]. split; [done|]. split; [done|].
    intros cs Hc Hne. exfalso. rewrite Hc in Ht. simpl in Ht.
    apply negb_false_iff in Ht. by apply String.eqb_eq in Ht.
  - simpl. apply falsy_str_false in Hcs as (cs & Hc & Hne).
    rewrite Hc. simpl. destruct (String.eqb_spec cs "") as [|_]; [done|].
    simpl.
    unfold Azure.extractAccountName, Azure.extractAccountKey.
    change (tmpl (Some cs)) with cs.
    destruct (Azure.match_field "AccountName=" cs) as [n|] eqn:En; [|done].
    destruct (Azure.match_field "AccountKey=" cs) as [k|] eqn:Ek; [|done].
    destruct (from_connection_string cs); [|done].
    intros [= <-]. simpl.
    apply ConnectionStringFacts.match_field_sound in En, Ek.
    split; [done|].
    split; [apply nonempty_ne, En|]. split; [apply nonempty_ne, Ek|].
    by intros cs' [= <-] _.
Qed.

End Constructors.

End FactoryFacts.

(** X6.  An adapter the factory returns was built from complete
    credentials: it carries the identity it was given and the
    configuration it was built from; an S3 adapter has a non-empty region
    equal to the configured one and non-empty access and secret keys; an
    Azure adapter has a non-empty account name and key which, when the
    configuration has a connection string, are the values of its
    [AccountName] and [AccountKey] fields; and the adapter's kind is the
    lower-cased provider type (['aws'] and ['s3'] both giving the S3
    adapter). *)
Theorem factory_adapters_are_well_formed
    {W : Type} `{AZ : BlobService W}
    (providerType : option string) (config : Config.PlatformConfig)
    (oid : nat) (v : Provider) :
  createProvider providerType config oid = Ok v →
  oid_of v = oid ∧
  match v with
  | S3Adapter _ this =>
      (∃ type, providerType = Some type ∧
               (Str.lower type = "aws" ∨ Str.lower type = "s3")) ∧
      s3_config this = config ∧
      Config.region (Config.env config) = Some (s3_region this) ∧
      s3_region this ≠ "" ∧
      falsy_str (Config.accessKeyId (Config.env config)) = false ∧
      falsy_str (Config.secretAccessKey (Config.env config)) = false
  | AzureAdapter _ this =>
      (∃ type, providerType = Some type ∧ Str.lower type = "azure") ∧
      az_config this = config ∧
      az_accountName this ≠ "" ∧ az_accountKey this ≠ "" ∧
      ∀ cs, Config.connectionString (Config.env config) = Some cs →
            cs ≠ "" →
            Spec2.field_value "AccountName=" cs (az_accountName this) ∧
            Spec2.field_value "AccountKey=" cs (az_accountKey this)
  end.
Proof.
  intros H. split; [by eapply ServiceFacts.createProvider_oid|].
  unfold createProvider in H.
  destruct providerType as [type|]; [|done].
  destruct (String.eqb_spec (Str.lower type) "azure") as [Ha|_].
  - destruct (Azure.new_AzureStorageProvider config) as [this|] eqn:E;
      [|done].
    injection H as <-. split; [by eexists|].
    by apply FactoryFacts.azure_constructor_ok.
  - destruct (String.eqb_spec (Str.lower type) "aws") as [Ha|_];
      [|destruct (String.eqb_spec (Str.lower type) "s3") as [Hs|_]];
      simpl in H; try done;
      (destruct (S3.new_AWSS3StorageProvider config) as [this|] eqn:E;
       [|done]); injection H as <-;
      (split; [eexists; split; [done|]; auto|]);
      by apply FactoryFacts.s3_constructor_ok.
Qed.

Lemma factory_adapters_are_well_formed_witness :
  ∃ this, createProvider (W:=Mem.World) (Some "AZURE")
            {| Config.platformName := "Brokerage"; Config.env := Mem.azure_env |}
            7 = Ok (AzureAdapter 7 this) ∧
          az_accountName this ≠ "" ∧ az_accountKey this ≠ "".
Proof.
  exists Mem.azure_this.
  pose proof (factory_adapters_are_well_formed (W:=Mem.World) (Some "AZURE")
                {| Config.platformName := "Brokerage";
                   Config.env := Mem.azure_env |}
                7 (AzureAdapter 7 Mem.azure_this)) as H.
  destruct H as (_ & _ & _ & Hn & Hk & _); [vm_compute; reflexivity|].
  split; [vm_compute; reflexivity|]. by split.
Defined.

(** X7.  The factory matches the provider type without regard to case
    and rejects every other type by name: two types with the same
    lower-cased form in [{azure, aws, s3}] give the same result, ['aws']
    gives what ['s3'] gives, and a type whose lower-cased form is none of
    the three throws ["Unsupported storage provider: <type>"] whatever the
    configuration. *)
Theorem factory_dispatch_ignores_case
    {W : Type} `{AZ : BlobService W}
    (type type' : string) (config : Config.PlatformConfig) (oid : nat) :
  (Str.lower type = Str.lower type' →
   Str.lower type = "azure" ∨ Str.lower type = "aws" ∨ Str.lower type = "s3" →
   createProvider (Some type) config oid
   = createProvider (Some type') config oid) ∧
  (Str.lower type = "aws" →
   createProvider (Some type) config oid
   = createProvider (Some "s3") config oid) ∧
  (Str.lower type ≠ "azure" → Str.lower type ≠ "aws" →
   Str.lower type ≠ "s3" →
   createProvider (Some type) config oid
   = Throw (new_Error ("Unsupported storage provider: " +:+ type))).
Proof.
  unfold createProvider. split; [|split].
  - intros Heq Hsup. simpl. rewrite <- Heq.
    by destruct Hsup as [Hk|[Hk|Hk]]; rewrite Hk.
  - intros ->. done.
  - intros Ha Hw Hs. simpl.
    destruct (String.eqb_spec (Str.lower type) "azure"); [done|].
    destruct (String.eqb_spec (Str.lower type) "aws"); [done|].
    destruct (String.eqb_spec (Str.lower type) "s3"); done.
Qed.

Lemma factory_dispatch_ignores_case_witness :
  createProvider (W:=Mem.World) (Some "AZURE")
    {| Config.platformName := "Brokerage"; Config.env := Mem.azure_env |} 0
  = createProvider (W:=Mem.World) (Some "azure")
      {| Config.platformName := "Brokerage"; Config.env := Mem.azure_env |} 0 ∧
  createProvider (W:=Mem.World) (Some "gcs")
    {| Config.platformName := "Brokerage"; Config.env := Mem.azure_env |} 0
  = Throw (new_Error "Unsupported storage provider: gcs").
Proof.
  destruct (factory_dispatch_ignores_case (W:=Mem.World) "AZURE" "azure"
              {| Config.platformName := "Brokerage";
                 Config.env := Mem.azure_env |} 0) as (H1 & _ & _).
  destruct (factory_dispatch_ignores_case (W:=Mem.World) "gcs" "gcs"
              {| Config.platformName := "Brokerage";
                 Config.env := Mem.azure_env |} 0) as (_ & _ & H3).
  split; [apply H1; [reflexivity|by left]|].
  apply H3; vm_compute; discriminate.
Defined.

Module ExistenceFacts.
Import Js Str Url Sdk Eff Spec Spec2 Tactics.

Section Checks.
Context `{RT : Runtime} {W : Type} `{S3C : S3Client W} `{AZ : BlobService W}.
Variable s3 : S3Provider.
Variable az : AzureProvider.

Lemma s3_parse_error_not_found url e :
  S3.parseUrl s3 url = Throw e → not_found e = false.
Proof.
  unfold S3.parseUrl, rethrow. intros H.
  repeat case_hyp H; by simplify_eq.
Qed.

Lemma s3_fileExists_throw url (st st1 : St W) e :
  S3.fileExists s3 url st = (Throw e, st1) →
  not_found e = false ∧
  (S3.parseUrl s3 url = Throw e ∨
   ∃ p, S3.parseUrl s3 url = Ok p ∧
        head_object (world st) s3 (S3.bucketName p) (S3.key p) = Throw e).
Proof.
  unfold S3.fileExists. run. intros H.
  destruct (S3.parseUrl s3 url) as [p|e0] eqn:Hp; simpl in H.
  - destruct (head_object _ _ _ _) as [|e1] eqn:Hh; simpl in H; [done|].
    fold (not_found e1) in H.
    destruct (not_found e1) eqn:Hn; simplify_eq. eauto.
  - fold (not_found e0) in H.
    rewrite (s3_parse_error_not_found _ _ Hp) in H. simplify_eq.
    split; [by eapply s3_parse_error_not_found|by left].
Qed.

Lemma s3_fileExists_false url (st st1 : St W) :
  S3.fileExists s3 url st = (Ok false, st1) →
  ∃ p e, S3.parseUrl s3 url = Ok p ∧
         head_object (world st) s3 (S3.bucketName p) (S3.key p) = Throw e ∧
         not_found e = true.
Proof.
  unfold S3.fileExists. run. intros H.
  destruct (S3.parseUrl s3 url) as [p|e0] eqn:Hp; simpl in H.
  - destruct (head_object _ _ _ _) as [|e1] eqn:Hh; simpl in H; [done|].
    fold (not_found e1) in H.
    destruct (not_found e1) eqn:Hn; simplify_eq. eauto.
  - fold (not_found e0) in H.
    rewrite (s3_parse_error_not_found _ _ Hp) in H. simplify_eq.
Qed.

Lemma s3_fileExists_true url (st st1 : St W) :
  S3.fileExists s3 url st = (Ok true, st1) →
  ∃ p, S3.parseUrl s3 url = Ok p ∧
       head_object (world st) s3 (S3.bucketName p) (S3.key p) = Ok tt.
Proof.
  unfold S3.fileExists. run. intros H.
  destruct (S3.parseUrl s3 url) as [p|e0] eqn:Hp; simpl in H.
  - destruct (head_object _ _ _ _) as [[]|e1] eqn:Hh; simpl in H; [eauto|].
    fold (not_found e1) in H. destruct (not_found e1); simplify_eq.
  - fold (not_found e0) in H.
    rewrite (s3_parse_error_not_found _ _ Hp) in H. simplify_eq.
Qed.

End Checks.

End ExistenceFacts.

(** X8.  The two adapters treat a failed existence check differently.
    [fileExists] of the S3 adapter answers [false] only when the HeadObject
    request failed with the name or code ['NotFound'], answers [true] only
    when the request completed, and otherwise throws the very error it
    got (the backend's, or the parse error), which is never a ['NotFound'];
    [fileExists] of the Azure adapter never throws. *)
Theorem fileExists_error_policy
    `{RT : Runtime} {W : Type} `{S3C : S3Client W} `{AZ : BlobService W}
    (s3 : S3Provider) (az : AzureProvider) (fileUrl : string) (st : St W) :
  (∀ e st1,
     S3.fileExists s3 fileUrl st = (Throw e, st1) →
     Spec2.not_found e = false ∧
     (S3.parseUrl s3 fileUrl = Throw e ∨
      ∃ p, S3.parseUrl s3 fileUrl = Ok p ∧
           head_object (world st) s3 (S3.bucketName p) (S3.key p)
           = Throw e)) ∧
  (∀ st1,
     S3.fileExists s3 fileUrl st = (Ok false, st1) →
     ∃ p e, S3.parseUrl s3 fileUrl = Ok p ∧
            head_object (world st) s3 (S3.bucketName p) (S3.key p)
            = Throw e ∧
            Spec2.not_found e = true) ∧
  (∀ st1,
     S3.fileExists s3 fileUrl st = (Ok true, st1) →
     ∃ p, S3.parseUrl s3 fileUrl = Ok p ∧
          head_object (world st) s3 (S3.bucketName p) (S3.key p) = Ok tt) ∧
  (∀ e st1, Azure.fileExists az fileUrl st ≠ (Throw e, st1)).
Proof.
  split; [|split; [|split]].
  - intros e st1. apply ExistenceFacts.s3_fileExists_throw.
  - intros st1. apply ExistenceFacts.s3_fileExists_false.
  - intros st1. apply ExistenceFacts.s3_fileExists_true.
  - intros e st1. apply AdapterFacts.azure_fileExists_no_throw.
Qed.

(** An address that does not parse: the S3 check throws the parse error,
    the Azure check answers [false]. *)
Lemma fileExists_error_policy_witness :
  fst (S3.fileExists Mem.s3_this "not-a-valid-url"
         (Mem.start Mem.private_bucket_world 0))
  = Throw (new_Error "Failed to parse S3 URL: Invalid URL") ∧
  fst (Azure.fileExists Mem.azure_this "not-a-valid-url"
         (Mem.start Mem.private_container_world 0)) = Ok false.
Proof.
  destruct (fileExists_error_policy Mem.s3_this Mem.azure_this
              "not-a-valid-url" (Mem.start Mem.private_bucket_world 0))
    as (Hthrow & _ & _ & _).
  split; [|vm_compute; reflexivity].
  destruct (S3.fileExists _ _ _) as [[b|e] st1] eqn:E.
  - exfalso. revert E. vm_compute. discriminate.
  - destruct (Hthrow e st1 eq_refl) as [_ [Hp|(p & Hp & _)]].
    + revert Hp. vm_compute. by intros [= <-].
    + exfalso. revert Hp. vm_compute. discriminate.
Defined.

Module UploadFacts.
Import Js Str Url Sdk Eff Spec Spec2 Tactics.

Lemma nonempty_app_l a b : nonempty a = true → nonempty (a +:+ b) = true.
Proof. by destruct a. Qed.

Lemma made_two {W} (s s' : St W) c1 c2 :
  calls s' = (calls s ++ [c1]) ++ [c2] → made s s' [c1; c2].
Proof. unfold made. intros ->. by rewrite <- (assoc_L (++)). Qed.

Lemma made_three {W} (s s' : St W) c1 c2 c3 :
  calls s' = ((calls s ++ [c1]) ++ [c2]) ++ [c3] → made s s' [c1; c2; c3].
Proof. unfold made. intros ->. by rewrite <- !(assoc_L (++)). Qed.

Section S3Upload.
Context `{RT : Runtime} {W : Type} `{S3C : S3Client W}.
Variable platforms : gmap string Config.Platform.
Variable this : S3Provider.

Lemma s3_upload_shape bucketName fileData prefix fileName metadata access
    (st st' : St W) url :
  nonempty bucketName = true →
  S3.uploadFile platforms this bucketName fileData prefix fileName metadata
    access st = (Ok url, st') →
  ∃ cfg input,
    Config.getPlatformConfig platforms
      (ToString (S3.prop metadata "platformId"))
      (ToString (S3.prop metadata "environment")) = Ok cfg ∧
    put_Bucket input = Config.bucketName (Config.env cfg) ∧
    put_Key input
    = (if truthy (of_opt prefix)
       then bucketName +:+ "/" +:+ tmpl prefix else bucketName)
      +:+ "/" +:+ fileName ∧
    put_Body input = fileData ∧
    (put_ACL input = Some "public-read" ↔ access = "public") ∧
    (put_ACL input = None ↔ access ≠ "public") ∧
    made st st' [HeadBucket (put_Bucket input); PutObject input] ∧
    put_object (world st) this input = Ok (world st') ∧
    url = S3.objectUrl (put_Bucket input) (s3_region this) (put_Key input).
Proof.
  intros Hb. unfold S3.uploadFile, S3.ensureBucketExists.
  unfold bind, catch, lift, query, update, request, ret, throw, Date_now, log.
  simpl. intros H.
  assert (Hn : nonempty (if truthy (of_opt prefix)
                         then bucketName +:+ "/" +:+ tmpl prefix
                         else bucketName) = true).
  { destruct (truthy (of_opt prefix)); [|done].
    by apply nonempty_app_l. }
  rewrite Hn in H.
  destruct (Config.getPlatformConfig _ _ _) as [cfg|e0]; simpl in H; [|done].
  destruct (head_bucket _ _ _) as [u|e1]; simpl in H; [|done].
  destruct (toISOString _) as [stamp|e2]; simpl in H; [|done].
  destruct (put_object _ _ _) as [w'|e3] eqn:Hput; simpl in H; [|done].
  injection H as <- <-.
  match type of Hput with put_object _ _ ?i = _ => exists cfg, i end.
  split; [done|]. simpl.
  split; [done|]. split; [done|]. split; [done|].
  split; [|split; [|split; [|split]]].
  - destruct (String.eqb_spec access "public") as [->|Hne]; split; done.
  - destruct (String.eqb_spec access "public") as [->|Hne]; split; done.
  - by apply made_two.
  - exact Hput.
  - done.
Qed.

(** The PutObject request of a successful upload, in full. *)
Lemma s3_upload_input bucketName fileData prefix fileName metadata access
    (st st' : St W) url :
  nonempty bucketName = true →
  S3.uploadFile platforms this bucketName fileData prefix fileName metadata
    access st = (Ok url, st') →
  ∃ cfg stamp,
    Config.getPlatformConfig platforms
      (ToString (S3.prop metadata "platformId"))
      (ToString (S3.prop metadata "environment")) = Ok cfg ∧
    let input :=
      {| put_Bucket := Config.bucketName (Config.env cfg);
         put_Key := (if truthy (of_opt prefix)
                     then bucketName +:+ "/" +:+ tmpl prefix else bucketName)
                    +:+ "/" +:+ fileName;
         put_Body := fileData;
         put_Metadata :=
           <["access" := access]>
             (<["provider" := "s3"]>
                (<["uploadedAt" := stamp]>
                   (delete "__proto__" (ToString <$> metadata))));
         put_ACL := if String.eqb access "public"
                    then Some "public-read" else None |} in
    made st st' [HeadBucket (put_Bucket input); PutObject input] ∧
    url = S3.objectUrl (put_Bucket input) (s3_region this) (put_Key input).
Proof.
  intros Hb. unfold S3.uploadFile, S3.ensureBucketExists.
  unfold bind, catch, lift, query, update, request, ret, throw, Date_now, log.
  simpl. intros H.
  assert (Hn : nonempty (if truthy (of_opt prefix)
                         then bucketName +:+ "/" +:+ tmpl prefix
                         else bucketName) = true).
  { destruct (truthy (of_opt prefix)); [|done].
    by apply nonempty_app_l. }
  rewrite Hn in H.
  destruct (Config.getPlatformConfig _ _ _) as [cfg|e0]; simpl in H; [|done].
  destruct (head_bucket _ _ _) as [u|e1]; simpl in H; [|done].
  destruct (toISOString _) as [stamp|e2]; simpl in H; [|done].
  destruct (put_object _ _ _) as [w'|e3] eqn:Hput; simpl in H; [|done].
  injection H as <- <-.
  exists cfg, stamp. split; [done|]. simpl. split; [|done].
  by apply made_two.
Qed.

Lemma s3_address_requests bucket key (st : St W) :
  has_char "."%char bucket = false →
  new_URL (S3.objectUrl (Some bucket) (s3_region this) key)
  = Ok {| hostname := bucket +:+ ".s3." +:+ s3_region this +:+
                      ".amazonaws.com";
          pathname := "/" +:+ key |} →
  made st (snd (S3.deleteFile this
                  (S3.objectUrl (Some bucket) (s3_region this) key) st))
    [DeleteObject (Some bucket) key] ∧
  made st (snd (S3.fileExists this
                  (S3.objectUrl (Some bucket) (s3_region this) key) st))
    [HeadObject (Some bucket) key].
Proof.
  intros Hb Hu.
  destruct (UrlFacts.s3_parse_built this bucket key Hb Hu)
    as (p & Hp & HB & HK).
  unfold S3.deleteFile, S3.fileExists, made. run. rewrite Hp. simpl.
  rewrite HB, HK. split.
  - by destruct (delete_object _ _ _ _).
  - destruct (head_object _ _ _ _) as [|e]; simpl; [done|].
    by destruct (_ || _)%bool.
Qed.

End S3Upload.

End UploadFacts.

(** X9.  The S3 adapter never creates a bucket.  When the tenant's configured
    bucket does not answer the HeadBucket request, [uploadFile] throws
    ["S3 upload failed: Bucket <name> does not exist.Please Create the
    bucket first."], whatever the backend's error was, having made that one
    request and stored nothing; the clock is not read. *)
Theorem s3_upload_requires_existing_bucket
    `{RT : Runtime} {W : Type} `{S3C : S3Client W}
    (platforms : gmap string Config.Platform) (this : S3Provider)
    (bucketName : string) (fileData : Body) (prefix : option string)
    (fileName : string) (metadata : gmap string JsVal) (access : string)
    (st : St W) (cfg : Config.PlatformConfig) (e : JsError) :
  Config.getPlatformConfig platforms
    (ToString (S3.prop metadata "platformId"))
    (ToString (S3.prop metadata "environment")) = Ok cfg →
  head_bucket (world st) this (Config.bucketName (Config.env cfg)) = Throw e →
  S3.uploadFile platforms this bucketName fileData prefix fileName metadata
    access st
  = (Throw (new_Error
              ("S3 upload failed: Bucket " +:+
               tmpl (Config.bucketName (Config.env cfg)) +:+
               " does not exist.Please Create the bucket first.")),
     MkSt (world st)
          (calls st ++ [HeadBucket (Config.bucketName (Config.env cfg))])
          (clock st) (reads st)).
Proof.
  intros Hc Hh. unfold S3.uploadFile, S3.ensureBucketExists.
  unfold bind, catch, lift, query, update, request, ret, throw, Date_now, log.
  simpl. rewrite Hc. simpl. rewrite Hh. reflexivity.
Qed.

(** The tenant's bucket is absent from the store. *)
Lemma s3_upload_requires_existing_bucket_witness :
  S3.uploadFile Mem.registry Mem.s3_this "docs" "body" None "a.txt"
    Mem.tenant_metadata "private" (Mem.start Mem.public_container_world 0)
  = (Throw (new_Error
              ("S3 upload failed: Bucket tenant-bucket" +:+
               " does not exist.Please Create the bucket first.")),
     MkSt Mem.public_container_world [HeadBucket (Some "tenant-bucket")]
          (λ _, 0%Z) 0%nat).
Proof.
  destruct (Config.getPlatformConfig Mem.registry
              (ToString (S3.prop Mem.tenant_metadata "platformId"))
              (ToString (S3.prop Mem.tenant_metadata "environment")))
    as [cfg|e0] eqn:Hc; [|exfalso; revert Hc; vm_compute; discriminate].
  destruct (head_bucket (world (Mem.start Mem.public_container_world 0))
              Mem.s3_this (Config.bucketName (Config.env cfg)))
    as [u|e] eqn:Hh.
  { exfalso. revert Hh. revert Hc. vm_compute. intros [= <-]. discriminate. }
  rewrite (s3_upload_requires_existing_bucket Mem.registry Mem.s3_this
             "docs" "body" None "a.txt" Mem.tenant_metadata "private"
             (Mem.start Mem.public_container_world 0) cfg e Hc Hh).
  revert Hc. vm_compute. by intros [= <-].
Defined.

(** X10.  What a successful S3 upload did.  The object went to the bucket of
    the tenant's configuration, not to the [bucketName] argument, which is
    the first segment of the key instead: the key is
    [bucketName/prefix/fileName], or [bucketName/fileName] for a falsy
    prefix.  The requests were HeadBucket then PutObject, the ACL
    ['public-read'] was sent exactly for access ['public'], the store is
    the one PutObject returned, and the address returned names the
    configured bucket, the adapter's region and that key. *)
Theorem s3_upload_success_shape
    `{RT : Runtime} {W : Type} `{S3C : S3Client W}
    (platforms : gmap string Config.Platform) (this : S3Provider)
    (bucketName : string) (fileData : Body) (prefix : option string)
    (fileName : string) (metadata : gmap string JsVal) (access : string)
    (st st' : St W) (url : string) :
  nonempty bucketName = true →
  S3.uploadFile platforms this bucketName fileData prefix fileName metadata
    access st = (Ok url, st') →
  ∃ cfg input,
    Config.getPlatformConfig platforms
      (ToString (S3.prop metadata "platformId"))
      (ToString (S3.prop metadata "environment")) = Ok cfg ∧
    put_Bucket input = Config.bucketName (Config.env cfg) ∧
    put_Key input
    = (if truthy (of_opt prefix)
       then bucketName +:+ "/" +:+ tmpl prefix else bucketName)
      +:+ "/" +:+ fileName ∧
    put_Body input = fileData ∧
    (put_ACL input = Some "public-read" ↔ access = "public") ∧
    (put_ACL input = None ↔ access ≠ "public") ∧
    made st st' [HeadBucket (put_Bucket input); PutObject input] ∧
    put_object (world st) this input = Ok (world st') ∧
    url = S3.objectUrl (put_Bucket input) (s3_region this) (put_Key input).
Proof. apply UploadFacts.s3_upload_shape. Qed.

(** A private upload under a prefix. *)
Lemma s3_upload_success_shape_witness :
  ∃ input,
    put_Bucket input = Some "tenant-bucket" ∧
    put_Key input = "docs/2024/a.txt" ∧
    put_ACL input = None ∧
    fst (S3.uploadFile Mem.registry Mem.s3_this "docs" "body" (Some "2024")
           "a.txt" Mem.tenant_metadata "private"
           (Mem.start Mem.private_bucket_world 0))
    = Ok (S3.objectUrl (put_Bucket input) "ap-south-1" (put_Key input)).
Proof.
  destruct (S3.uploadFile Mem.registry Mem.s3_this "docs" "body" (Some "2024")
              "a.txt" Mem.tenant_metadata "private"
              (Mem.start Mem.private_bucket_world 0))
    as [[url|e] st'] eqn:E;
    [|exfalso; revert E; vm_compute; discriminate].
  destruct (s3_upload_success_shape Mem.registry Mem.s3_this "docs" "body"
              (Some "2024") "a.txt" Mem.tenant_metadata "private"
              (Mem.start Mem.private_bucket_world 0) st' url eq_refl E)
    as (cfg & input & Hc & HB & HK & _ & _ & HA & _ & _ & ->).
  exists input. split.
  { rewrite HB. revert Hc. vm_compute. by intros [= <-]. }
  split; [exact HK|]. split; [by apply HA|]. reflexivity.
Defined.

(** X11.  The address a successful S3 upload returns leads back to the
    object it stored: when the configured bucket name has no dot and the
    runtime reads the address verbatim, [deleteFile] and [fileExists] on
    the returned address send their request for the Bucket and the Key of
    the PutObject request the upload made. *)
Theorem s3_uploaded_address_targets_stored_object
    `{RT : Runtime} {W : Type} `{S3C : S3Client W}
    (platforms : gmap string Config.Platform) (this : S3Provider)
    (bucketName : string) (fileData : Body) (prefix : option string)
    (fileName : string) (metadata : gmap string JsVal) (access : string)
    (st st' : St W) (url bucket : string) :
  nonempty bucketName = true →
  S3.uploadFile platforms this bucketName fileData prefix fileName metadata
    access st = (Ok url, st') →
  (∀ cfg, Config.getPlatformConfig platforms
            (ToString (S3.prop metadata "platformId"))
            (ToString (S3.prop metadata "environment")) = Ok cfg →
          Config.bucketName (Config.env cfg) = Some bucket) →
  has_char "."%char bucket = false →
  (let key := (if truthy (of_opt prefix)
               then bucketName +:+ "/" +:+ tmpl prefix else bucketName)
              +:+ "/" +:+ fileName in
   new_URL (S3.objectUrl (Some bucket) (s3_region this) key)
   = Ok {| hostname := bucket +:+ ".s3." +:+ s3_region this +:+
                       ".amazonaws.com";
           pathname := "/" +:+ key |}) →
  ∃ input,
    PutObject input ∈ calls st' ∧
    put_Bucket input = Some bucket ∧
    ∀ st2 : St W,
      made st2 (snd (S3.deleteFile this url st2))
        [DeleteObject (put_Bucket input) (put_Key input)] ∧
      made st2 (snd (S3.fileExists this url st2))
        [HeadObject (put_Bucket input) (put_Key input)].
Proof.
  intros Hn Hup Hcfg Hdot Hurl.
  destruct (UploadFacts.s3_upload_shape platforms this _ _ _ _ _ _ _ _ _
              Hn Hup)
    as (cfg & input & Hc & HB & HK & _ & _ & _ & Hm & _ & ->).
  exists input. rewrite HB, (Hcfg cfg Hc) in *. split; [|split; [done|]].
  - rewrite Hm. apply elem_of_app. right. set_solver.
  - intros st2. rewrite HK.
    apply UploadFacts.s3_address_requests; [done|apply Hurl].
Qed.

(** An upload followed by the two operations on the returned address. *)
Lemma s3_uploaded_address_targets_stored_object_witness :
  ∃ url st',
    S3.uploadFile Mem.registry Mem.s3_this "docs" "body" (Some "2024")
      "a.txt" Mem.tenant_metadata "private"
      (Mem.start Mem.private_bucket_world 0) = (Ok url, st') ∧
    made st' (snd (S3.deleteFile Mem.s3_this url st'))
      [DeleteObject (Some "tenant-bucket") "docs/2024/a.txt"] ∧
    made st' (snd (S3.fileExists Mem.s3_this url st'))
      [HeadObject (Some "tenant-bucket") "docs/2024/a.txt"].
Proof.
  destruct (S3.uploadFile Mem.registry Mem.s3_this "docs" "body" (Some "2024")
              "a.txt" Mem.tenant_metadata "private"
              (Mem.start Mem.private_bucket_world 0))
    as [[url|e] st'] eqn:E;
    [|exfalso; revert E; vm_compute; discriminate].
  exists url, st'. split; [done|].
  assert (Hcfg : ∀ cfg,
            Config.getPlatformConfig Mem.registry
              (ToString (S3.prop Mem.tenant_metadata "platformId"))
              (ToString (S3.prop Mem.tenant_metadata "environment")) = Ok cfg →
            Config.bucketName (Config.env cfg) = Some "tenant-bucket").
  { intros cfg. vm_compute. by intros [= <-]. }
  destruct (s3_uploaded_address_targets_stored_object Mem.registry
              Mem.s3_this "docs" "body" (Some "2024") "a.txt"
              Mem.tenant_metadata "private"
              (Mem.start Mem.private_bucket_world 0) st' url "tenant-bucket"
              eq_refl E Hcfg eq_refl eq_refl)
    as (input & Hin & HB & Hreq).
  assert (HK : put_Key input = "docs/2024/a.txt").
  { revert E Hin. vm_compute. intros [= <- <-] Hin.
    apply elem_of_cons in Hin as [Hin|Hin]; [done|].
    apply elem_of_cons in Hin as [Hin|Hin]; [by injection Hin as ->|].
    by apply elem_of_nil in Hin. }
  destruct (Hreq st') as [Hd Hh]. rewrite HB, HK in Hd, Hh. done.
Defined.

Module ProvisionFacts.
Import Js Str Url Sdk Eff Spec Spec2 Tactics.

Section AzureUpload.
Context `{RT : Runtime} {W : Type} `{AZ : BlobService W}.
Variable this : AzureProvider.

Local Arguments String.eqb : simpl never.

Lemma azure_upload_existing bucketName fileData prefix fileName metadata
    access (st st' : St W) r :
  container_exists (world st) this (Some bucketName) ≠ Ok false →
  Azure.uploadFile this bucketName fileData prefix fileName metadata access st
  = (r, st') →
  ∃ cs, made st st' cs ∧ existsb provisioning cs = false.
Proof.
  intros Hne. unfold Azure.uploadFile, Azure.isContainerPublic. run.
  intros H.
  destruct (container_exists _ _ _) as [[|]|e]; simpl in H; [|done|].
  - repeat case_hyp H; simplify_eq; made_by_log.
  - simplify_eq. made_by_log.
Qed.

Lemma azure_upload_missing bucketName fileData prefix fileName metadata
    access (st : St W) w1 :
  container_exists (world st) this (Some bucketName) = Ok false →
  container_create (world st) this (Some bucketName) = Ok w1 →
  ∃ rest,
    made st
      (snd (Azure.uploadFile this bucketName fileData prefix fileName
              metadata access st))
      ([ContainerExists (Some bucketName); ContainerCreate (Some bucketName)]
       ++ (if String.eqb access "public"
           then [SetAccessPolicy (Some bucketName) "blob"] else [])
       ++ rest) ∧
    existsb provisioning rest = false ∧
    GetProperties (Some bucketName) ∉ rest.
Proof.
  intros He Hc. unfold Azure.uploadFile. run. rewrite He. simpl.
  rewrite Hc. simpl.
  destruct (String.eqb access "public"); simpl.
  - destruct (set_access_policy _ _ _ _) as [w2|e2]; simpl.
    + destruct (toISOString _) as [stamp|e3]; simpl.
      * destruct (blob_upload _ _ _ _ _ _) as [w3|e4]; simpl;
          (eexists [_]; unfold made; simpl; rewrite <- ?(assoc_L (++)); simpl;
           split; [reflexivity|split; [done|no_props]]).
      * exists []. unfold made; simpl. rewrite <- ?(assoc_L (++)). simpl.
        split; [reflexivity|split; [done|no_props]].
    + exists []. unfold made; simpl. rewrite <- ?(assoc_L (++)). simpl.
      split; [reflexivity|split; [done|no_props]].
  - destruct (toISOString _) as [stamp|e3]; simpl.
    + destruct (blob_upload _ _ _ _ _ _) as [w3|e4]; simpl;
        (eexists [_]; unfold made; simpl; rewrite <- ?(assoc_L (++)); simpl;
         split; [reflexivity|split; [done|no_props]]).
    + exists []. unfold made; simpl. rewrite <- ?(assoc_L (++)). simpl.
      split; [reflexivity|split; [done|no_props]].
Qed.

End AzureUpload.

End ProvisionFacts.

(** X12.  The Azure adapter never reconfigures a container that is already
    there: unless the existence request answered [false], an upload makes
    no ContainerCreate and no SetAccessPolicy request, whatever access was
    asked for and however the upload ends. *)
Theorem azure_upload_leaves_existing_container_alone
    `{RT : Runtime} {W : Type} `{AZ : BlobService W}
    (this : AzureProvider) (bucketName : string) (fileData : Body)
    (prefix : option string) (fileName : string)
    (metadata : gmap string JsVal) (access : string) (st st' : St W)
    (r : result string) :
  container_exists (world st) this (Some bucketName) ≠ Ok false →
  Azure.uploadFile this bucketName fileData prefix fileName metadata access st
  = (r, st') →
  ∃ cs, made st st' cs ∧ existsb Spec2.provisioning cs = false.
Proof. apply ProvisionFacts.azure_upload_existing. Qed.

(** A public upload to a private container that exists. *)
Lemma azure_upload_leaves_existing_container_alone_witness :
  ∃ cs,
    made (Mem.start Mem.private_container_world 0)
      (snd (Azure.uploadFile Mem.azure_this "documents" "body" None "a.txt"
              ∅ "public" (Mem.start Mem.private_container_world 0))) cs ∧
    existsb Spec2.provisioning cs = false.
Proof.
  apply (azure_upload_leaves_existing_container_alone Mem.azure_this
           "documents" "body" None "a.txt" ∅ "public"
           (Mem.start Mem.private_container_world 0) _
           (fst (Azure.uploadFile Mem.azure_this "documents" "body" None
                   "a.txt" ∅ "public"
                   (Mem.start Mem.private_container_world 0)))).
  - vm_compute. discriminate.
  - by destruct (Azure.uploadFile _ _ _ _ _ _ _ _).
Defined.

(** X13.  A container that is missing is created by the upload, with the
    access asked for: after ContainerExists answered [false] and
    ContainerCreate succeeded, the next request is SetAccessPolicy with
    level ['blob'] exactly when access is ['public'], no later request
    creates a container or sets a policy, and the container's properties
    are never read (there is no access comparison for a new container). *)
Theorem azure_upload_provisions_missing_container
    `{RT : Runtime} {W : Type} `{AZ : BlobService W}
    (this : AzureProvider) (bucketName : string) (fileData : Body)
    (prefix : option string) (fileName : string)
    (metadata : gmap string JsVal) (access : string) (st : St W) (w1 : W) :
  container_exists (world st) this (Some bucketName) = Ok false →
  container_create (world st) this (Some bucketName) = Ok w1 →
  ∃ rest,
    made st
      (snd (Azure.uploadFile this bucketName fileData prefix fileName
              metadata access st))
      ([ContainerExists (Some bucketName); ContainerCreate (Some bucketName)]
       ++ (if String.eqb access "public"
           then [SetAccessPolicy (Some bucketName) "blob"] else [])
       ++ rest) ∧
    existsb Spec2.provisioning rest = false ∧
    GetProperties (Some bucketName) ∉ rest.
Proof. apply ProvisionFacts.azure_upload_missing. Qed.

(** A public upload to a container that is not there. *)
Lemma azure_upload_provisions_missing_container_witness :
  ∃ rest,
    made (Mem.start Mem.private_bucket_world 0)
      (snd (Azure.uploadFile Mem.azure_this "fresh" "body" None "a.txt"
              ∅ "public" (Mem.start Mem.private_bucket_world 0)))
      ([ContainerExists (Some "fresh"); ContainerCreate (Some "fresh");
        SetAccessPolicy (Some "fresh") "blob"] ++ rest) ∧
    existsb Spec2.provisioning rest = false.
Proof.
  assert (He : container_exists (world (Mem.start Mem.private_bucket_world 0))
                 Mem.azure_this (Some "fresh") = Ok false)
    by (vm_compute; reflexivity).
  assert (Hc : container_create (world (Mem.start Mem.private_bucket_world 0))
                 Mem.azure_this (Some "fresh")
               = Ok (Mem.with_container Mem.private_bucket_world "fresh"
                       {| Mem.cont_access := None; Mem.cont_blobs := ∅ |}))
    by reflexivity.
  destruct (azure_upload_provisions_missing_container Mem.azure_this
              "fresh" "body" None "a.txt" ∅ "public"
              (Mem.start Mem.private_bucket_world 0) _ He Hc)
    as (rest & Hm & Hp & _).
  exists rest. split; [exact Hm|exact Hp].
Defined.

Module DownloadFacts.
Import Js Str Url Sdk Eff Spec Spec2 Tactics.

Lemma some_public grants :
  (0 <? length (List.filter S3.public_grant grants))%nat
  = existsb S3.public_grant grants.
Proof.
  induction grants as [|g r IH]; simpl; [done|].
  by destruct (S3.public_grant g).
Qed.

Section Shapes.
Context `{RT : Runtime} {W : Type} `{S3C : S3Client W} `{AZ : BlobService W}.
Variable s3 : S3Provider.
Variable az : AzureProvider.

Lemma s3_download_shape url opts (st st' : St W) d :
  S3.generateDownloadUrl s3 url opts st = (Ok d, st') →
  ∃ p, S3.parseUrl s3 url = Ok p ∧
       world st' = world st ∧
       isPublic d = object_public (world st) s3 (S3.bucketName p) (S3.key p) ∧
       requiresSAS d = negb (isPublic d) ∧
       fileName d = pop (split_on "/"%char (S3.key p)) ∧
       (isPublic d = true →
        downloadUrl d = url ∧ expiresIn d = JNull ∧ expiresAt d = None ∧
        reads st' = reads st ∧
        made st st' [HeadObject (S3.bucketName p) (S3.key p);
                     GetObjectAcl (S3.bucketName p) (S3.key p);
                     GetBucketAcl (S3.bucketName p)]) ∧
       (isPublic d = false →
        is_Some (expiresAt d) ∧ reads st' = S (reads st) ∧
        ∃ n, made st st' [HeadObject (S3.bucketName p) (S3.key p);
                          GetObjectAcl (S3.bucketName p) (S3.key p);
                          GetBucketAcl (S3.bucketName p);
                          GetSignedUrl (S3.bucketName p) (S3.key p) n] ∧
             expiresIn d = n).
Proof.
  unfold S3.generateDownloadUrl, S3.fileExists, S3.isObjectPublic,
    S3.isBucketPublic, object_public. run. intros H.
  destruct (S3.parseUrl s3 url) as [p|e0]; simpl in H; [|done].
  exists p. split; [done|].
  destruct (head_object _ _ _ _) as [[]|e1]; simpl in H;
    [|by destruct (_ || _)%bool].
  destruct (get_object_acl _ _ _ _) as [[grants|]|e2]; simpl in H.
  - rewrite some_public in H.
    destruct (existsb S3.public_grant grants); simpl in H.
    + destruct (get_bucket_acl _ _ _) as [bg|e3]; simpl in H;
        simplify_eq; simpl;
        (repeat split; try done; unfold made; simpl;
         by rewrite <- ?(assoc_L (++))).
    + destruct (get_bucket_acl _ _ _) as [bg|e3]; simpl in H;
        (destruct (get_signed_url _ _ _ _ _) as [signed|e4]; simpl in H;
           [|done];
         destruct (toISOString _) as [iso|e5]; simpl in H; [|done];
         simplify_eq; simpl;
         repeat split; try done;
         eexists; split; [|reflexivity];
         unfold made; simpl; by rewrite <- ?(assoc_L (++))).
  - destruct (get_bucket_acl _ _ _) as [bg|e3]; simpl in H;
      (destruct (get_signed_url _ _ _ _ _) as [signed|e4]; simpl in H;
         [|done];
       destruct (toISOString _) as [iso|e5]; simpl in H; [|done];
       simplify_eq; simpl;
       repeat split; try done;
       eexists; split; [|reflexivity];
       unfold made; simpl; by rewrite <- ?(assoc_L (++))).
  - destruct (get_bucket_acl _ _ _) as [bg|e3]; simpl in H;
      (destruct (get_signed_url _ _ _ _ _) as [signed|e4]; simpl in H;
         [|done];
       destruct (toISOString _) as [iso|e5]; simpl in H; [|done];
       simplify_eq; simpl;
       repeat split; try done;
       eexists; split; [|reflexivity];
       unfold made; simpl; by rewrite <- ?(assoc_L (++))).
Qed.

Lemma azure_download_shape url opts (st st' : St W) d :
  Azure.generateDownloadUrl az url opts st = (Ok d, st') →
  ∃ p, Azure.parseUrl url = Ok p ∧
       world st' = world st ∧
       isPublic d = container_public (world st) az (Azure.containerName p) ∧
       requiresSAS d = negb (isPublic d) ∧
       fileName d = pop (split_on "/"%char (Azure.blobName p)) ∧
       (isPublic d = true →
        downloadUrl d = url ∧ expiresIn d = JNull ∧ expiresAt d = None ∧
        reads st' = reads st ∧
        made st st' [BlobExists (Azure.containerName p)
                       (Some (Azure.blobName p));
                     GetProperties (Azure.containerName p)]) ∧
       (isPublic d = false →
        is_Some (expiresAt d) ∧ reads st' = S (S (reads st)) ∧
        ∃ startsOn expiresOn token,
          made st st' [BlobExists (Azure.containerName p)
                         (Some (Azure.blobName p));
                       GetProperties (Azure.containerName p);
                       GenerateSAS (Azure.containerName p) (Azure.blobName p)
                         startsOn expiresOn] ∧
          generate_sas az (Azure.containerName p) (Azure.blobName p)
            startsOn expiresOn = Ok token ∧
          downloadUrl d = url +:+ "?" +:+ token).
Proof.
  unfold Azure.generateDownloadUrl, Azure.fileExists,
    Azure.isContainerPublic, container_public. run. intros H.
  destruct (Azure.parseUrl url) as [p|e0]; simpl in H; [|done].
  exists p. split; [done|].
  destruct (blob_exists _ _ _ _) as [[|]|e1]; simpl in H; [|done|done].
  destruct (get_properties _ _ _) as [[level|]|e2]; simpl in H.
  - destruct (String.eqb level "blob" || String.eqb level "container")%bool;
      simpl in H.
    + simplify_eq; simpl.
      repeat split; try done; unfold made; simpl;
        by rewrite <- ?(assoc_L (++)).
    + destruct (generate_sas _ _ _ _ _) as [token|e3] eqn:Hg; simpl in H;
        [|done].
      destruct (toISOString _) as [iso|e4]; simpl in H; [|done].
      simplify_eq; simpl. repeat split; try done.
      do 3 eexists. split; [|split; [exact Hg|reflexivity]].
      unfold made; simpl; by rewrite <- ?(assoc_L (++)).
  - destruct (generate_sas _ _ _ _ _) as [token|e3] eqn:Hg; simpl in H;
      [|done].
    destruct (toISOString _) as [iso|e4]; simpl in H; [|done].
    simplify_eq; simpl. repeat split; try done.
    do 3 eexists. split; [|split; [exact Hg|reflexivity]].
    unfold made; simpl; by rewrite <- ?(assoc_L (++)).
  - destruct (generate_sas _ _ _ _ _) as [token|e3] eqn:Hg; simpl in H;
      [|done].
    destruct (toISOString _) as [iso|e4]; simpl in H; [|done].
    simplify_eq; simpl. repeat split; try done.
    do 3 eexists. split; [|split; [exact Hg|reflexivity]].
    unfold made; simpl; by rewrite <- ?(assoc_L (++)).
Qed.

End Shapes.

End DownloadFacts.

(** X14.  What the S3 adapter returns for a download.  Whether the file is
    public is read from the object's ACL alone: the bucket's ACL is
    requested too, but its answer is not used.  [requiresSAS] is the
    negation of [isPublic], and [fileName] is the last segment of the key.
    For a public object the address is handed back as it came, with no
    expiry, after the three read requests and without reading the clock;
    for a private one a fourth request signs the address, [expiresIn] is
    the lifetime given to that request, and the clock is read once. *)
Theorem s3_download_visibility_is_the_object_acl
    `{RT : Runtime} {W : Type} `{S3C : S3Client W}
    (this : S3Provider) (permanentUrl : string) (options : Options)
    (st st' : St W) (d : DownloadInfo) :
  S3.generateDownloadUrl this permanentUrl options st = (Ok d, st') →
  ∃ p, S3.parseUrl this permanentUrl = Ok p ∧
       world st' = world st ∧
       isPublic d
       = Spec2.object_public (world st) this (S3.bucketName p) (S3.key p) ∧
       requiresSAS d = negb (isPublic d) ∧
       fileName d = pop (split_on "/"%char (S3.key p)) ∧
       (isPublic d = true →
        downloadUrl d = permanentUrl ∧ expiresIn d = JNull ∧
        expiresAt d = None ∧ reads st' = reads st ∧
        made st st' [HeadObject (S3.bucketName p) (S3.key p);
                     GetObjectAcl (S3.bucketName p) (S3.key p);
                     GetBucketAcl (S3.bucketName p)]) ∧
       (isPublic d = false →
        is_Some (expiresAt d) ∧ reads st' = S (reads st) ∧
        ∃ n, made st st' [HeadObject (S3.bucketName p) (S3.key p);
                          GetObjectAcl (S3.bucketName p) (S3.key p);
                          GetBucketAcl (S3.bucketName p);
                          GetSignedUrl (S3.bucketName p) (S3.key p) n] ∧
             expiresIn d = n).
Proof. apply DownloadFacts.s3_download_shape. Qed.

(** A private object in a private bucket. *)
Lemma s3_download_visibility_is_the_object_acl_witness :
  ∃ d st',
    S3.generateDownloadUrl Mem.s3_this
      "https://tenant-bucket.s3.ap-south-1.amazonaws.com/documents/report.pdf"
      {| expiryMinutes := JUndefined |}
      (Mem.start Mem.private_bucket_world 0) = (Ok d, st') ∧
    isPublic d = false ∧ requiresSAS d = true ∧ fileName d = "report.pdf".
Proof.
  destruct (S3.generateDownloadUrl Mem.s3_this
      "https://tenant-bucket.s3.ap-south-1.amazonaws.com/documents/report.pdf"
      {| expiryMinutes := JUndefined |}
      (Mem.start Mem.private_bucket_world 0)) as [[d|e] st'] eqn:E;
    [|exfalso; revert E; vm_compute; discriminate].
  destruct (s3_download_visibility_is_the_object_acl Mem.s3_this _ _ _ _ _ E)
    as (p & Hp & _ & Hpub & Hsas & Hname & _).
  exists d, st'. split; [done|].
  assert (Hp' : p = {| S3.bucketName := Some "tenant-bucket";
                       S3.key := "documents/report.pdf";
                       S3.region := "ap-south-1";
                       S3.baseUrl :=
                         "https://tenant-bucket.s3.ap-south-1.amazonaws.com";
                       S3.fullPath := "/documents/report.pdf" |}).
  { revert Hp. vm_compute. by intros [= <-]. }
  subst p. rewrite Hsas, Hpub, Hname. vm_compute. done.
Defined.

(** X15.  What the Azure adapter returns for a download.  Whether the file
    is public is read from the container's access level (['blob'] or
    ['container']); a failed properties request counts as private.  For a
    public container the address is handed back as it came, with no expiry
    and without reading the clock; for a private one the clock is read
    twice, one SAS is generated, and the address returned is the permanent
    one followed by ['?'] and that token. *)
Theorem azure_download_visibility_is_the_container_level
    `{RT : Runtime} {W : Type} `{AZ : BlobService W}
    (this : AzureProvider) (permanentUrl : string) (options : Options)
    (st st' : St W) (d : DownloadInfo) :
  Azure.generateDownloadUrl this permanentUrl options st = (Ok d, st') →
  ∃ p, Azure.parseUrl permanentUrl = Ok p ∧
       world st' = world st ∧
       isPublic d
       = Spec2.container_public (world st) this (Azure.containerName p) ∧
       requiresSAS d = negb (isPublic d) ∧
       fileName d = pop (split_on "/"%char (Azure.blobName p)) ∧
       (isPublic d = true →
        downloadUrl d = permanentUrl ∧ expiresIn d = JNull ∧
        expiresAt d = None ∧ reads st' = reads st ∧
        made st st' [BlobExists (Azure.containerName p)
                       (Some (Azure.blobName p));
                     GetProperties (Azure.containerName p)]) ∧
       (isPublic d = false →
        is_Some (expiresAt d) ∧ reads st' = S (S (reads st)) ∧
        ∃ startsOn expiresOn token,
          made st st' [BlobExists (Azure.containerName p)
                         (Some (Azure.blobName p));
                       GetProperties (Azure.containerName p);
                       GenerateSAS (Azure.containerName p) (Azure.blobName p)
                         startsOn expiresOn] ∧
          generate_sas this (Azure.containerName p) (Azure.blobName p)
            startsOn expiresOn = Ok token ∧
          downloadUrl d = permanentUrl +:+ "?" +:+ token).
Proof. apply DownloadFacts.azure_download_shape. Qed.

(** A blob in a private container. *)
Lemma azure_download_visibility_is_the_container_level_witness :
  ∃ d st',
    Azure.generateDownloadUrl Mem.azure_this
      "https://acct.blob.core.windows.net/documents/report.pdf"
      {| expiryMinutes := JUndefined |}
      (Mem.start Mem.private_container_world 0) = (Ok d, st') ∧
    isPublic d = false ∧ requiresSAS d = true ∧ fileName d = "report.pdf".
Proof.
  destruct (Azure.generateDownloadUrl Mem.azure_this
      "https://acct.blob.core.windows.net/documents/report.pdf"
      {| expiryMinutes := JUndefined |}
      (Mem.start Mem.private_container_world 0)) as [[d|e] st'] eqn:E;
    [|exfalso; revert E; vm_compute; discriminate].
  destruct (azure_download_visibility_is_the_container_level Mem.azure_this
              _ _ _ _ _ E)
    as (p & Hp & _ & Hpub & Hsas & Hname & _).
  exists d, st'. split; [done|].
  assert (Hp' : p = {| Azure.accountName := Some "acct";
                       Azure.containerName := Some "documents";
                       Azure.blobName := "report.pdf";
                       Azure.baseUrl := "https://acct.blob.core.windows.net";
                       Azure.fullPath := "/documents/report.pdf" |}).
  { revert Hp. vm_compute. by intros [= <-]. }
  subst p. rewrite Hsas, Hpub, Hname. vm_compute. done.
Defined.

Module TimeFacts.
Import Js Str Url Sdk Eff Spec Spec2 Tactics.

Section Dates.
Context `{RT : Runtime}.

Lemma time_clip_valid t : valid_time t = true → time_clip (JNum t) = Some t.
Proof. unfold time_clip, valid_time. simpl. by intros ->. Qed.

Lemma time_clip_num t t' : time_clip (JNum t) = Some t' → t' = t.
Proof.
  unfold time_clip. simpl. destruct (_ && _)%bool; by intros [= ->].
Qed.

(** [d.setMinutes(d.getMinutes() - 5)] moves a date five minutes back. *)
Lemma five_minutes_back t :
  valid_time t = true →
  setMinutes (time_clip (JNum t))
    (js_sub (getMinutes (time_clip (JNum t))) (JNum 5))
  = time_clip (JNum (t - 300000)).
Proof.
  intros Ht. rewrite (time_clip_valid _ Ht). simpl. f_equal. f_equal. lia.
Qed.

(** [d.setMinutes(d.getMinutes() + m)] moves a date [m] minutes on. *)
Lemma minutes_forward t m :
  valid_time t = true →
  setMinutes (time_clip (JNum t))
    (js_add (getMinutes (time_clip (JNum t))) (JNum m))
  = time_clip (JNum (t + m * 60000)).
Proof.
  intros Ht. rewrite (time_clip_valid _ Ht). simpl. f_equal. f_equal. lia.
Qed.

Lemma toISOString_Ok v iso :
  toISOString (time_clip (JNum v)) = Ok iso → iso = date_iso v.
Proof.
  destruct (time_clip (JNum v)) as [t|] eqn:E; simpl; [|done].
  apply time_clip_num in E as ->. by intros [= <-].
Qed.

End Dates.

Section Expiry.
Context `{RT : Runtime} {W : Type} `{S3C : S3Client W} `{AZ : BlobService W}.
Variable s3 : S3Provider.
Variable az : AzureProvider.

Lemma s3_expiry url v m (st st' : St W) d :
  (if truthy v then v else JNum 60) = JNum m →
  S3.generateDownloadUrl s3 url {| expiryMinutes := v |} st = (Ok d, st') →
  isPublic d = false →
  expiresIn d = JNum (m * 60) ∧
  expiresAt d = Some (date_iso (clock st (reads st) + m * 60 * 1000)) ∧
  ∃ bucket key, last (calls st') = Some (GetSignedUrl bucket key (JNum (m * 60))).
Proof.
  intros Hm. unfold S3.generateDownloadUrl, S3.fileExists, S3.isObjectPublic,
    S3.isBucketPublic. run. rewrite Hm. simpl. intros H Hpub.
  destruct (S3.parseUrl s3 url) as [p|e0]; simpl in H; [|done].
  destruct (head_object _ _ _ _) as [[]|e1]; simpl in H;
    [|by destruct (_ || _)%bool].
  destruct (get_object_acl _ _ _ _) as [[grants|]|e2]; simpl in H;
    try (destruct (0 <? length _)%nat; simpl in H);
    (destruct (get_bucket_acl _ _ _) as [bg|e3]; simpl in H);
    try (by simplify_eq);
    (destruct (get_signed_url _ _ _ _ _) as [signed|e4]; simpl in H; [|done];
     destruct (toISOString _) as [iso|e5] eqn:Hiso; simpl in H; [|done];
     apply toISOString_Ok in Hiso as ->;
     simplify_eq; simpl;
     split; [done|]; split; [done|];
     do 2 eexists; apply last_snoc).
Qed.

Lemma azure_sas_window url v m (st st' : St W) d :
  (if truthy v then v else JNum 60) = JNum m →
  valid_time (clock st (reads st)) = true →
  valid_time (clock st (reads st) - 300000) = true →
  valid_time (clock st (S (reads st))) = true →
  Azure.generateDownloadUrl az url {| expiryMinutes := v |} st = (Ok d, st') →
  isPublic d = false →
  expiresIn d = JNum (m * 60) ∧
  expiresAt d = Some (date_iso (clock st (S (reads st)) + m * 60000)) ∧
  ∃ container blob,
    last (calls st')
    = Some (GenerateSAS container blob
              (Some (clock st (reads st) - 300000)%Z)
              (Some (clock st (S (reads st)) + m * 60000)%Z)).
Proof.
  intros Hm Ht1 Ht1' Ht2.
  unfold Azure.generateDownloadUrl, Azure.fileExists, Azure.isContainerPublic.
  unfold bind, catch, lift, query, update, request, ret, throw, Date_now, log.
  cbn [expiryMinutes]. rewrite Hm.
  cbn [world calls clock reads fst snd].
  intros H Hpub.
  destruct (Azure.parseUrl url) as [p|e0]; [|done].
  cbn [world calls clock reads] in H.
  destruct (blob_exists _ _ _ _) as [[|]|e1]; cbn [negb] in H; [|done|done].
  cbn [world calls clock reads] in H.
  destruct (get_properties _ _ _) as [[level|]|e2];
    cbn [world calls clock reads] in H;
    try (destruct (String.eqb level "blob" || String.eqb level "container")%bool;
         cbn [world calls clock reads] in H);
    try (by simplify_eq);
    (rewrite (five_minutes_back _ Ht1), (minutes_forward _ _ Ht2),
       (time_clip_valid _ Ht1') in H;
     destruct (time_clip (JNum (clock st (S (reads st)) + m * 60000)))
       as [t|] eqn:Hclip;
     [apply time_clip_num in Hclip as ->|];
     (destruct (generate_sas _ _ _ _ _) as [token|e3]; simpl in H; [|done]);
     [|done];
     simplify_eq; simpl;
     split; [done|]; split; [done|];
     do 2 eexists; apply last_snoc).
Qed.

Lemma azure_string_expiry url s m k (st st' : St W) d :
  s ≠ "" →
  string_to_number s = JNum m →
  string_to_number
    (pretty (local_minutes (clock st (S (reads st)))) +:+ s) = JNum k →
  valid_time (clock st (reads st)) = true →
  valid_time (clock st (reads st) - 300000) = true →
  valid_time (clock st (S (reads st))) = true →
  Azure.generateDownloadUrl az url {| expiryMinutes := JStr s |} st
  = (Ok d, st') →
  isPublic d = false →
  expiresIn d = JNum (m * 60) ∧
  ∃ container blob,
    last (calls st')
    = Some (GenerateSAS container blob
              (Some (clock st (reads st) - 300000)%Z)
              (Some (clock st (S (reads st)) +
                     (k - local_minutes (clock st (S (reads st)))) * 60000)%Z)).
Proof.
  intros Hs Hm Hk Ht1 Ht1' Ht2.
  assert (Htr : truthy (JStr s) = true).
  { simpl. by destruct (String.eqb_spec s ""). }
  unfold Azure.generateDownloadUrl, Azure.fileExists, Azure.isContainerPublic.
  unfold bind, catch, lift, query, update, request, ret, throw, Date_now, log.
  cbn [expiryMinutes]. rewrite Htr.
  cbn [world calls clock reads fst snd].
  intros H Hpub.
  destruct (Azure.parseUrl url) as [p|e0]; [|done].
  cbn [world calls clock reads] in H.
  destruct (blob_exists _ _ _ _) as [[|]|e1]; cbn [negb] in H; [|done|done].
  cbn [world calls clock reads] in H.
  destruct (get_properties _ _ _) as [[level|]|e2];
    cbn [world calls clock reads] in H;
    try (destruct (String.eqb level "blob" || String.eqb level "container")%bool;
         cbn [world calls clock reads] in H);
    try (by simplify_eq);
    (rewrite (five_minutes_back _ Ht1), (time_clip_valid _ Ht1'),
       (time_clip_valid _ Ht2) in H;
     cbn [getMinutes js_add setMinutes ToNumber ToString] in H;
     rewrite Hk in H; unfold js_mul in H; cbn [ToNumber] in H;
     rewrite Hm in H;
     match type of H with
     | context [time_clip ?x] => destruct (time_clip x) as [t|] eqn:Hclip
     end;
     [apply time_clip_num in Hclip as ->|];
     (destruct (generate_sas _ _ _ _ _) as [token|e3]; simpl in H; [|done]);
     [|done];
     simplify_eq; simpl;
     split; [done|];
     do 2 eexists; apply last_snoc).
Qed.

End Expiry.

End TimeFacts.

(** X16.  The lifetime of an S3 presigned address.  With an expiry of [m]
    minutes in effect (the option when it is truthy, sixty otherwise), a
    signed download reports [expiresIn = m * 60] seconds, the signing
    request was the last one made and carried that lifetime, and
    [expiresAt] is the time read from the clock after signing plus
    [m * 60 * 1000] milliseconds. *)
Theorem s3_presigned_lifetime
    `{RT : Runtime} {W : Type} `{S3C : S3Client W}
    (this : S3Provider) (permanentUrl : string) (v : JsVal) (m : Z)
    (st st' : St W) (d : DownloadInfo) :
  (if truthy v then v else JNum 60) = JNum m →
  S3.generateDownloadUrl this permanentUrl {| expiryMinutes := v |} st
  = (Ok d, st') →
  isPublic d = false →
  expiresIn d = JNum (m * 60) ∧
  expiresAt d = Some (date_iso (clock st (reads st) + m * 60 * 1000)) ∧
  ∃ bucket key,
    last (calls st') = Some (GetSignedUrl bucket key (JNum (m * 60))).
Proof. apply TimeFacts.s3_expiry. Qed.

(** Fifteen minutes, asked for at time 1000. *)
Lemma s3_presigned_lifetime_witness :
  ∃ d st',
    S3.generateDownloadUrl Mem.s3_this
      "https://tenant-bucket.s3.ap-south-1.amazonaws.com/documents/report.pdf"
      {| expiryMinutes := JNum 15 |}
      (Mem.start Mem.private_bucket_world 1000) = (Ok d, st') ∧
    expiresIn d = JNum 900 ∧ expiresAt d = Some "t901000".
Proof.
  destruct (S3.generateDownloadUrl Mem.s3_this
      "https://tenant-bucket.s3.ap-south-1.amazonaws.com/documents/report.pdf"
      {| expiryMinutes := JNum 15 |}
      (Mem.start Mem.private_bucket_world 1000)) as [[d|e] st'] eqn:E;
    [|exfalso; revert E; vm_compute; discriminate].
  assert (Hpub : isPublic d = false).
  { revert E. vm_compute. by intros [= <- _]. }
  destruct (s3_presigned_lifetime Mem.s3_this _ (JNum 15) 15 _ _ _
              eq_refl E Hpub) as (H1 & H2 & _).
  exists d, st'. split; [done|]. rewrite H1, H2. vm_compute. done.
Defined.

(** X17.  The validity window of an Azure SAS.  With an expiry of [m]
    minutes in effect and the clock within the range of [Date], a signed
    download asks for a SAS that starts five minutes before the first
    reading of the clock and ends [m] minutes after the second reading;
    [expiresAt] is that end, and [expiresIn] is [m * 60] seconds. *)
Theorem azure_sas_validity_window
    `{RT : Runtime} {W : Type} `{AZ : BlobService W}
    (this : AzureProvider) (permanentUrl : string) (v : JsVal) (m : Z)
    (st st' : St W) (d : DownloadInfo) :
  (if truthy v then v else JNum 60) = JNum m →
  Spec2.valid_time (clock st (reads st)) = true →
  Spec2.valid_time (clock st (reads st) - 300000) = true →
  Spec2.valid_time (clock st (S (reads st))) = true →
  Azure.generateDownloadUrl this permanentUrl {| expiryMinutes := v |} st
  = (Ok d, st') →
  isPublic d = false →
  expiresIn d = JNum (m * 60) ∧
  expiresAt d = Some (date_iso (clock st (S (reads st)) + m * 60000)) ∧
  ∃ container blob,
    last (calls st')
    = Some (GenerateSAS container blob
              (Some (clock st (reads st) - 300000)%Z)
              (Some (clock st (S (reads st)) + m * 60000)%Z)).
Proof. apply TimeFacts.azure_sas_window. Qed.

(** Fifteen minutes, asked for at time 1000000. *)
Lemma azure_sas_validity_window_witness :
  ∃ d st',
    Azure.generateDownloadUrl Mem.azure_this
      "https://acct.blob.core.windows.net/documents/report.pdf"
      {| expiryMinutes := JNum 15 |}
      (Mem.start Mem.private_container_world 1000000) = (Ok d, st') ∧
    expiresAt d = Some "t1900000" ∧
    last (calls st')
    = Some (GenerateSAS (Some "documents") "report.pdf"
              (Some 700000%Z) (Some 1900000%Z)).
Proof.
  destruct (Azure.generateDownloadUrl Mem.azure_this
      "https://acct.blob.core.windows.net/documents/report.pdf"
      {| expiryMinutes := JNum 15 |}
      (Mem.start Mem.private_container_world 1000000))
    as [[d|e] st'] eqn:E;
    [|exfalso; revert E; vm_compute; discriminate].
  assert (Hpub : isPublic d = false).
  { revert E. vm_compute. by intros [= <- _]. }
  destruct (azure_sas_validity_window Mem.azure_this _ (JNum 15) 15
              (Mem.start Mem.private_container_world 1000000) _ _
              eq_refl eq_refl eq_refl eq_refl E Hpub)
    as (_ & H2 & c & b & H3).
  exists d, st'. split; [done|]. split.
  - rewrite H2. vm_compute. done.
  - revert E. vm_compute. by intros [= <- <-].
Defined.

(** X18.  A string expiry under the Azure adapter.  [getMinutes() +
    expiryMinutes] concatenates when the option is a string: for a
    non-empty string [s] that reads as the number [m], the SAS does not end
    [m] minutes after the clock reading but at minute [k] of that hour,
    where [k] is what the minute of the hour followed by [s] reads as;
    [expiresIn] is still reported as [m * 60] seconds. *)
Theorem azure_string_expiry_is_concatenated
    `{RT : Runtime} {W : Type} `{AZ : BlobService W}
    (this : AzureProvider) (permanentUrl : string) (s : string) (m k : Z)
    (st st' : St W) (d : DownloadInfo) :
  s ≠ "" →
  string_to_number s = JNum m →
  string_to_number
    (pretty (local_minutes (clock st (S (reads st)))) +:+ s) = JNum k →
  Spec2.valid_time (clock st (reads st)) = true →
  Spec2.valid_time (clock st (reads st) - 300000) = true →
  Spec2.valid_time (clock st (S (reads st))) = true →
  Azure.generateDownloadUrl this permanentUrl {| expiryMinutes := JStr s |} st
  = (Ok d, st') →
  isPublic d = false →
  expiresIn d = JNum (m * 60) ∧
  ∃ container blob,
    last (calls st')
    = Some (GenerateSAS container blob
              (Some (clock st (reads st) - 300000)%Z)
              (Some (clock st (S (reads st)) +
                     (k - local_minutes (clock st (S (reads st)))) * 60000)%Z)).
Proof. apply TimeFacts.azure_string_expiry. Qed.

(** The string ["30"] at minute 17 of the hour: the SAS ends at minute
    1730, 1713 minutes later, and [expiresIn] says 1800 seconds. *)
Lemma azure_string_expiry_is_concatenated_witness :
  ∃ d st',
    Azure.generateDownloadUrl Mem.azure_this
      "https://acct.blob.core.windows.net/documents/report.pdf"
      {| expiryMinutes := JStr "30" |}
      (Mem.start Mem.private_container_world 1020000) = (Ok d, st') ∧
    expiresIn d = JNum 1800 ∧
    ∃ container blob,
      last (calls st')
      = Some (GenerateSAS container blob (Some 720000%Z)
                (Some (1020000 + 1713 * 60000)%Z)).
Proof.
  destruct (Azure.generateDownloadUrl Mem.azure_this
      "https://acct.blob.core.windows.net/documents/report.pdf"
      {| expiryMinutes := JStr "30" |}
      (Mem.start Mem.private_container_world 1020000))
    as [[d|e] st'] eqn:E;
    [|exfalso; revert E; vm_compute; discriminate].
  assert (Hpub : isPublic d = false).
  { revert E. vm_compute. by intros [= <- _]. }
  assert (Hs : "30" ≠ "") by discriminate.
  assert (Hm : string_to_number "30" = JNum 30) by (vm_compute; reflexivity).
  assert (Hk : string_to_number
                 (pretty (local_minutes
                            (clock (Mem.start Mem.private_container_world
                                      1020000) 1%nat)) +:+ "30")
               = JNum 1730) by (vm_compute; reflexivity).
  destruct (azure_string_expiry_is_concatenated Mem.azure_this _ "30" 30 1730
              (Mem.start Mem.private_container_world 1020000) _ _
              Hs Hm Hk eq_refl eq_refl eq_refl E Hpub)
    as (H1 & c & b & H2).
  exists d, st'. split; [done|]. split; [exact H1|].
  exists c, b. exact H2.
Defined.

Module AddressFacts.
Import Js Str Url Sdk Eff Spec Spec2 Tactics.

Section Addresses.
Context `{RT : Runtime} {W : Type} `{S3C : S3Client W} `{AZ : BlobService W}.
Variable s3 : S3Provider.
Variable az : AzureProvider.

Lemma s3_parse_unreadable url e :
  new_URL url = Throw e →
  S3.parseUrl s3 url
  = Throw (new_Error ("Failed to parse S3 URL: " +:+ err_message e)).
Proof. intros H. unfold S3.parseUrl. by rewrite H. Qed.

Lemma azure_parse_unreadable url e :
  new_URL url = Throw e →
  Azure.parseUrl url
  = Throw (new_Error ("Failed to parse Azure URL: " +:+ err_message e)).
Proof. intros H. unfold Azure.parseUrl. by rewrite H. Qed.

Lemma unreadable_address url e (st : St W) opts :
  new_URL url = Throw e →
  S3.deleteFile s3 url st
  = (Throw (new_Error ("S3 delete failed: Failed to parse S3 URL: " +:+
                       err_message e)), st) ∧
  S3.generateDownloadUrl s3 url opts st
  = (Throw (new_Error ("S3 download URL generation failed: " +:+
                       "Failed to parse S3 URL: " +:+ err_message e)), st) ∧
  S3.fileExists s3 url st
  = (Throw (new_Error ("Failed to parse S3 URL: " +:+ err_message e)), st) ∧
  Azure.deleteFile az url st
  = (Throw (new_Error ("Azure delete failed: Failed to parse Azure URL: " +:+
                       err_message e)), st) ∧
  Azure.generateDownloadUrl az url opts st
  = (Throw (new_Error ("Azure SAS generation failed: " +:+
                       "Failed to parse Azure URL: " +:+ err_message e)), st) ∧
  Azure.fileExists az url st = (Ok false, st).
Proof.
  intros H.
  unfold S3.deleteFile, S3.generateDownloadUrl, S3.fileExists,
    Azure.deleteFile, Azure.generateDownloadUrl, Azure.fileExists.
  unfold bind, catch, lift, throw, ret.
  rewrite (s3_parse_unreadable _ _ H), (azure_parse_unreadable _ _ H).
  done.
Qed.

(** A path-style address: the first segment of the path is the bucket. *)
Lemma s3_parse_path_style url host bucket key :
  new_URL url = Ok {| hostname := host;
                      pathname := "/" +:+ bucket +:+ "/" +:+ key |} →
  includes ".s3." host = false →
  nonempty bucket = true →
  has_char "/"%char bucket = false →
  forallb nonempty (split_on "/"%char key) = true →
  S3.parseUrl s3 url
  = Ok {| S3.bucketName := Some bucket;
          S3.key := key;
          S3.region := s3_region s3;
          S3.baseUrl := "https://" +:+ bucket +:+ ".s3." +:+ s3_region s3 +:+
                        ".amazonaws.com";
          S3.fullPath := "/" +:+ key |}.
Proof.
  intros Hu Hh Hn Hb Hk. unfold S3.parseUrl. rewrite Hu. simpl rethrow.
  cbn [hostname pathname]. rewrite Hh.
  change ("" +:+ bucket +:+ "/" +:+ key)
    with (bucket +:+ String "/"%char key).
  rewrite (UrlFacts.split_on_app _ _ _ Hb).
  cbn [List.filter nonempty]. rewrite Hn, (UrlFacts.filter_all _ _ Hk).
  cbn [first slice1 head tail tl]. rewrite (UrlFacts.join_split "/"%char).
  reflexivity.
Qed.

(** The three visibility checks answer on every store. *)
Lemma visibility_checks bucket key container (st : St W) :
  S3.isObjectPublic s3 bucket key st
  = (Ok (object_public (world st) s3 bucket key),
     log (GetObjectAcl bucket key) st) ∧
  (∃ b, S3.isBucketPublic s3 bucket st = (Ok b, log (GetBucketAcl bucket) st) ∧
        (b = Some true →
         ∃ grants, get_bucket_acl (world st) s3 bucket = Ok (Some grants) ∧
                   existsb S3.public_grant grants = true)) ∧
  Azure.isContainerPublic az container st
  = (Ok (container_public (world st) az container),
     log (GetProperties container) st).
Proof.
  unfold S3.isObjectPublic, S3.isBucketPublic, Azure.isContainerPublic,
    object_public, container_public. run.
  split; [|split].
  - destruct (get_object_acl _ _ _ _) as [[g|]|e]; simpl; [|done|done].
    by rewrite DownloadFacts.some_public.
  - destruct (get_bucket_acl _ _ _) as [[g|]|e]; simpl;
      eexists; (split; [reflexivity|]); intros [= Hb]; eauto.
  - by destruct (get_properties _ _ _) as [[l|]|e].
Qed.

End Addresses.

End AddressFacts.

(** X19.  An address the runtime cannot read reaches no backend.  When
    [new URL] throws, the delete and download operations of both adapters
    throw an [Error] that carries the operation's prefix, then the
    adapter's parse prefix, then the runtime's message; the existence check
    of the S3 adapter throws the parse error itself and that of the Azure
    adapter answers [false].  In every case no request is made and the
    clock is not read: the state is the one the call started in. *)
Theorem unreadable_address_reaches_no_backend
    `{RT : Runtime} {W : Type} `{S3C : S3Client W} `{AZ : BlobService W}
    (s3 : S3Provider) (az : AzureProvider) (fileUrl : string) (e : JsError)
    (st : St W) (options : Options) :
  new_URL fileUrl = Throw e →
  S3.deleteFile s3 fileUrl st
  = (Throw (new_Error ("S3 delete failed: Failed to parse S3 URL: " +:+
                       err_message e)), st) ∧
  S3.generateDownloadUrl s3 fileUrl options st
  = (Throw (new_Error ("S3 download URL generation failed: " +:+
                       "Failed to parse S3 URL: " +:+ err_message e)), st) ∧
  S3.fileExists s3 fileUrl st
  = (Throw (new_Error ("Failed to parse S3 URL: " +:+ err_message e)), st) ∧
  Azure.deleteFile az fileUrl st
  = (Throw (new_Error ("Azure delete failed: Failed to parse Azure URL: " +:+
                       err_message e)), st) ∧
  Azure.generateDownloadUrl az fileUrl options st
  = (Throw (new_Error ("Azure SAS generation failed: " +:+
                       "Failed to parse Azure URL: " +:+ err_message e)), st) ∧
  Azure.fileExists az fileUrl st = (Ok false, st).
Proof. apply AddressFacts.unreadable_address. Qed.

(** The address [not-a-valid-url]. *)
Lemma unreadable_address_reaches_no_backend_witness :
  S3.deleteFile Mem.s3_this "not-a-valid-url"
    (Mem.start Mem.private_bucket_world 0)
  = (Throw (new_Error
              "S3 delete failed: Failed to parse S3 URL: Invalid URL"),
     Mem.start Mem.private_bucket_world 0).
Proof.
  assert (Hu : new_URL "not-a-valid-url"
               = Throw (new_TypeError "Invalid URL"))
    by (vm_compute; reflexivity).
  destruct (unreadable_address_reaches_no_backend Mem.s3_this Mem.azure_this
              "not-a-valid-url" (new_TypeError "Invalid URL")
              (Mem.start Mem.private_bucket_world 0)
              {| expiryMinutes := JUndefined |} Hu) as [Hd _].
  exact Hd.
Defined.

(** X20.  A path-style S3 address.  When the host name has no [.s3.] part,
    [parseUrl] takes the first segment of the path as the bucket and the
    remaining segments as the key; [baseUrl] is nevertheless written in the
    virtual-hosted form, with the bucket in the host name. *)
Theorem s3_parseUrl_reads_path_style
    `{RT : Runtime} (this : S3Provider) (url host bucket key : string) :
  new_URL url = Ok {| hostname := host;
                      pathname := "/" +:+ bucket +:+ "/" +:+ key |} →
  includes ".s3." host = false →
  nonempty bucket = true →
  has_char "/"%char bucket = false →
  forallb nonempty (split_on "/"%char key) = true →
  S3.parseUrl this url
  = Ok {| S3.bucketName := Some bucket;
          S3.key := key;
          S3.region := s3_region this;
          S3.baseUrl := "https://" +:+ bucket +:+ ".s3." +:+
                        s3_region this +:+ ".amazonaws.com";
          S3.fullPath := "/" +:+ key |}.
Proof. apply AddressFacts.s3_parse_path_style. Qed.

(** The address [https://s3.amazonaws.com/my-bucket/a/b.txt]. *)
Lemma s3_parseUrl_reads_path_style_witness :
  S3.parseUrl Mem.s3_this "https://s3.amazonaws.com/my-bucket/a/b.txt"
  = Ok {| S3.bucketName := Some "my-bucket";
          S3.key := "a/b.txt";
          S3.region := "ap-south-1";
          S3.baseUrl := "https://my-bucket.s3.ap-south-1.amazonaws.com";
          S3.fullPath := "/a/b.txt" |}.
Proof.
  assert (Hu : new_URL "https://s3.amazonaws.com/my-bucket/a/b.txt"
               = Ok {| hostname := "s3.amazonaws.com";
                       pathname := "/" +:+ "my-bucket" +:+ "/" +:+ "a/b.txt" |})
    by (vm_compute; reflexivity).
  exact (s3_parseUrl_reads_path_style Mem.s3_this _ "s3.amazonaws.com"
           "my-bucket" "a/b.txt" Hu eq_refl eq_refl eq_refl eq_refl).
Defined.

(** X21.  The visibility checks fail closed.  [isObjectPublic] and
    [isContainerPublic] make one read request and answer on every store:
    [true] when the request returned a public grant for all users, resp.
    the level ['blob'] or ['container'], and [false] otherwise, also when
    the request threw.  [isBucketPublic] makes one read request and never
    throws; it answers [true] only for a returned public grant. *)
Theorem visibility_checks_fail_closed
    `{RT : Runtime} {W : Type} `{S3C : S3Client W} `{AZ : BlobService W}
    (s3 : S3Provider) (az : AzureProvider) (bucket : option string)
    (key : string) (container : option string) (st : St W) :
  S3.isObjectPublic s3 bucket key st
  = (Ok (Spec2.object_public (world st) s3 bucket key),
     log (GetObjectAcl bucket key) st) ∧
  (∃ b, S3.isBucketPublic s3 bucket st = (Ok b, log (GetBucketAcl bucket) st) ∧
        (b = Some true →
         ∃ grants, get_bucket_acl (world st) s3 bucket = Ok (Some grants) ∧
                   existsb S3.public_grant grants = true)) ∧
  Azure.isContainerPublic az container st
  = (Ok (Spec2.container_public (world st) az container),
     log (GetProperties container) st).
Proof. apply AddressFacts.visibility_checks. Qed.

Module RoutingFacts.
Import Js Str Url Sdk Eff Factory Service Spec Spec2 Tactics.

Section Routing.
Context `{RT : Runtime} {W : Type} `{S3C : S3Client W} `{AZ : BlobService W}.
Variable platforms : gmap string Config.Platform.

(** Whether the factory fails does not depend on the identity it would
    give to the adapter. *)
Lemma createProvider_throw type config oid oid' e :
  createProvider type config oid = Throw e →
  createProvider type config oid' = Throw e.
Proof.
  unfold createProvider. intros H.
  repeat case_hyp H; by simplify_eq.
Qed.

Lemma resolve_failed platformId environment s e s' :
  getStorageProvider platforms platformId environment s = (Throw e, s') →
  providerCache s !! cacheKey platformId environment = None ∧
  providerCache s' = providerCache s ∧
  allocated s' = allocated s ∧
  configLookups s' = configLookups s ++ [(platformId, environment)] ∧
  ∃ s'', getStorageProvider platforms platformId environment s'
         = (Throw e, s'') ∧
         configLookups s''
         = configLookups s' ++ [(platformId, environment)].
Proof.
  unfold getStorageProvider.
  destruct (providerCache s !! cacheKey platformId environment) eqn:Hc;
    [done|].
  destruct (Config.getPlatformConfig _ _ _) as [config|e0] eqn:Hg.
  - destruct (createProvider _ _ _) as [v|e1] eqn:Hf; [done|].
    intros [= <- <-]. simpl. rewrite Hc.
    rewrite (createProvider_throw _ _ _ (allocated s) _ Hf).
    repeat split; try done. by eexists.
  - intros [= <- <-]. simpl. rewrite Hc.
    repeat split; try done. by eexists.
Qed.

Lemma delegate_wrapped {A} prefix platformId environment
    (op : Provider → M A) (app : App W) :
  ok_or_wrapped prefix (delegate platforms prefix platformId environment op app).
Proof.
  unfold ok_or_wrapped, delegate.
  destruct (getStorageProvider _ _ _ _) as [[v|e] s']; simpl; [|eauto].
  destruct (op v (backend app)) as [[a|e] b']; simpl; eauto.
Qed.

Lemma delegate_unknown {A} prefix platformId environment
    (op : Provider → M A) (app : App W) e :
  providerCache (svc app) !! cacheKey platformId environment = None →
  Config.getPlatformConfig platforms platformId environment = Throw e →
  ∃ s', delegate platforms prefix platformId environment op app
        = (Throw (new_Error (prefix +:+ err_message e)),
           MkApp s' (backend app)) ∧
        providerCache s' = providerCache (svc app).
Proof.
  intros Hc Hg. unfold delegate, getStorageProvider. rewrite Hc, Hg.
  by eexists.
Qed.

Lemma fileExists_total platformId environment fileUrl (app : App W) :
  ∃ b app',
    fileExists platforms platformId environment fileUrl app = (Ok b, app') ∧
    world (backend app') = world (backend app).
Proof.
  unfold fileExists, delegate.
  destruct (getStorageProvider _ _ _ _) as [[v|e] s']; simpl;
    [|by do 2 eexists].
  destruct (provider_fileExists v fileUrl (backend app)) as [r b'] eqn:E.
  assert (world b' = world (backend app)) as Hw.
  { destruct v as [oid this|oid this]; simpl in E.
    - by apply AdapterFacts.s3_fileExists_effect in E as [-> _].
    - by apply AdapterFacts.azure_fileExists_effect in E as [-> _]. }
  destruct r as [b|e]; by do 2 eexists.
Qed.

(** The keys of the enriched metadata: the caller's value wins. *)
Lemma enrich_lookup platformId environment provider metadata k :
  enrich platformId environment provider metadata !! k
  = match metadata !! k with
    | Some v => Some v
    | None =>
        if String.eqb k "provider" then Some (JStr (getProviderName provider))
        else if String.eqb k "environment" then Some (JStr environment)
        else if String.eqb k "platformId" then Some (JStr platformId)
        else None
    end.
Proof.
  unfold enrich. rewrite lookup_union.
  destruct (metadata !! k) as [v|] eqn:Hk.
  - apply union_Some_l.
  - rewrite (left_id_L None _).
    destruct (String.eqb_spec k "provider") as [->|H1]; [done|].
    rewrite lookup_insert_ne by done.
    destruct (String.eqb_spec k "environment") as [->|H2]; [done|].
    rewrite lookup_insert_ne by done.
    destruct (String.eqb_spec k "platformId") as [->|H3]; [done|].
    by rewrite lookup_singleton_ne.
Qed.

End Routing.

End RoutingFacts.

(** X22.  A failed resolution is not remembered.  When [getStorageProvider]
    throws, the pair was not cached, the cache and the number of adapters
    are as before, the registry was looked up once, and the next call for
    the same pair looks the registry up again and throws the same error. *)
Theorem failed_resolution_is_retried
    {W : Type} `{AZ : BlobService W}
    (platforms : gmap string Config.Platform)
    (platformId environment : string) (s s' : Service) (e : JsError) :
  getStorageProvider platforms platformId environment s = (Throw e, s') →
  providerCache s !! cacheKey platformId environment = None ∧
  providerCache s' = providerCache s ∧
  allocated s' = allocated s ∧
  configLookups s' = configLookups s ++ [(platformId, environment)] ∧
  ∃ s'', getStorageProvider platforms platformId environment s'
         = (Throw e, s'') ∧
         configLookups s''
         = configLookups s' ++ [(platformId, environment)].
Proof. apply RoutingFacts.resolve_failed. Qed.

(** A tenant the registry does not know. *)
Lemma failed_resolution_is_retried_witness :
  ∃ s' s'',
    getStorageProvider Mem.registry "nobody" "uat"
      new_MultiTenantStorageService
    = (Throw (new_Error "Platform 'nobody' not found"), s') ∧
    getStorageProvider Mem.registry "nobody" "uat" s'
    = (Throw (new_Error "Platform 'nobody' not found"), s'') ∧
    configLookups s'' = [("nobody", "uat"); ("nobody", "uat")].
Proof.
  destruct (getStorageProvider Mem.registry "nobody" "uat"
              new_MultiTenantStorageService) as [[v|e] s'] eqn:E;
    [exfalso; revert E; vm_compute; discriminate|].
  destruct (failed_resolution_is_retried Mem.registry "nobody" "uat"
              new_MultiTenantStorageService s' e E)
    as (_ & _ & _ & Hl & s'' & Hr & Hl').
  assert (He : e = new_Error "Platform 'nobody' not found").
  { revert E. vm_compute. by intros [= <- _]. }
  subst e. exists s', s''. split; [done|]. split; [exact Hr|].
  rewrite Hl', Hl. reflexivity.
Defined.

(** X23.  A tenant the registry refuses reaches no backend.  When the pair
    is not cached and the registry lookup throws, the upload, download,
    delete and delete-by-key operations of the service throw an [Error]
    made of the operation's prefix and the registry's message, and
    [fileExists] answers [false]; the backend state (store, requests,
    clock) and the cache are unchanged. *)
Theorem unknown_tenant_reaches_no_backend
    `{RT : Runtime} {W : Type} `{S3C : S3Client W} `{AZ : BlobService W}
    (platforms : gmap string Config.Platform)
    (platformId environment : string) (app : App W) (e : JsError)
    (bucketName : string) (prefix key : option string) (access : string)
    (fileData : Body) (fileName fileUrl : string)
    (metadata : gmap string JsVal) (options : Options) :
  providerCache (svc app) !! cacheKey platformId environment = None →
  Config.getPlatformConfig platforms platformId environment = Throw e →
  Spec2.refused "Upload failed: " e app
    (uploadFile platforms platformId environment bucketName prefix access
       fileData fileName metadata app) ∧
  Spec2.refused "Download URL generation failed: " e app
    (generateDownloadUrl platforms platformId environment fileUrl options
       app) ∧
  Spec2.refused "Delete failed: " e app
    (deleteFile platforms platformId environment fileUrl app) ∧
  Spec2.refused "Delete by bucket key failed: " e app
    (deleteFileByBucketKey platforms platformId environment bucketName key
       app) ∧
  ∃ app', fileExists platforms platformId environment fileUrl app
          = (Ok false, app') ∧
          backend app' = backend app ∧
          providerCache (svc app') = providerCache (svc app).
Proof.
  intros Hc Hg.
  unfold uploadFile, generateDownloadUrl, deleteFile, deleteFileByBucketKey,
    fileExists, Spec2.refused.
  repeat split;
    try match goal with
        | |- context [delegate _ ?pre _ _ ?op _] =>
            destruct (RoutingFacts.delegate_unknown platforms pre platformId
                        environment op app e Hc Hg) as (s' & -> & Hs);
            simpl; done
        end.
  destruct (RoutingFacts.delegate_unknown platforms "" platformId environment
              (λ provider, provider_fileExists provider fileUrl)
              app e Hc Hg) as (s' & -> & Hs).
  by eexists.
Qed.

(** The tenant [nobody] on a fresh service. *)
Lemma unknown_tenant_reaches_no_backend_witness :
  fst (deleteFile Mem.registry "nobody" "uat"
         "https://tenant-bucket.s3.ap-south-1.amazonaws.com/a.txt"
         (MkApp new_MultiTenantStorageService
            (Mem.start Mem.private_bucket_world 0)))
  = Throw (new_Error "Delete failed: Platform 'nobody' not found").
Proof.
  assert (Hg : Config.getPlatformConfig Mem.registry "nobody" "uat"
               = Throw (new_Error "Platform 'nobody' not found"))
    by (vm_compute; reflexivity).
  destruct (unknown_tenant_reaches_no_backend Mem.registry "nobody" "uat"
              (MkApp new_MultiTenantStorageService
                 (Mem.start Mem.private_bucket_world 0))
              (new_Error "Platform 'nobody' not found")
              "b" None None "private" "x" "a.txt"
              "https://tenant-bucket.s3.ap-south-1.amazonaws.com/a.txt"
              ∅ {| expiryMinutes := JUndefined |} eq_refl Hg)
    as (_ & _ & (Hd & _) & _).
  exact Hd.
Defined.

(** X24.  Failures of the routing service are scoped to the operation.
    Whatever fails (resolution, construction of the adapter, or the
    adapter's operation), the four operations either return or throw an
    [Error] whose message starts with the operation's own prefix; and
    [fileExists] returns a boolean on every input, leaving the store as it
    was. *)
Theorem service_failures_carry_the_operation_prefix
    `{RT : Runtime} {W : Type} `{S3C : S3Client W} `{AZ : BlobService W}
    (platforms : gmap string Config.Platform)
    (platformId environment : string) (app : App W)
    (bucketName : string) (prefix key : option string) (access : string)
    (fileData : Body) (fileName fileUrl : string)
    (metadata : gmap string JsVal) (options : Options) :
  Spec2.ok_or_wrapped "Upload failed: "
    (uploadFile platforms platformId environment bucketName prefix access
       fileData fileName metadata app) ∧
  Spec2.ok_or_wrapped "Download URL generation failed: "
    (generateDownloadUrl platforms platformId environment fileUrl options
       app) ∧
  Spec2.ok_or_wrapped "Delete failed: "
    (deleteFile platforms platformId environment fileUrl app) ∧
  Spec2.ok_or_wrapped "Delete by bucket key failed: "
    (deleteFileByBucketKey platforms platformId environment bucketName key
       app) ∧
  ∃ b app',
    fileExists platforms platformId environment fileUrl app = (Ok b, app') ∧
    world (backend app') = world (backend app).
Proof.
  repeat split; try apply RoutingFacts.delegate_wrapped.
  apply RoutingFacts.fileExists_total.
Qed.

Module TenantFacts.
Import Js Str Url Sdk Eff Factory Service Spec Spec2 Tactics.

Section Tenants.
Context `{RT : Runtime} {W : Type} `{S3C : S3Client W} `{AZ : BlobService W}.
Variable platforms : gmap string Config.Platform.

Lemma prop_enrich platformId environment provider metadata :
  S3.prop (enrich platformId environment provider metadata) "platformId"
  = default (JStr platformId) (metadata !! "platformId") ∧
  S3.prop (enrich platformId environment provider metadata) "environment"
  = default (JStr environment) (metadata !! "environment").
Proof.
  unfold S3.prop. rewrite !RoutingFacts.enrich_lookup.
  split.
  - by destruct (metadata !! "platformId").
  - by destruct (metadata !! "environment").
Qed.

Lemma service_s3_upload platformId environment bucketName prefix access
    fileData fileName metadata (app app' : App W) oid this s' r :
  getStorageProvider platforms platformId environment (svc app)
  = (Ok (S3Adapter oid this), s') →
  nonempty bucketName = true →
  uploadFile platforms platformId environment bucketName prefix access
    fileData fileName metadata app = (Ok r, app') →
  ∃ cfg input,
    Config.getPlatformConfig platforms
      (ToString (default (JStr platformId) (metadata !! "platformId")))
      (ToString (default (JStr environment) (metadata !! "environment")))
    = Ok cfg ∧
    put_Bucket input = Config.bucketName (Config.env cfg) ∧
    made (backend app) (backend app')
      [HeadBucket (put_Bucket input); PutObject input] ∧
    put_Metadata input !! "platformId"
    = Some (ToString (default (JStr platformId) (metadata !! "platformId"))) ∧
    put_Metadata input !! "provider" = Some "s3" ∧
    up_fileUrl r
    = S3.objectUrl (put_Bucket input) (s3_region this) (put_Key input) ∧
    up_isPublic r = String.eqb access "public".
Proof.
  intros Hres Hn. unfold uploadFile, delegate. rewrite Hres.
  unfold bind, ret. simpl.
  destruct (S3.uploadFile _ _ _ _ _ _ _ _ _) as [[url|e] b'] eqn:Hup;
    [|done].
  intros [= <- <-]. simpl.
  destruct (UploadFacts.s3_upload_input _ _ _ _ _ _ _ _ _ _ _ Hn Hup)
    as (cfg & stamp & Hc & Hm & ->).
  destruct (prop_enrich platformId environment (S3Adapter oid this) metadata)
    as [Hp He].
  rewrite Hp, He in Hc.
  eexists cfg, _. split; [exact Hc|]. split; [|split; [exact Hm|]].
  { reflexivity. }
  simpl. repeat split.
  - rewrite !lookup_insert_ne by done.
    rewrite lookup_delete_ne by done. rewrite lookup_fmap.
    rewrite RoutingFacts.enrich_lookup.
    by destruct (metadata !! "platformId").
  - rewrite lookup_insert_ne by done.
    by rewrite lookup_insert_eq.
Qed.

End Tenants.

End TenantFacts.

(** X25.  Which bucket an upload through the service goes to, for a tenant
    served by the S3 adapter.  The adapter looks the bucket up in the
    registry under the [platformId] and [environment] keys of the enriched
    metadata, and in the enriched metadata the caller's keys win: the
    bucket is the one configured for the pair named in the caller's
    metadata, and for the routed tenant only where the caller's metadata
    has no such key.  The object's metadata records that [platformId] and
    the provider ['s3'], the requests are HeadBucket and PutObject on that
    bucket, and the result carries the address of the stored object and
    [isPublic = (access === 'public')]. *)
Theorem service_s3_upload_bucket_follows_metadata
    `{RT : Runtime} {W : Type} `{S3C : S3Client W} `{AZ : BlobService W}
    (platforms : gmap string Config.Platform)
    (platformId environment bucketName : string) (prefix : option string)
    (access : string) (fileData : Body) (fileName : string)
    (metadata : gmap string JsVal) (app app' : App W)
    (oid : nat) (this : S3Provider) (s' : Service) (r : UploadResult) :
  getStorageProvider platforms platformId environment (svc app)
  = (Ok (S3Adapter oid this), s') →
  nonempty bucketName = true →
  uploadFile platforms platformId environment bucketName prefix access
    fileData fileName metadata app = (Ok r, app') →
  ∃ cfg input,
    Config.getPlatformConfig platforms
      (ToString (default (JStr platformId) (metadata !! "platformId")))
      (ToString (default (JStr environment) (metadata !! "environment")))
    = Ok cfg ∧
    put_Bucket input = Config.bucketName (Config.env cfg) ∧
    made (backend app) (backend app')
      [HeadBucket (put_Bucket input); PutObject input] ∧
    put_Metadata input !! "platformId"
    = Some (ToString (default (JStr platformId) (metadata !! "platformId"))) ∧
    put_Metadata input !! "provider" = Some "s3" ∧
    up_fileUrl r
    = S3.objectUrl (put_Bucket input) (s3_region this) (put_Key input) ∧
    up_isPublic r = String.eqb access "public".
Proof. apply TenantFacts.service_s3_upload. Qed.

(** The tenant [invictus], with no tenant keys in the caller's metadata. *)
Lemma service_s3_upload_bucket_follows_metadata_witness :
  ∃ r app' input,
    uploadFile Mem.registry "invictus" "uat" "docs" None "private" "body"
      "a.txt" ∅
      (MkApp new_MultiTenantStorageService
         (Mem.start Mem.private_bucket_world 0)) = (Ok r, app') ∧
    put_Bucket input = Some "tenant-bucket" ∧
    made (Mem.start Mem.private_bucket_world 0) (backend app')
      [HeadBucket (put_Bucket input); PutObject input] ∧
    put_Metadata input !! "platformId" = Some "invictus".
Proof.
  destruct (uploadFile Mem.registry "invictus" "uat" "docs" None "private"
              "body" "a.txt" ∅
              (MkApp new_MultiTenantStorageService
                 (Mem.start Mem.private_bucket_world 0)))
    as [[r|e] app'] eqn:E;
    [|exfalso; revert E; vm_compute; discriminate].
  assert (Hres : getStorageProvider Mem.registry "invictus" "uat"
                   (svc (MkApp new_MultiTenantStorageService
                           (Mem.start Mem.private_bucket_world 0)))
                 = (Ok (S3Adapter 0 Mem.s3_this),
                    snd (getStorageProvider Mem.registry "invictus" "uat"
                           new_MultiTenantStorageService)))
    by (vm_compute; reflexivity).
  destruct (service_s3_upload_bucket_follows_metadata Mem.registry
              "invictus" "uat" "docs" None "private" "body" "a.txt" ∅
              _ app' 0%nat Mem.s3_this _ r Hres eq_refl E)
    as (cfg & input & Hc & HB & Hm & Hp & _).
  exists r, app', input. split; [done|]. split.
  { rewrite HB. revert Hc. vm_compute. by intros [= <-]. }
  split; [exact Hm|exact Hp].
Defined.

(** X26.  What [getProviderInfo] reports.  For a pair that is not cached
    and that the registry knows, a successful call names the adapter kind
    chosen by the configured provider type, compared without regard to
    case: ['azure'] for [azure], ['s3'] for [aws] and [s3]; it echoes the
    two identifiers, and the adapter it resolved is cached under the
    pair's key.  A failure is the error of the resolution itself: unlike
    the other operations, nothing is put in front of its message. *)
Theorem provider_info_names_the_adapter_kind
    {W : Type} `{AZ : BlobService W}
    (platforms : gmap string Config.Platform)
    (platformId environment : string) (s : Service)
    (cfg : Config.PlatformConfig) :
  providerCache s !! cacheKey platformId environment = None →
  Config.getPlatformConfig platforms platformId environment = Ok cfg →
  (∀ info s',
     ServiceInfo.getProviderInfo platforms platformId environment s
     = (Ok info, s') →
     ∃ type v,
       Config.provider (Config.env cfg) = Some type ∧
       ServiceInfo.info_name info
       = (if String.eqb (lower type) "azure" then "azure" else "s3") ∧
       ServiceInfo.info_platformId info = platformId ∧
       ServiceInfo.info_environment info = environment ∧
       providerCache s' !! cacheKey platformId environment = Some v ∧
       getProviderName v = ServiceInfo.info_name info) ∧
  (∀ e s',
     ServiceInfo.getProviderInfo platforms platformId environment s
     = (Throw e, s') →
     createProvider (Config.provider (Config.env cfg)) cfg (allocated s)
     = Throw e).
Proof.
  intros Hc Hg. unfold ServiceInfo.getProviderInfo, getStorageProvider.
  rewrite Hc, Hg. split.
  - intros info s'.
    destruct (createProvider _ _ _) as [v|e] eqn:Hf; [|done].
    intros [= <- <-]. simpl. unfold createProvider in Hf.
    destruct (Config.provider (Config.env cfg)) as [type|]; [|done].
    exists type, v. split; [done|].
    rewrite lookup_insert_eq.
    destruct (String.eqb (lower type) "azure").
    + destruct (Azure.new_AzureStorageProvider cfg); by simplify_eq.
    + destruct (_ || _)%bool; [|done].
      destruct (S3.new_AWSS3StorageProvider cfg); by simplify_eq.
  - intros e s'.
    destruct (createProvider _ _ _) as [v|e'] eqn:Hf; [done|].
    by intros [= <- _].
Qed.

(** The tenant [brokerage] on a fresh service. *)
Lemma provider_info_names_the_adapter_kind_witness :
  ∃ info s',
    ServiceInfo.getProviderInfo Mem.registry "brokerage" "uat"
      new_MultiTenantStorageService = (Ok info, s') ∧
    ServiceInfo.info_name info = "azure".
Proof.
  destruct (ServiceInfo.getProviderInfo Mem.registry "brokerage" "uat"
              new_MultiTenantStorageService) as [[info|e] s'] eqn:E;
    [|exfalso; revert E; vm_compute; discriminate].
  assert (Hg : Config.getPlatformConfig Mem.registry "brokerage" "uat"
               = Ok {| Config.platformName := "Brokerage";
                       Config.env := Mem.azure_env |})
    by (vm_compute; reflexivity).
  destruct (provider_info_names_the_adapter_kind Mem.registry "brokerage"
              "uat" new_MultiTenantStorageService _ eq_refl Hg) as [Hok _].
  destruct (Hok info s' E) as (type & v & Ht & Hn & _).
  exists info, s'. split; [done|].
  rewrite Hn. injection Ht as <-. reflexivity.
Defined.

(** X27.  An environment name inherited from [Object.prototype].  For a
    registered tenant, a name such as [constructor] or [toString] that is
    not one of the tenant's environments passes the registry's check,
    since the lookup finds the inherited member, but gives a configuration
    with no provider: resolution then fails in the factory with the
    [TypeError] of [undefined.toLowerCase()], after one factory invocation
    with an undefined provider type, and nothing is cached. *)
Theorem inherited_environment_name_fails_in_factory
    {W : Type} `{AZ : BlobService W}
    (platforms : gmap string Config.Platform)
    (platformId environment : string) (platform : Config.Platform)
    (s : Service) :
  platforms !! platformId = Some platform →
  Config.environments platform !! environment = None →
  Config.inherited environment = true →
  providerCache s !! cacheKey platformId environment = None →
  ∃ s',
    getStorageProvider platforms platformId environment s
    = (Throw (new_TypeError
                "Cannot read properties of undefined (reading 'toLowerCase')"),
       s') ∧
    providerCache s' = providerCache s ∧
    allocated s' = allocated s ∧
    factoryCalls s'
    = factoryCalls s ++ [(cacheKey platformId environment, None)].
Proof.
  intros Hp He Hi Hc. unfold getStorageProvider, Config.getPlatformConfig.
  rewrite Hc, Hp, He, Hi. simpl. by eexists.
Qed.

(** The environment [toString] of the tenant [invictus]. *)
Lemma inherited_environment_name_fails_in_factory_witness :
  fst (getStorageProvider Mem.registry "invictus" "toString"
         new_MultiTenantStorageService)
  = Throw (new_TypeError
             "Cannot read properties of undefined (reading 'toLowerCase')").
Proof.
  assert (Hp : Mem.registry !! "invictus"
               = Some {| Config.name := "Invictus";
                         Config.environments := {["uat" := Mem.s3_env]} |})
    by (vm_compute; reflexivity).
  destruct (inherited_environment_name_fails_in_factory Mem.registry
              "invictus" "toString" _ new_MultiTenantStorageService
              Hp eq_refl eq_refl eq_refl) as (s' & -> & _).
  reflexivity.
Defined.

(** X28.  The tenant identifier the middleware checks is not the one it
    passes on.  The middleware looks the registry up under the trimmed,
    lower-cased header but attaches the header as it came.  So when it
    lets a request through, the registry knows the normalised identifier;
    and if the registry does not know the identifier as it came (and
    nothing is cached for it), the upload that follows is refused by the
    service with the registry's error, before any backend is reached. *)
Theorem middleware_checks_normalised_but_forwards_raw_tenant
    `{RT : Runtime} {W : Type} `{S3C : S3Client W} `{AZ : BlobService W}
    (trim toLowerCase : string → string)
    (platforms : gmap string Config.Platform)
    (header NODE_ENV : option string) (context : Middleware.PlatformContext)
    (app : App W) (e : JsError)
    (bucketName : string) (prefix : option string) (access : string)
    (fileData : Body) (fileName : string) (metadata : gmap string JsVal) :
  Middleware.platformAuthMiddleware trim toLowerCase platforms header NODE_ENV
  = Middleware.Next context →
  header = Some (Middleware.ctx_platformId context) ∧
  NODE_ENV = Some (Middleware.ctx_environment context) ∧
  Config.getPlatformConfig platforms
    (toLowerCase (trim (Middleware.ctx_platformId context)))
    (Middleware.ctx_environment context)
  = Ok (Middleware.ctx_config context) ∧
  (providerCache (svc app)
   !! cacheKey (Middleware.ctx_platformId context)
        (Middleware.ctx_environment context) = None →
   Config.getPlatformConfig platforms (Middleware.ctx_platformId context)
     (Middleware.ctx_environment context) = Throw e →
   Spec2.refused "Upload failed: " e app
     (uploadFile platforms (Middleware.ctx_platformId context)
        (Middleware.ctx_environment context) bucketName prefix access
        fileData fileName metadata app)).
Proof.
  unfold Middleware.platformAuthMiddleware. intros H.
  destruct header as [h|]; [|done].
  destruct (falsy_str (Some h)) eqn:Hh; [done|].
  destruct NODE_ENV as [n|]; [|done].
  destruct (falsy_str (Some n)) eqn:Hn; [done|].
  change (tmpl (Some h)) with h in H. change (tmpl (Some n)) with n in H.
  destruct (Config.getPlatformConfig _ _ _) as [config|e0] eqn:Hg; [|done].
  injection H as <-. simpl.
  split; [done|]. split; [done|]. split; [done|].
  intros Hc Hthrow. unfold uploadFile, Spec2.refused.
  match goal with
  | |- context [delegate _ ?pre _ _ ?op _] =>
      destruct (RoutingFacts.delegate_unknown platforms pre h n op app e
                  Hc Hthrow) as (s' & -> & Hs)
  end.
  done.
Qed.

(** The header [Invictus] passes the middleware, and the upload for it is
    refused. *)
Lemma middleware_checks_normalised_but_forwards_raw_tenant_witness :
  ∃ context,
    Middleware.platformAuthMiddleware Middleware.asciiTrim Str.lower
      Mem.registry (Some "Invictus") (Some "uat")
    = Middleware.Next context ∧
    fst (uploadFile Mem.registry (Middleware.ctx_platformId context)
           (Middleware.ctx_environment context) "docs" None "private" "body"
           "a.txt" ∅
           (MkApp new_MultiTenantStorageService
              (Mem.start Mem.private_bucket_world 0)))
    = Throw (new_Error "Upload failed: Platform 'Invictus' not found").
Proof.
  destruct (Middleware.platformAuthMiddleware Middleware.asciiTrim Str.lower
              Mem.registry (Some "Invictus") (Some "uat"))
    as [status error|context] eqn:E;
    [exfalso; revert E; vm_compute; discriminate|].
  exists context. split; [done|].
  destruct (middleware_checks_normalised_but_forwards_raw_tenant
              Middleware.asciiTrim Str.lower Mem.registry (Some "Invictus")
              (Some "uat") context
              (MkApp new_MultiTenantStorageService
                 (Mem.start Mem.private_bucket_world 0))
              (new_Error "Platform 'Invictus' not found")
              "docs" None "private" "body" "a.txt" ∅ E)
    as (Hh & Hn & _ & Hrefused).
  injection Hh as Hh. injection Hn as Hn. rewrite <- Hh, <- Hn in *.
  assert (Hg : Config.getPlatformConfig Mem.registry "Invictus" "uat"
               = Throw (new_Error "Platform 'Invictus' not found"))
    by (vm_compute; reflexivity).
  destruct (Hrefused eq_refl Hg) as [Hr _]. exact Hr.
Defined.

(** X29.  After a successful upload the service knows the tenant's
    adapter: [getProviderInfo] for the same pair succeeds, changes nothing
    (no registry lookup, no factory invocation), echoes the pair, and names
    an adapter kind, which is ['s3'] or ['azure']. *)
Theorem provider_info_after_upload_is_a_cache_hit
    `{RT : Runtime} {W : Type} `{S3C : S3Client W} `{AZ : BlobService W}
    (platforms : gmap string Config.Platform)
    (platformId environment bucketName : string) (prefix : option string)
    (access : string) (fileData : Body) (fileName : string)
    (metadata : gmap string JsVal) (app app' : App W) (r : UploadResult) :
  uploadFile platforms platformId environment bucketName prefix access
    fileData fileName metadata app = (Ok r, app') →
  ∃ info,
    ServiceInfo.getProviderInfo platforms platformId environment (svc app')
    = (Ok info, svc app') ∧
    ServiceInfo.info_platformId info = platformId ∧
    ServiceInfo.info_environment info = environment ∧
    (ServiceInfo.info_name info = "s3" ∨
     ServiceInfo.info_name info = "azure").
Proof.
  unfold uploadFile, delegate. intros H.
  destruct (getStorageProvider platforms platformId environment (svc app))
    as [[v|e] s'] eqn:Hres; [|done].
  apply ServiceFacts.resolve_cached in Hres.
  assert (svc app' = s') as ->.
  { destruct (bind _ _ _) as [[a|e] b']; by simplify_eq. }
  unfold ServiceInfo.getProviderInfo.
  rewrite (ServiceFacts.resolve_hit platforms _ _ _ _ Hres).
  eexists. split; [reflexivity|]. simpl. repeat split.
  destruct v; [by left|by right].
Qed.

(** An upload for the tenant [invictus]. *)
Lemma provider_info_after_upload_is_a_cache_hit_witness :
  ∃ r app' info,
    uploadFile Mem.registry "invictus" "uat" "docs" None "private" "body"
      "a.txt" ∅
      (MkApp new_MultiTenantStorageService
         (Mem.start Mem.private_bucket_world 0)) = (Ok r, app') ∧
    ServiceInfo.getProviderInfo Mem.registry "invictus" "uat" (svc app')
    = (Ok info, svc app').
Proof.
  destruct (uploadFile Mem.registry "invictus" "uat" "docs" None "private"
              "body" "a.txt" ∅
              (MkApp new_MultiTenantStorageService
                 (Mem.start Mem.private_bucket_world 0)))
    as [[r|e] app'] eqn:E;
    [|exfalso; revert E; vm_compute; discriminate].
  destruct (provider_info_after_upload_is_a_cache_hit Mem.registry
              "invictus" "uat" "docs" None "private" "body" "a.txt" ∅
              _ app' r E) as (info & Hinfo & _).
  by exists r, app', info.
Defined.

(** X30.  The Azure adapter does not look at the host of an address.  The
    container and the blob are read from the path alone, and the requests
    go to the adapter's own account: two addresses with the same path,
    whatever their hosts, make [deleteFile] and [fileExists] behave the
    same, with the same requests, result and final state. *)
Theorem azure_address_host_is_ignored
    `{RT : Runtime} {W : Type} `{AZ : BlobService W}
    (this : AzureProvider) (url1 url2 : string) (a1 a2 : URL) (st : St W) :
  new_URL url1 = Ok a1 →
  new_URL url2 = Ok a2 →
  pathname a1 = pathname a2 →
  Azure.deleteFile this url1 st = Azure.deleteFile this url2 st ∧
  Azure.fileExists this url1 st = Azure.fileExists this url2 st.
Proof.
  intros H1 H2 Hp.
  unfold Azure.deleteFile, Azure.fileExists, Azure.parseUrl.
  unfold bind, catch, lift, query, update, ret, throw.
  rewrite H1, H2. simpl. rewrite Hp. done.
Qed.

(** The same path under two accounts. *)
Lemma azure_address_host_is_ignored_witness :
  Azure.deleteFile Mem.azure_this
    "https://acct.blob.core.windows.net/documents/report.pdf"
    (Mem.start Mem.private_container_world 0)
  = Azure.deleteFile Mem.azure_this
      "https://other.blob.core.windows.net/documents/report.pdf"
      (Mem.start Mem.private_container_world 0).
Proof.
  assert (H1 : new_URL "https://acct.blob.core.windows.net/documents/report.pdf"
               = Ok {| hostname := "acct.blob.core.windows.net";
                       pathname := "/documents/report.pdf" |})
    by (vm_compute; reflexivity).
  assert (H2 : new_URL "https://other.blob.core.windows.net/documents/report.pdf"
               = Ok {| hostname := "other.blob.core.windows.net";
                       pathname := "/documents/report.pdf" |})
    by (vm_compute; reflexivity).
  destruct (azure_address_host_is_ignored Mem.azure_this _ _ _ _
              (Mem.start Mem.private_container_world 0) H1 H2 eq_refl)
    as [Hd _].
  exact Hd.
Defined.
